(** * Lab booking engine: booking lifecycle, resource status and expiration sweep

    Shallow embedding of
    - [server/routes/bookings.js]: [POST /], [PUT /:id/time], [PUT /:id/status];
    - the booking expiration service ([checkExpiredBookings],
      [handleExpiredBooking], [sendExpirationNotifications]);
    - the booking form of the client ([handleSubmit] and the date helpers it
      calls).

    The document store is a record of finite maps.  Every access to it can
    throw: a fault oracle decides, per access, whether it does, and the
    [try]/[catch] blocks of the source are kept as they are written. *)

From Stdlib Require Import ZArith Ascii String DecimalString List Bool Lia.
From stdpp Require Import base option list gmap strings.
From stdpp Require Import sorting.

Open Scope string_scope.

(** ** Data model *)

Abbreviation Id := nat (only parsing).

Inductive BookingStatus := Pending | Approved | Rejected | Cancelled | Completed.

Inductive ComputerStatus := Available | Booked | Maintenance.

#[global] Instance BookingStatus_eq_dec : EqDecision BookingStatus.
Proof. solve_decision. Defined.

#[global] Instance ComputerStatus_eq_dec : EqDecision ComputerStatus.
Proof. solve_decision. Defined.

Record Computer := mkComputer {
  c_name : string;
  c_location : string;
  c_specifications : string;
  c_status : ComputerStatus
}.

(** Project metadata of a booking, carried through unchanged. *)
Record DatasetSize := mkDatasetSize { ds_value : Z; ds_unit : string }.

Record Metadata := mkMetadata {
  requiresGPU : bool;
  gpuMemoryRequired : Z;
  problemStatement : string;
  datasetType : string;
  datasetSize : DatasetSize;
  datasetLink : string;
  bottleneckExplanation : string
}.

(** Dates are the strings the client sends ([yyyy-MM-dd], [HH:mm]); the
    queries of the server compare them as strings. *)
Record Booking := mkBooking {
  userId : string;
  computerId : Id;
  startDate : string;
  endDate : string;
  startTime : string;
  endTime : string;
  reason : string;
  status : BookingStatus;
  rejectionReason : option string;
  meta : Metadata
}.

Record User := mkUser {
  u_id : Id;
  firebaseUid : string;
  role : string;
  u_name : string
}.

Inductive NotifType := Info | Success | Error.

(** The routes address a notification to a [firebaseUid]; the admin notices of
    the expiration service are addressed to [admin._id]. *)
Inductive Recipient := ToUid (uid : string) | ToOid (oid : Id).

(** A notification: recipient, title, type, and the booking and computer its
    metadata names (message text left out). *)
Record Notification := mkNotification {
  n_userId : Recipient;
  n_title : string;
  n_type : NotifType;
  n_bookingId : Id;
  n_computerId : Id
}.

(** Lines written with [console.log] and [console.error]. *)
Inductive LogEntry :=
| LogUpdatedExpired (n : nat)
| LogErrorService
| LogComputerReleased (cid : Id)
| LogComputerNotBooked (cid : Id) (st : ComputerStatus)
| LogComputerNotFound (cid : Id)
| LogExpiredProcessed (bid : Id)
| LogErrorHandlingExpired
| LogNotificationsSent (bid : Id)
| LogErrorNotifications
| LogErrorCreating
| LogErrorUpdatingTime
| LogErrorUpdatingStatus.

(** The store and the console.  [notifications] and [logs] have the most
    recent entry first; [tick] counts the accesses to the store. *)
Record World := mkWorld {
  bookings : gmap nat Booking;
  computers : gmap nat Computer;
  users : list User;
  notifications : list Notification;
  logs : list LogEntry;
  tick : nat
}.

Definition set_bookings (f : gmap nat Booking -> gmap nat Booking) (w : World) : World :=
  mkWorld (f (bookings w)) (computers w) (users w) (notifications w) (logs w) (tick w).

Definition set_computers (f : gmap nat Computer -> gmap nat Computer) (w : World) : World :=
  mkWorld (bookings w) (f (computers w)) (users w) (notifications w) (logs w) (tick w).

Definition add_notifications (ns : list Notification) (w : World) : World :=
  mkWorld (bookings w) (computers w) (users w) (ns ++ notifications w) (logs w) (tick w).

Definition add_log (e : LogEntry) (w : World) : World :=
  mkWorld (bookings w) (computers w) (users w) (notifications w) (e :: logs w) (tick w).

Definition bump (w : World) : World :=
  mkWorld (bookings w) (computers w) (users w) (notifications w) (logs w) (S (tick w)).

Definition with_status (s : BookingStatus) (b : Booking) : Booking :=
  mkBooking (userId b) (computerId b) (startDate b) (endDate b) (startTime b)
    (endTime b) (reason b) s (rejectionReason b) (meta b).

Definition with_rejectionReason (r : option string) (b : Booking) : Booking :=
  mkBooking (userId b) (computerId b) (startDate b) (endDate b) (startTime b)
    (endTime b) (reason b) (status b) r (meta b).

Definition with_computerId (c : Id) (b : Booking) : Booking :=
  mkBooking (userId b) c (startDate b) (endDate b) (startTime b)
    (endTime b) (reason b) (status b) (rejectionReason b) (meta b).

Definition with_startTime (t : string) (b : Booking) : Booking :=
  mkBooking (userId b) (computerId b) (startDate b) (endDate b) t
    (endTime b) (reason b) (status b) (rejectionReason b) (meta b).

Definition with_endTime (t : string) (b : Booking) : Booking :=
  mkBooking (userId b) (computerId b) (startDate b) (endDate b) (startTime b)
    t (reason b) (status b) (rejectionReason b) (meta b).

Definition with_endDate (d : string) (b : Booking) : Booking :=
  mkBooking (userId b) (computerId b) (startDate b) d (startTime b)
    (endTime b) (reason b) (status b) (rejectionReason b) (meta b).

Definition with_c_status (s : ComputerStatus) (c : Computer) : Computer :=
  mkComputer (c_name c) (c_location c) (c_specifications c) s.

(** ** Exceptions and the store monad *)

(** The accesses to the store, as the source makes them. *)
Inductive Op :=
| OpUserFindOne (uid : string)
| OpUserFindAdmins
| OpBookingFindById (id : Id)
| OpBookingFindOtherApproved (cid id : Id)
| OpBookingFindExpired
| OpBookingSave (id : Id)
| OpBookingPopulate (id : Id)
| OpComputerFindById (cid : Id)
| OpComputerSave (cid : Id)
| OpComputerUpdate (cid : Id)
| OpNotificationSave
| OpNotificationInsertMany.

Inductive Exn :=
| StoreError (op : Op)
| TypeError.

Inductive Outcome (A : Type) :=
| Ok (a : A)
| Throw (e : Exn).
Arguments Ok {A} a.
Arguments Throw {A} e.

(** A fault oracle: whether the access [op] made at tick [t] throws. *)
Abbreviation Fault := (nat -> Op -> bool) (only parsing).

Definition no_fault : nat -> Op -> bool := fun _ _ => false.

Definition M (A : Type) : Type := World -> Outcome A * World.

Definition ret {A} (a : A) : M A := fun w => (Ok a, w).

Definition bind {A B} (m : M A) (k : A -> M B) : M B := fun w =>
  match m w with
  | (Ok a, w') => k a w'
  | (Throw e, w') => (Throw e, w')
  end.

Definition throw {A} (e : Exn) : M A := fun w => (Throw e, w).

(** [try { body } catch (error) { handler }] *)
Definition try_catch {A} (body : M A) (handler : Exn -> M A) : M A := fun w =>
  match body w with
  | (Ok a, w') => (Ok a, w')
  | (Throw e, w') => handler e w'
  end.

Definition console (e : LogEntry) : M unit := fun w => (Ok tt, add_log e w).

Notation "x <- m ;; k" := (bind m (fun x => k))
  (at level 100, m at next level, right associativity).
Notation "m ;;; k" := (bind m (fun _ => k))
  (at level 100, right associativity).

(** [for (const x of l) { await f(x) }] *)
Fixpoint for_each {A} (l : list A) (f : A -> M unit) : M unit :=
  match l with
  | [] => ret tt
  | x :: l' => f x ;;; for_each l' f
  end.

(** ** Requests, responses, clock *)

Inductive Payload :=
| Message (m : string)
| BookingJson (id : Id) (b : Booking).

Record Response := mkResponse { code : Z; payload : Payload }.

(** [req.body] of [POST /]; an absent field is [None]. *)
Record CreateBody := mkCreateBody {
  cb_computerId : option Id;
  cb_startDate : option string;
  cb_endDate : option string;
  cb_startTime : option string;
  cb_endTime : option string;
  cb_reason : option string;
  cb_meta : Metadata
}.

(** [req.body] of [PUT /:id/status]. *)
Record StatusBody := mkStatusBody {
  sb_status : option string;
  sb_rejectionReason : option string
}.

(** [req.body] of [PUT /:id/time]. *)
Record TimeBody := mkTimeBody {
  tb_startTime : option string;
  tb_endTime : option string;
  tb_computerId : option Id;
  tb_endDate : option string
}.

(** What [checkExpiredBookings] reads from the clock:
    [new Date().toISOString().split("T")[0]] and the [HH:mm] local time. *)
Record Clock := mkClock { currentDate : string; currentTime : string }.

(** JavaScript truthiness of an optional string: absent and [""] are falsy. *)
Definition present (s : option string) : option string :=
  match s with
  | Some s' => if String.eqb s' "" then None else Some s'
  | None => None
  end.

Definition falsy (s : option string) : bool :=
  match present s with Some _ => false | None => true end.

(** [["approved", "rejected", "cancelled"].includes(status)], with the status
    the booking then takes. *)
Definition parse_target (s : option string) : option BookingStatus :=
  match s with
  | Some s' =>
      if String.eqb s' "approved" then Some Approved
      else if String.eqb s' "rejected" then Some Rejected
      else if String.eqb s' "cancelled" then Some Cancelled
      else None
  | None => None
  end.

Definition is_admin (u : User) : bool := String.eqb (role u) "admin".

(** [!user || user.role !== "admin"] *)
Definition not_admin (u : option User) : bool :=
  match u with
  | Some u' => negb (is_admin u')
  | None => true
  end.

(** The [$or] of the query of [checkExpiredBookings]:
    [{startDate: d, endDate: d, endTime: {$lt: t}}] or [{endDate: {$lt: d}}],
    on strings. *)
Definition elapsed (now : Clock) (b : Booking) : bool :=
  (String.eqb (startDate b) (currentDate now)
   && String.eqb (endDate b) (currentDate now)
   && String.ltb (endTime b) (currentTime now))
  || String.ltb (endDate b) (currentDate now).

(** The query of [checkExpiredBookings]: [{status: "approved", $or: [...]}]. *)
Definition expired_query (now : Clock) (b : Booking) : bool :=
  bool_decide (status b = Approved) && elapsed now b.

Definition find_expired (now : Clock) (bs : gmap nat Booking) : list (nat * Booking) :=
  List.filter (fun d => expired_query now (snd d)) (map_to_list bs).

(** [{computerId: cid, status: "approved", _id: {$ne: id}}] *)
Definition other_approved_query (cid id : Id) (d : nat * Booking) : bool :=
  bool_decide (computerId (snd d) = cid) &&
  bool_decide (status (snd d) = Approved) &&
  negb (bool_decide (fst d = id)).

Definition find_other_approved (cid id : Id) (bs : gmap nat Booking) : option (nat * Booking) :=
  List.find (other_approved_query cid id) (map_to_list bs).

Definition status_notification (target : BookingStatus) (id : Id) (b : Booking) : Notification :=
  mkNotification (ToUid (userId b))
    (match target with
     | Approved => "Booking Approved"
     | Rejected => "Booking Rejected"
     | _ => "Booking Cancelled"
     end)
    (if bool_decide (target = Approved) then Success else Error)
    id (computerId b).

Definition create_notification (uid : string) (id cid : Id) (admin : User) : Notification :=
  mkNotification (ToUid (firebaseUid admin)) "New Booking Request" Info id cid.

Definition expired_user_notification (id : Id) (b : Booking) : Notification :=
  mkNotification (ToUid (userId b)) "Booking Session Ended" Info id (computerId b).

Definition expired_admin_notification (id : Id) (b : Booking) (admin : User) : Notification :=
  mkNotification (ToOid (u_id admin)) "Computer Available" Success id (computerId b).

(** Modelled from the spec: the defaults of the Booking schema
    ([models/booking], not among the sources) for the fields that [POST /]
    does not pass: a booking is "created in [pending]", and its rejection
    reason is set only once it is rejected. *)
Definition schema_default_status : BookingStatus := Pending.
Definition schema_default_rejectionReason : option string := None.

(** [new Booking({...})] of [POST /]. *)
Definition new_booking (uid : string) (cid : Id) (sd ed st et r : string) (m : Metadata) : Booking :=
  mkBooking uid cid sd ed st et r schema_default_status schema_default_rejectionReason m.

Section Engine.

Variable F : nat -> Op -> bool.

(** One access to the store; it throws when the oracle says so. *)
Definition access {A} (op : Op) (f : World -> A * World) : M A := fun w =>
  if F (tick w) op then (Throw (StoreError op), bump w)
  else let '(a, w') := f (bump w) in (Ok a, w').

Definition read {A} (op : Op) (f : World -> A) : M A :=
  access op (fun w => (f w, w)).

Definition write (op : Op) (f : World -> World) : M unit :=
  access op (fun w => (tt, f w)).

Definition User_findOne (uid : string) : M (option User) :=
  read (OpUserFindOne uid)
    (fun w => List.find (fun u => String.eqb (firebaseUid u) uid) (users w)).

Definition User_findAdmins : M (list User) :=
  read OpUserFindAdmins (fun w => List.filter is_admin (users w)).

Definition Booking_findById (id : Id) : M (option Booking) :=
  read (OpBookingFindById id) (fun w => bookings w !! id).

(** [Booking.findById(id).populate("computerId")]: the booking with the
    computer it refers to, [None] for a computer that is gone. *)
Definition Booking_findById_populated (id : Id) : M (option (Booking * option Computer)) :=
  read (OpBookingFindById id)
    (fun w => match bookings w !! id with
              | Some b => Some (b, computers w !! computerId b)
              | None => None
              end).

Definition Booking_findOtherApproved (cid id : Id) : M (option (nat * Booking)) :=
  read (OpBookingFindOtherApproved cid id)
    (fun w => find_other_approved cid id (bookings w)).

Definition Booking_findExpired (now : Clock) : M (list (nat * Booking)) :=
  read OpBookingFindExpired (fun w => find_expired now (bookings w)).

Definition Booking_save (id : Id) (b : Booking) : M unit :=
  write (OpBookingSave id) (set_bookings (fun bs => <[id := b]> bs)).

Definition Booking_populate (id : Id) : M unit :=
  read (OpBookingPopulate id) (fun _ => tt).

Definition Computer_findById (cid : Id) : M (option Computer) :=
  read (OpComputerFindById cid) (fun w => computers w !! cid).

Definition Computer_save (cid : Id) (c : Computer) : M unit :=
  write (OpComputerSave cid) (set_computers (fun cs => <[cid := c]> cs)).

(** [Computer.findByIdAndUpdate(cid, {status: s})] *)
Definition Computer_findByIdAndUpdate (cid : Id) (s : ComputerStatus) : M unit :=
  write (OpComputerUpdate cid) (set_computers (fun cs => alter (with_c_status s) cid cs)).

Definition Notification_save (n : Notification) : M unit :=
  write OpNotificationSave (add_notifications [n]).

Definition Notification_insertMany (ns : list Notification) : M unit :=
  write OpNotificationInsertMany (add_notifications ns).

(** The [_id] of a new document: an identifier no booking has. *)
Definition new_id : M Id := fun w => (Ok (fresh (dom (bookings w))), w).

(** *** The expiration service *)

Definition sendExpirationNotifications (id : Id) (booking : Booking)
    (computer : option Computer) : M unit :=
  try_catch
    (Notification_save (expired_user_notification id booking) ;;;
     adminUsers <- User_findAdmins ;;
     for_each adminUsers
       (fun admin => Notification_save (expired_admin_notification id booking admin)) ;;;
     console (LogNotificationsSent id))
    (fun _ => console LogErrorNotifications).

Definition handleExpiredBooking (doc : nat * Booking) : M unit :=
  let id := fst doc in
  try_catch
    (let booking := with_status Completed (snd doc) in
     Booking_save id booking ;;;
     computer <- Computer_findById (computerId booking) ;;
     (match computer with
      | Some c =>
          if bool_decide (c_status c = Booked) then
            Computer_save (computerId booking) (with_c_status Available c) ;;;
            console (LogComputerReleased (computerId booking))
          else console (LogComputerNotBooked (computerId booking) (c_status c))
      | None => console (LogComputerNotFound (computerId booking))
      end) ;;;
     sendExpirationNotifications id booking
       (match computer with
        | Some c => Some (if bool_decide (c_status c = Booked)
                          then with_c_status Available c else c)
        | None => None
        end) ;;;
     console (LogExpiredProcessed id))
    (fun _ => console LogErrorHandlingExpired).

Definition checkExpiredBookings (now : Clock) : M unit :=
  try_catch
    (expiredBookings <- Booking_findExpired now ;;
     for_each expiredBookings handleExpiredBooking ;;;
     console (LogUpdatedExpired (length expiredBookings)))
    (fun _ => console LogErrorService).

(** [processExpiredBookings]: the manual entry point. *)
Definition processExpiredBookings (now : Clock) : M unit :=
  checkExpiredBookings now.

End Engine.

(** ** The booking routes *)

Definition missing_required_fields : Response := mkResponse 400 (Message "Missing required fields").
Definition computer_not_found : Response := mkResponse 404 (Message "Computer not found").
Definition admin_access_required : Response := mkResponse 403 (Message "Admin access required").
Definition booking_not_found : Response := mkResponse 404 (Message "Booking not found").
Definition only_approved_bookings : Response := mkResponse 400 (Message "Can only update approved bookings").
Definition new_computer_not_found : Response := mkResponse 404 (Message "New computer not found").
Definition invalid_status : Response := mkResponse 400 (Message "Invalid status").
Definition rejection_reason_required : Response := mkResponse 400 (Message "Rejection reason is required").
Definition error_creating : Response := mkResponse 500 (Message "Error creating booking").
Definition error_updating_time : Response := mkResponse 500 (Message "Error updating booking time").
Definition error_updating_status : Response := mkResponse 500 (Message "Error updating booking status").

Definition or_keep (new : option string) (old : string) : string :=
  match present new with Some s => s | None => old end.

Section Routes.

Variable F : nat -> Op -> bool.

(** [router.post("/")]; [uid] is [req.user.firebaseUid]. *)
Definition createBooking (uid : string) (body : CreateBody) : M Response :=
  try_catch
    (match cb_computerId body, present (cb_startDate body), present (cb_endDate body),
           present (cb_startTime body), present (cb_endTime body), present (cb_reason body) with
     | Some cid, Some sd, Some ed, Some st, Some et, Some r =>
         computer <- Computer_findById F cid ;;
         match computer with
         | None => ret computer_not_found
         | Some c =>
             id <- new_id ;;
             let booking := new_booking uid cid sd ed st et r (cb_meta body) in
             Booking_save F id booking ;;;
             admins <- User_findAdmins F ;;
             let adminNotifications := map (create_notification uid id cid) admins in
             (if (0 <? length adminNotifications)%nat
              then Notification_insertMany F adminNotifications
              else ret tt) ;;;
             Booking_populate F id ;;;
             ret (mkResponse 201 (BookingJson id booking))
         end
     | _, _, _, _, _, _ => ret missing_required_fields
     end)
    (fun _ => console LogErrorCreating ;;; ret error_creating).

(** The part of [router.put("/:id/time")] that moves the booking to another
    computer; [inl] is a response sent from inside it. *)
Definition change_computer (id : Id) (booking : Booking) (body : TimeBody)
    : M (Response + Booking) :=
  match tb_computerId body with
  | Some cid =>
      if bool_decide (cid ≠ computerId booking) then
        newComputer <- Computer_findById F cid ;;
        match newComputer with
        | None => ret (inl new_computer_not_found)
        | Some _ =>
            otherBookings <- Booking_findOtherApproved F (computerId booking) id ;;
            (match otherBookings with
             | None => Computer_findByIdAndUpdate F (computerId booking) Available
             | Some _ => ret tt
             end) ;;;
            Computer_findByIdAndUpdate F cid Booked ;;;
            ret (inr (with_computerId cid booking))
        end
      else ret (inr booking)
  | None => ret (inr booking)
  end.

(** [router.put("/:id/time")] *)
Definition updateBookingTime (uid : string) (id : Id) (body : TimeBody) : M Response :=
  try_catch
    (user <- User_findOne F uid ;;
     if not_admin user then ret admin_access_required else
     found <- Booking_findById F id ;;
     match found with
     | None => ret booking_not_found
     | Some booking =>
         if bool_decide (status booking ≠ Approved) then ret only_approved_bookings else
         moved <- change_computer id booking body ;;
         match moved with
         | inl response => ret response
         | inr booking1 =>
             let booking2 :=
               with_startTime (or_keep (tb_startTime body) (startTime booking1)) booking1 in
             let booking3 :=
               with_endTime (or_keep (tb_endTime body) (endTime booking2)) booking2 in
             let booking4 :=
               with_endDate (or_keep (tb_endDate body) (endDate booking3)) booking3 in
             Booking_save F id booking4 ;;;
             Booking_populate F id ;;;
             _ <- User_findOne F (userId booking4) ;;
             ret (mkResponse 200 (BookingJson id booking4))
         end
     end)
    (fun _ => console LogErrorUpdatingTime ;;; ret error_updating_time).

(** The computer update of [router.put("/:id/status")], lines 331-349;
    [computer] is the populated [booking.computerId], and reading [._id] of
    a computer that is gone throws. *)
Definition sync_computer (target : BookingStatus) (id : Id) (booking : Booking)
    (computer : option Computer) : M unit :=
  if bool_decide (target = Approved) then
    match computer with
    | None => throw TypeError
    | Some _ => Computer_findByIdAndUpdate F (computerId booking) Booked
    end
  else if bool_decide (target = Rejected) || bool_decide (target = Cancelled) then
    match computer with
    | None => throw TypeError
    | Some _ =>
        otherApprovedBookings <- Booking_findOtherApproved F (computerId booking) id ;;
        match otherApprovedBookings with
        | None => Computer_findByIdAndUpdate F (computerId booking) Available
        | Some _ => ret tt
        end
    end
  else ret tt.

(** [router.put("/:id/status")] *)
Definition setBookingStatus (uid : string) (id : Id) (body : StatusBody) : M Response :=
  try_catch
    (user <- User_findOne F uid ;;
     if not_admin user then ret admin_access_required else
     match parse_target (sb_status body) with
     | None => ret invalid_status
     | Some target =>
         if bool_decide (target = Rejected) && falsy (sb_rejectionReason body)
         then ret rejection_reason_required else
         found <- Booking_findById_populated F id ;;
         match found with
         | None => ret booking_not_found
         | Some (booking0, computer) =>
             let booking1 := with_status target booking0 in
             let booking :=
               if bool_decide (target = Rejected)
               then with_rejectionReason (sb_rejectionReason body) booking1
               else booking1 in
             Booking_save F id booking ;;;
             sync_computer target id booking computer ;;;
             (match computer with
              | None => throw TypeError
              | Some _ => Notification_save F (status_notification target id booking)
              end) ;;;
             ret (mkResponse 200 (BookingJson id booking))
         end
     end)
    (fun _ => console LogErrorUpdatingStatus ;;; ret error_updating_status).

End Routes.

(** ** The booking form of the client *)

(** A JavaScript [Date] is its timestamp: milliseconds since the epoch, read in
    the local time zone, which is taken to have a fixed offset (no daylight
    saving change), so that a local day has 86400000 ms and day 0 (1 January
    1970) is a Thursday. *)
Module DateFns.

Open Scope Z_scope.

Definition ms_per_minute : Z := 60000.
Definition ms_per_hour : Z := 3600000.
Definition ms_per_day : Z := 86400000.

(** [getDay]: 0 is Sunday. *)
Definition getDay (d : Z) : Z := (d / ms_per_day + 4) mod 7.

Definition isBefore (a b : Z) : bool := a <? b.

(** [differenceInDays(a, b)]: the number of full days between [b] and [a],
    rounded towards zero. *)
Definition differenceInDays (a b : Z) : Z := Z.quot (a - b) ms_per_day.

(** [differenceInHours(a, b)]: full hours, rounded towards zero. *)
Definition differenceInHours (a b : Z) : Z := Z.quot (a - b) ms_per_hour.

Definition startOfDay (d : Z) : Z := d - d mod ms_per_day.

Definition getHours (t : Z) : Z := (t mod ms_per_day) / ms_per_hour.

Definition getMinutes (t : Z) : Z := (t mod ms_per_hour) / ms_per_minute.

(** [d.setHours(h, m, 0, 0)] *)
Definition setHours (d h m : Z) : Z :=
  startOfDay d + h * ms_per_hour + m * ms_per_minute.

(** The civil date of a day number (proleptic Gregorian calendar). *)
Definition civil_of_days (days : Z) : Z * Z * Z :=
  let z := days + 719468 in
  let era := z / 146097 in
  let doe := z - era * 146097 in
  let yoe := (doe - doe / 1460 + doe / 36524 - doe / 146096) / 365 in
  let doy := doe - (365 * yoe + yoe / 4 - yoe / 100) in
  let mp := (5 * doy + 2) / 153 in
  let d := doy - (153 * mp + 2) / 5 + 1 in
  let m := if mp <? 10 then mp + 3 else mp - 9 in
  let y := yoe + era * 400 + (if m <=? 2 then 1 else 0) in
  (y, m, d).

(** [new Date(y, m - 1, d, hh, mm)] *)
Definition make_date (y m d hh mm : Z) : Z :=
  let y' := if m <=? 2 then y - 1 else y in
  let era := y' / 400 in
  let yoe := y' - era * 400 in
  let doy := (153 * (if 2 <? m then m - 3 else m + 9) + 2) / 5 + d - 1 in
  let doe := yoe * 365 + yoe / 4 - yoe / 100 + doy in
  (era * 146097 + doe - 719468) * ms_per_day + hh * ms_per_hour + mm * ms_per_minute.

Definition digit (n : Z) : ascii := ascii_of_nat (48 + Z.to_nat (n mod 10)).

Definition pad2 (n : Z) : string :=
  String (digit (n / 10)) (String (digit n) EmptyString).

Definition pad4 (n : Z) : string :=
  String (digit (n / 1000)) (String (digit (n / 100)) (pad2 n)).

(** [addLeadingZeros(n, 4)] of date-fns for [n >= 0]: the decimal digits of
    [n], at least four. *)
Definition addLeadingZeros4 (n : Z) : string :=
  if n <? 10000 then pad4 n else NilZero.string_of_uint (N.to_uint (Z.to_N n)).

(** [format(d, "yyyy-MM-dd")]; [yyyy] writes the year of the era: the year
    itself from year 1 on, and [1 - y] for a year [y <= 0] (year 0 is 1 BC). *)
Definition format_date (d : Z) : string :=
  let '(y, m, dd) := civil_of_days (d / ms_per_day) in
  let year := if 0 <? y then y else 1 - y in
  (addLeadingZeros4 year ++ "-" ++ pad2 m ++ "-" ++ pad2 dd)%string.

(** [format(t, "HH:mm")] *)
Definition format_time (t : Z) : string :=
  (pad2 (getHours t) ++ ":" ++ pad2 (getMinutes t))%string.

End DateFns.

(** ** Strings

    A JavaScript string is modelled by its UTF-8 encoding, the form in which
    the store keeps it: a [string] is the sequence of the bytes. *)

(** The white space of one byte: TAB, LF, VT, FF, CR and SP. *)
Definition is_space (c : ascii) : bool :=
  let n := nat_of_ascii c in
  (n =? 32)%nat || ((9 <=? n)%nat && (n <=? 13)%nat).

(** The white space of two bytes: U+00A0. *)
Definition is_space2 (c1 c2 : ascii) : bool :=
  (nat_of_ascii c1 =? 194)%nat && (nat_of_ascii c2 =? 160)%nat.

(** The white space of three bytes: U+1680, U+2000 to U+200A, U+2028, U+2029,
    U+202F, U+205F, U+3000 and U+FEFF. *)
Definition is_space3 (c1 c2 c3 : ascii) : bool :=
  let n1 := nat_of_ascii c1 in
  let n2 := nat_of_ascii c2 in
  let n3 := nat_of_ascii c3 in
  ((n1 =? 225) && (n2 =? 154) && (n3 =? 128))%nat
  || ((n1 =? 226) && (n2 =? 128)
      && (((128 <=? n3) && (n3 <=? 138)) || (n3 =? 168) || (n3 =? 169) || (n3 =? 175)))%nat
  || ((n1 =? 226) && (n2 =? 129) && (n3 =? 159))%nat
  || ((n1 =? 227) && (n2 =? 128) && (n3 =? 128))%nat
  || ((n1 =? 239) && (n2 =? 187) && (n3 =? 191))%nat.

(** [String.prototype.trimStart]: the white space and the line terminators
    of ECMAScript are dropped from the front. *)
Fixpoint trim_start (s : string) : string :=
  match s with
  | String c1 s1 =>
      if is_space c1 then trim_start s1 else
      match s1 with
      | String c2 s2 =>
          if is_space2 c1 c2 then trim_start s2 else
          match s2 with
          | String c3 s3 => if is_space3 c1 c2 c3 then trim_start s3 else s
          | EmptyString => s
          end
      | EmptyString => s
      end
  | EmptyString => EmptyString
  end.

(** The string is white space only. *)
Fixpoint white_only (s : string) : bool :=
  match s with
  | String c1 s1 =>
      if is_space c1 then white_only s1 else
      match s1 with
      | String c2 s2 =>
          if is_space2 c1 c2 then white_only s2 else
          match s2 with
          | String c3 s3 => is_space3 c1 c2 c3 && white_only s3
          | EmptyString => false
          end
      | EmptyString => false
      end
  | EmptyString => true
  end.

(** [String.prototype.trimEnd]: the string up to its last byte that is not
    part of trailing white space. *)
Fixpoint trim_end (s : string) : string :=
  match s with
  | String c s' => if white_only s then EmptyString else String c (trim_end s')
  | EmptyString => EmptyString
  end.

(** [String.prototype.trim] *)
Definition trim (s : string) : string := trim_end (trim_start s).

(** The white space and the line terminators of ECMAScript, by code point:
    each in UTF-8. *)
Definition utf8 (bytes : list nat) : string :=
  string_of_list_ascii (map ascii_of_nat bytes).

Definition white_space : list string :=
  map utf8
    [ [9]; [10]; [11]; [12]; [13]; [32]; [194; 160]; [225; 154; 128];
      [226; 128; 128]; [226; 128; 129]; [226; 128; 130]; [226; 128; 131];
      [226; 128; 132]; [226; 128; 133]; [226; 128; 134]; [226; 128; 135];
      [226; 128; 136]; [226; 128; 137]; [226; 128; 138];
      [226; 128; 168]; [226; 128; 169]; [226; 128; 175]; [226; 129; 159];
      [227; 128; 128]; [239; 187; 191] ]%list.

(** A string made of these characters only. *)
Inductive all_white : string -> Prop :=
| all_white_nil : all_white EmptyString
| all_white_cons (c s : string) :
    existsb (String.eqb c) white_space = true -> all_white s -> all_white (c ++ s).

(** The state of [BookingForm] that [handleSubmit] reads.  A [Date | null] is
    an [option Z]; [selectedComputer] is [None] for the empty string. *)
Record BookingForm := mkBookingForm {
  selectedComputer : option Id;
  f_startDate : option Z;
  f_endDate : option Z;
  f_startTime : option Z;
  f_endTime : option Z;
  f_reason : string;
  f_problemStatement : string;
  f_datasetType : string;
  f_datasetLink : string;
  f_bottleneckExplanation : string;
  f_datasetSize : Z;
  f_datasetSizeUnit : string;
  hasGPU : bool;
  currentGPUMemory : Z
}.

(** [fetchComputers]: of the computers the server lists, the form offers
    those that are available. *)
Definition fetchComputers (listed : list (nat * Computer)) : list (nat * Computer) :=
  List.filter (fun e => bool_decide (c_status (snd e) = Available)) listed.

(** What the form shows after [handleSubmit]: [setError] or [setSuccess]. *)
Inductive Alert := SetError (m : string) | SetSuccess (m : string).

Definition blank (s : string) : bool := String.eqb (trim s) "".

(** The first test of [handleSubmit], lines 119-131, for the fields that are
    not dates. *)
Definition form_text_missing (f : BookingForm) : bool :=
  blank (f_reason f) || blank (f_problemStatement f) ||
  String.eqb (f_datasetType f) "" || blank (f_datasetLink f) ||
  blank (f_bottleneckExplanation f) || (f_datasetSize f =? 0)%Z.

(** [getDateTime(date, time)] *)
Definition getDateTime (date time : Z) : Z :=
  DateFns.setHours date (DateFns.getHours time) (DateFns.getMinutes time).

(** The tests of [handleSubmit] on the dates, lines 136-190; [None] when all
    of them pass. *)
Definition validate_interval (startDate endDate startTime endTime : Z) : option string :=
  if (DateFns.getDay startDate =? 0)%Z then
    Some "Lab is closed on Sundays. Please select a different start date."
  else if (DateFns.getDay endDate =? 0)%Z then
    Some "Lab is closed on Sundays. Please select a different end date."
  else if DateFns.isBefore endDate startDate then
    Some "End date must be after or equal to start date"
  else
    let durationInDays := (DateFns.differenceInDays endDate startDate + 1)%Z in
    if (7 <? durationInDays)%Z then
      Some "Booking duration cannot exceed 7 days"
    else
      let startDateTime := getDateTime startDate startTime in
      let endDateTime := getDateTime endDate endTime in
      if DateFns.isBefore endDateTime startDateTime then
        Some "End time must be after start time"
      else if (DateFns.differenceInDays endDate startDate =? 0)%Z
              && (DateFns.differenceInHours endDateTime startDateTime <? 1)%Z then
        Some "Minimum booking duration is 1 hour for same-day bookings"
      else None.

(** [bookingData], lines 196-213. *)
Definition bookingData (f : BookingForm) (cid : Id) (startDate endDate startTime endTime : Z)
    : CreateBody :=
  mkCreateBody (Some cid)
    (Some (DateFns.format_date startDate)) (Some (DateFns.format_date endDate))
    (Some (DateFns.format_time startTime)) (Some (DateFns.format_time endTime))
    (Some (trim (f_reason f)))
    (mkMetadata (hasGPU f) (currentGPUMemory f) (trim (f_problemStatement f))
       (f_datasetType f) (mkDatasetSize (f_datasetSize f) (f_datasetSizeUnit f))
       (trim (f_datasetLink f)) (trim (f_bottleneckExplanation f))).

Section Client.

Variable F : nat -> Op -> bool.

(** [bookingsAPI.createBooking(bookingData)] and the [try]/[catch] around
    it: a response outside 2xx is thrown by the HTTP client and shown with
    its [message]. *)
Definition submit (uid : string) (data : CreateBody) : M Alert :=
  try_catch
    (response <- createBooking F uid data ;;
     if (200 <=? code response)%Z && (code response <? 300)%Z then
       ret (SetSuccess "Booking request submitted successfully!")
     else
       ret (SetError (match payload response with
                      | Message m => if String.eqb m "" then "Failed to create booking" else m
                      | BookingJson _ _ => "Failed to create booking"
                      end)))
    (fun _ => ret (SetError "Failed to create booking")).

(** [handleSubmit]; [uid] is the user the request is sent for. *)
Definition handleSubmit (uid : string) (f : BookingForm) : M Alert :=
  match selectedComputer f, f_startDate f, f_endDate f, f_startTime f, f_endTime f with
  | Some cid, Some startDate, Some endDate, Some startTime, Some endTime =>
      if form_text_missing f then ret (SetError "Please fill in all required fields")
      else
        match validate_interval startDate endDate startTime endTime with
        | Some message => ret (SetError message)
        | None => submit uid (bookingData f cid startDate endDate startTime endTime)
        end
  | _, _, _, _, _ => ret (SetError "Please fill in all required fields")
  end.

End Client.
(** ** Sequences of operations *)

Inductive Operation :=
| Create (uid : string) (body : CreateBody)
| SetStatus (uid : string) (id : Id) (body : StatusBody)
| UpdateTime (uid : string) (id : Id) (body : TimeBody)
| Sweep (now : Clock).

Definition apply_op (F : nat -> Op -> bool) (w : World) (o : Operation) : World :=
  match o with
  | Create uid body => snd (createBooking F uid body w)
  | SetStatus uid id body => snd (setBookingStatus F uid id body w)
  | UpdateTime uid id body => snd (updateBookingTime F uid id body w)
  | Sweep now => snd (checkExpiredBookings F now w)
  end.

Definition run_ops (F : nat -> Op -> bool) (ops : list Operation) (w : World) : World :=
  fold_left (apply_op F) ops w.

(** ** Properties of worlds *)

(** Some booking on computer [cid] is approved and, at [now], not matched by
    the [$or] of the sweep. *)
Definition has_active_approved (now : Clock) (w : World) (cid : Id) : Prop :=
  ∃ id b, bookings w !! id = Some b ∧ computerId b = cid ∧
          status b = Approved ∧ elapsed now b = false.

(** The invariant of the specification: booked exactly when there is such a
    booking. *)
Definition status_consistent (now : Clock) (w : World) : Prop :=
  ∀ cid c, computers w !! cid = Some c →
    (c_status c = Booked ↔ has_active_approved now w cid).

Definition active_approvedb (now : Clock) (w : World) (cid : Id) : bool :=
  existsb (fun d => bool_decide (computerId (snd d) = cid)
                    && bool_decide (status (snd d) = Approved)
                    && negb (elapsed now (snd d)))
          (map_to_list (bookings w)).

Definition status_consistentb (now : Clock) (w : World) : bool :=
  forallb (fun e => Bool.eqb (bool_decide (c_status (snd e) = Booked))
                             (active_approvedb now w (fst e)))
          (map_to_list (computers w)).

(** A booked computer has an approved booking. *)
Definition booked_has_approved (w : World) : Prop :=
  ∀ cid c, computers w !! cid = Some c → c_status c = Booked →
    ∃ id b, bookings w !! id = Some b ∧ computerId b = cid ∧ status b = Approved.

Definition terminal (s : BookingStatus) : Prop :=
  s = Rejected ∨ s = Cancelled ∨ s = Completed.

(** A rejected booking has a rejection reason. *)
Definition rejected_has_reason (w : World) : Prop :=
  ∀ id b, bookings w !! id = Some b → status b = Rejected →
    falsy (rejectionReason b) = false.

(** The reason is set exactly for the rejected bookings. *)
Definition reason_iff_rejected (w : World) : Prop :=
  ∀ id b, bookings w !! id = Some b →
    (falsy (rejectionReason b) = false ↔ status b = Rejected).

Definition reason_iff_rejectedb (w : World) : bool :=
  forallb (fun d => Bool.eqb (negb (falsy (rejectionReason (snd d))))
                             (bool_decide (status (snd d) = Rejected)))
          (map_to_list (bookings w)).

(** The computer of [cid] once released by [handleExpiredBooking]. *)
Definition release (cid : Id) (cs : gmap nat Computer) : gmap nat Computer :=
  match cs !! cid with
  | Some c => if bool_decide (c_status c = Booked)
              then <[cid := with_c_status Available c]> cs else cs
  | None => cs
  end.

(** The log lines that close the handling of one expired booking. *)
Definition is_outcome (e : LogEntry) : bool :=
  match e with
  | LogExpiredProcessed _ | LogErrorHandlingExpired => true
  | _ => false
  end.

Definition outcome_of (d : nat * Booking) (e : LogEntry) : Prop :=
  e = LogExpiredProcessed (fst d) ∨ e = LogErrorHandlingExpired.

(** An access of the handling of [d] in [w], other than those of the
    notices, throws: the save of the booking, the lookup of its computer or,
    for a booked computer, the save of the computer. *)
Definition handling_fails (F : nat -> Op -> bool) (d : nat * Booking) (w : World) : bool :=
  F (tick w) (OpBookingSave (fst d))
  || F (S (tick w)) (OpComputerFindById (computerId (snd d)))
  || match computers w !! computerId (snd d) with
     | Some c => bool_decide (c_status c = Booked)
                 && F (S (S (tick w))) (OpComputerSave (computerId (snd d)))
     | None => false
     end.

(** No access to the booking [id] or to the computer [cid] ever throws. *)
Definition never_fails_on (F : nat -> Op -> bool) (id cid : Id) : Prop :=
  ∀ t, F t (OpBookingSave id) = false ∧ F t (OpComputerFindById cid) = false ∧
       F t (OpComputerSave cid) = false.

(** [User.findOne] answers an admin for [uid]. *)
Definition admin_actor (w : World) (uid : string) : Prop :=
  ∃ u, List.find (fun u => String.eqb (firebaseUid u) uid) (users w) = Some u ∧
       is_admin u = true.

(** ** The validator as the specification words it *)

Module ValidatorSpec.

Open Scope Z_scope.

Inductive Rejection :=
| MissingFields
| ClosureDayStart
| ClosureDayEnd
| EndBeforeStart
| DurationTooLong
| EndBeforeStartInstant
| DurationTooShort
| ResourceNotFound.

(** Calendar days (numbered from 1 January 1970) and times of day in
    minutes. *)
Record Interval := mkInterval {
  startDay : Z;
  endDay : Z;
  startMinute : Z;
  endMinute : Z
}.

(** Day 0 is a Thursday; 0 is Sunday, the closure day. *)
Definition weekday (day : Z) : Z := (day + 4) mod 7.

Definition instant (day minute : Z) : Z := day * 1440 + minute.

(** Rules 2 to 7, each with the condition under which it fails. *)
Definition rules (i : Interval) : list (bool * Rejection) :=
  [ (weekday (startDay i) =? 0, ClosureDayStart);
    (weekday (endDay i) =? 0, ClosureDayEnd);
    (endDay i <? startDay i, EndBeforeStart);
    (7 <? endDay i - startDay i + 1, DurationTooLong);
    (instant (endDay i) (endMinute i) <? instant (startDay i) (startMinute i),
     EndBeforeStartInstant);
    ((endDay i =? startDay i)
     && (instant (endDay i) (endMinute i) - instant (startDay i) (startMinute i) <? 60),
     DurationTooShort) ].

(** First failing rule wins. *)
Definition first_failing (rs : list (bool * Rejection)) : option Rejection :=
  option_map snd (List.find fst rs).

Definition day_of (d : Z) : Z := d / DateFns.ms_per_day.

Definition minute_of_day (t : Z) : Z := (t mod DateFns.ms_per_day) / DateFns.ms_per_minute.

Definition interval_of (startDate endDate startTime endTime : Z) : Interval :=
  mkInterval (day_of startDate) (day_of endDate)
             (minute_of_day startTime) (minute_of_day endTime).

(** What the form shows for each rejection. *)
Definition message_of (r : Rejection) : string :=
  match r with
  | MissingFields => "Please fill in all required fields"
  | ClosureDayStart => "Lab is closed on Sundays. Please select a different start date."
  | ClosureDayEnd => "Lab is closed on Sundays. Please select a different end date."
  | EndBeforeStart => "End date must be after or equal to start date"
  | DurationTooLong => "Booking duration cannot exceed 7 days"
  | EndBeforeStartInstant => "End time must be after start time"
  | DurationTooShort => "Minimum booking duration is 1 hour for same-day bookings"
  | ResourceNotFound => "Computer not found"
  end.

(** The validator: rule 1 on the four fields, then rules 2 to 7; the
    accepted interval or the reason of the rejection. *)
Definition validate (startDay endDay startMinute endMinute : option Z)
    : Rejection + Interval :=
  match startDay, endDay, startMinute, endMinute with
  | Some sd, Some ed, Some st, Some et =>
      match first_failing (rules (mkInterval sd ed st et)) with
      | Some r => inl r
      | None => inr (mkInterval sd ed st et)
      end
  | _, _, _, _ => inl MissingFields
  end.

(** [createBooking]: the input is validated, then the resource must exist;
    the interval of the pending booking, or the error. *)
Definition createBooking (resourceExists : bool)
    (startDay endDay startMinute endMinute : option Z) : Rejection + Interval :=
  match validate startDay endDay startMinute endMinute with
  | inl r => inl r
  | inr i => if resourceExists then inr i else inl ResourceNotFound
  end.

End ValidatorSpec.

(** The dates of the form are calendar dates: [Date]s at local midnight, as
    the date picker yields them. *)
Definition date_only (f : BookingForm) : Prop :=
  (∀ d, f_startDate f = Some d → DateFns.startOfDay d = d) ∧
  (∀ d, f_endDate f = Some d → DateFns.startOfDay d = d).

(** The fields of the form other than the dates and times are filled: a
    computer is selected, the texts hold more than white space, a dataset
    type is chosen and the dataset size is not 0. *)
Definition fields_filled (f : BookingForm) : Prop :=
  selectedComputer f ≠ None ∧
  ¬ all_white (f_reason f) ∧ ¬ all_white (f_problemStatement f) ∧
  f_datasetType f ≠ "" ∧
  ¬ all_white (f_datasetLink f) ∧ ¬ all_white (f_bottleneckExplanation f) ∧
  f_datasetSize f ≠ 0%Z.

(** The computer selected in the form is stored. *)
Definition selected_exists (f : BookingForm) (w : World) : bool :=
  match selectedComputer f with
  | Some cid => bool_decide (is_Some (computers w !! cid))
  | None => false
  end.

(** The days and the minutes of the day of the dates and times of the form. *)
Definition validated (f : BookingForm) : ValidatorSpec.Rejection + ValidatorSpec.Interval :=
  ValidatorSpec.validate
    (ValidatorSpec.day_of <$> f_startDate f) (ValidatorSpec.day_of <$> f_endDate f)
    (ValidatorSpec.minute_of_day <$> f_startTime f)
    (ValidatorSpec.minute_of_day <$> f_endTime f).

Definition created (f : BookingForm) (w : World) : ValidatorSpec.Rejection + ValidatorSpec.Interval :=
  ValidatorSpec.createBooking (selected_exists f w)
    (ValidatorSpec.day_of <$> f_startDate f) (ValidatorSpec.day_of <$> f_endDate f)
    (ValidatorSpec.minute_of_day <$> f_startTime f)
    (ValidatorSpec.minute_of_day <$> f_endTime f).

(** [quiet w w']: from [w] to [w'] the bookings, computers and users are the
    same, and the console got no line that closes an expired booking. *)
Definition quiet (w w' : World) : Prop :=
  bookings w' = bookings w ∧ computers w' = computers w ∧ users w' = users w ∧
  ∃ ls, logs w' = (ls ++ logs w)%list ∧ List.filter is_outcome ls = [].

Definition quiet_m {A} (m : M A) : Prop := ∀ w, quiet w (snd (m w)).

(** The world after [handleExpiredBooking] ran on each document of [l]. *)
Definition sweep_world (F : nat -> Op -> bool) (l : list (nat * Booking)) (w : World) : World :=
  fold_left (fun w d => snd (handleExpiredBooking F d w)) l w.

(** From [cs] to [cs'] computers only went from booked to available. *)
Definition released_only (cs cs' : gmap nat Computer) : Prop :=
  ∀ cid, cs' !! cid = cs !! cid ∨
         ∃ c, cs !! cid = Some c ∧ c_status c = Booked ∧
              cs' !! cid = Some (with_c_status Available c).

(** What [router.put("/:id/status")] stores for the booking, and the computers
    after its update of the computer of booking [b'] (the query for other
    approved bookings runs on the bookings [bs'] already saved). *)
Definition status_update (target : BookingStatus) (r : option string) (b : Booking) : Booking :=
  if bool_decide (target = Rejected)
  then with_rejectionReason r (with_status target b)
  else with_status target b.

Definition synced_computers (target : BookingStatus) (id : Id) (b' : Booking)
    (bs' : gmap nat Booking) (cs : gmap nat Computer) : gmap nat Computer :=
  if bool_decide (target = Approved) then alter (with_c_status Booked) (computerId b') cs
  else match find_other_approved (computerId b') id bs' with
       | None => alter (with_c_status Available) (computerId b') cs
       | Some _ => cs
       end.

(** ** Concrete worlds *)

Definition meta0 : Metadata :=
  mkMetadata false 0 "segmentation" "Image" (mkDatasetSize 5 "GB") "http://data" "cpu bound".

Definition admin0 : User := mkUser 100 "admin-uid" "admin" "Root".
Definition alice : User := mkUser 101 "alice" "user" "Alice".

Definition pc1 : Computer := mkComputer "PC-1" "Lab A" "RTX 3090" Available.

(** A single-day booking of 10 June 2024, a booking of 12 to 14 June and one
    of 10 to 11 June, all on computer 1. *)
Definition booking_june10 : Booking :=
  mkBooking "alice" 1 "2024-06-10" "2024-06-10" "09:00" "10:00" "test" Pending None meta0.

Definition booking_june12 : Booking :=
  mkBooking "alice" 1 "2024-06-12" "2024-06-14" "09:00" "10:00" "train" Pending None meta0.

Definition booking_two_days : Booking :=
  mkBooking "alice" 1 "2024-06-10" "2024-06-11" "09:00" "10:00" "train" Pending None meta0.

Definition world_of (bs : list (nat * Booking)) (c : Computer) : World :=
  mkWorld (list_to_map bs) {[ 1 := c ]} [admin0; alice] [] [] 0.

Definition noon_june11 : Clock := mkClock "2024-06-11" "12:00".
Definition noon_june12 : Clock := mkClock "2024-06-12" "12:00".

Definition approve : StatusBody := mkStatusBody (Some "approved") None.
Definition cancel : StatusBody := mkStatusBody (Some "cancelled") None.
Definition reject_busy : StatusBody := mkStatusBody (Some "rejected") (Some "busy").

(** Two pending bookings on an available computer. *)
Definition two_pending : World :=
  world_of [(1, booking_june10); (2, booking_june12)] pc1.

(** Two approved bookings that have ended by 12 June, the computer booked. *)
Definition two_ended : World :=
  world_of [(1, with_status Approved booking_june10);
            (2, with_status Approved booking_two_days)]
           (with_c_status Booked pc1).

(** The store refuses to save booking 1. *)
Definition save_1_fails : nat -> Op -> bool := fun _ op =>
  match op with
  | OpBookingSave 1 => true
  | _ => false
  end.

(** The store refuses to save booking 2. *)
Definition save_2_fails : nat -> Op -> bool := fun _ op =>
  match op with
  | OpBookingSave 2 => true
  | _ => false
  end.

(** Approve booking 2, approve booking 1, sweep. *)
Definition approve_both_then_sweep : list Operation :=
  [SetStatus "admin-uid" 2 approve; SetStatus "admin-uid" 1 approve; Sweep noon_june12].

(** The query for other approved bookings throws. *)
Definition other_approved_lookup_fails : nat -> Op -> bool := fun _ op =>
  match op with
  | OpBookingFindOtherApproved _ _ => true
  | _ => false
  end.

(** Approve booking 1, then cancel it. *)
Definition approve_then_cancel : list Operation :=
  [SetStatus "admin-uid" 1 approve; SetStatus "admin-uid" 1 cancel].

(** Approve booking 1, which ended on 10 June. *)
Definition approve_ended : list Operation :=
  [SetStatus "admin-uid" 1 approve].

(** Reject booking 1, then approve it. *)
Definition reject_then_approve : list Operation :=
  [SetStatus "admin-uid" 1 reject_busy; SetStatus "admin-uid" 1 approve].

(** A rejected booking on an available computer. *)
Definition rejected_june10 : Booking :=
  with_rejectionReason (Some "busy") (with_status Rejected booking_june10).

Definition one_rejected : World := world_of [(1, rejected_june10)] pc1.

(** A pending booking on a computer in maintenance. *)
Definition in_maintenance : World :=
  world_of [(1, booking_june10)] (with_c_status Maintenance pc1).

(** No approved booking other than [id] refers to computer [cid]. *)
Definition no_other_approved (w : World) (cid id : Id) : Prop :=
  ∀ i b, bookings w !! i = Some b → computerId b = cid → status b = Approved → i = id.

(** A creation request for computer 1 with all fields. *)
Definition create_june10 : CreateBody :=
  mkCreateBody (Some 1) (Some "2024-06-10") (Some "2024-06-10") (Some "09:00")
    (Some "10:00") (Some "test") meta0.

(** The same request for Sunday 9 June 2024. *)
Definition create_sunday : CreateBody :=
  mkCreateBody (Some 1) (Some "2024-06-09") (Some "2024-06-09") (Some "09:00")
    (Some "10:00") (Some "test") meta0.

(** A form filled for computer 1, Monday 10 June 2024, 09:00 to 10:00. *)
Definition form_june10 : BookingForm :=
  mkBookingForm (Some 1)
    (Some (DateFns.make_date 2024 6 10 0 0)) (Some (DateFns.make_date 2024 6 10 0 0))
    (Some (DateFns.make_date 2024 6 1 9 0)) (Some (DateFns.make_date 2024 6 1 10 0))
    "test" "segmentation" "Image" "http://data" "cpu bound" 5 "GB" false 0.

(** The same form for Sunday 9 June 2024. *)
Definition form_sunday : BookingForm :=
  mkBookingForm (Some 1)
    (Some (DateFns.make_date 2024 6 9 0 0)) (Some (DateFns.make_date 2024 6 9 0 0))
    (Some (DateFns.make_date 2024 6 1 9 0)) (Some (DateFns.make_date 2024 6 1 10 0))
    "test" "segmentation" "Image" "http://data" "cpu bound" 5 "GB" false 0.

(** The scenario of the specification: the booking of 10 June is created,
    approved, and swept at 10:01. *)
Definition empty_lab : World := world_of [] pc1.

Definition scenario : list Operation :=
  [Create "alice" create_june10;
   SetStatus "admin-uid" 0 approve;
   Sweep (mkClock "2024-06-10" "10:01")].

(** ** Fault oracles for the examples *)

(** Every update of a computer throws. *)
Definition computer_update_fails : nat -> Op -> bool := fun _ op =>
  match op with
  | OpComputerUpdate _ => true
  | _ => false
  end.

(** The lookup of the admins throws. *)
Definition admin_lookup_fails : nat -> Op -> bool := fun _ op =>
  match op with
  | OpUserFindAdmins => true
  | _ => false
  end.


(** The booking of [router.put("/:id/time")] once the times of the body are
    taken over. *)
Definition retimed (body : TimeBody) (b : Booking) : Booking :=
  with_endDate (or_keep (tb_endDate body) (endDate b))
    (with_endTime (or_keep (tb_endTime body) (endTime b))
       (with_startTime (or_keep (tb_startTime body) (startTime b)) b)).

(** The body of a reschedule request names no other computer than that of
    [b]. *)
Definition same_computer (body : TimeBody) (b : Booking) : Prop :=
  tb_computerId body = None ∨ tb_computerId body = Some (computerId b).

(** An approved booking on computer 1 and an available computer 2. *)
Definition two_computers : World :=
  mkWorld (list_to_map [(1, with_status Approved booking_june12)])
    (list_to_map [(1, with_c_status Booked pc1); (2, pc1)]) [admin0; alice] [] [] 0.

(** The notices of [sendExpirationNotifications] for the completed booking
    [b] under [id], most recent first: one for each admin, after the one for
    the owner. *)
Definition expiration_notices (admins : list User) (id : Id) (b : Booking) : list Notification :=
  rev (map (expired_admin_notification id b) admins) ++ [expired_user_notification id b].

(** Only the accesses that [sendExpirationNotifications] makes throw. *)
Definition only_notification_faults (F : nat -> Op -> bool) : Prop :=
  ∀ t op, F t op = true → op = OpNotificationSave ∨ op = OpUserFindAdmins.

(** Every save of a notification throws. *)
Definition notification_save_fails : nat -> Op -> bool := fun _ op =>
  match op with
  | OpNotificationSave => true
  | _ => false
  end.

(** ** Clocks in order *)

(** [now'] is not before [now]: a later date, or the same date and a time
    that is not earlier (dates and times compared as strings). *)
Definition clock_le (now now' : Clock) : Prop :=
  String.ltb (currentDate now) (currentDate now') = true ∨
  (currentDate now = currentDate now' ∧
   String.leb (currentTime now) (currentTime now') = true).

(** ** The listing routes

    [GET /] and [GET /current] only read the store.  Their [try]/[catch]
    answers 500 as soon as one of their reads throws; [ReadFaults] says which
    reads do.  The lines they write to the console are left out. *)

(** A booking as the listings send it: with its [_id] and the populated
    [computerId] ([None] for a computer that is gone). *)
Record BookingView := mkBookingView {
  v_id : Id;
  v_booking : Booking;
  v_computer : option Computer
}.

(** A listed booking with its [userInfo]: the user found for [booking.userId]
    (the route sends the name and the email of that user), [None] for
    [null]. *)
Record BookingWithUser := mkBookingWithUser {
  bu_view : BookingView;
  bu_userInfo : option User
}.

Inductive ListPayload :=
| ListMessage (m : string)
| BookingViews (l : list BookingView)
| BookingsWithUsers (l : list BookingWithUser).

Record ListResponse := mkListResponse { l_code : Z; l_payload : ListPayload }.

Record ReadFaults := mkReadFaults {
  user_lookup_throws : string -> bool;
  booking_query_throws : bool
}.

Definition no_read_fault : ReadFaults := mkReadFaults (fun _ => false) false.

Definition error_fetching_bookings : ListResponse :=
  mkListResponse 500 (ListMessage "Error fetching bookings").
Definition error_fetching_current : ListResponse :=
  mkListResponse 500 (ListMessage "Error fetching current bookings").
Definition admin_access_required_list : ListResponse :=
  mkListResponse 403 (ListMessage "Admin access required").

(** [User.findOne({firebaseUid: uid})] *)
Definition find_user (w : World) (uid : string) : option User :=
  List.find (fun u => String.eqb (firebaseUid u) uid) (users w).

(** [.populate("computerId")] *)
Definition populate (w : World) (d : nat * Booking) : BookingView :=
  mkBookingView (fst d) (snd d) (computers w !! computerId (snd d)).

Definition with_user_info (w : World) (v : BookingView) : BookingWithUser :=
  mkBookingWithUser v (find_user w (userId (v_booking v))).

(** The query of [GET /current]:
    [{status: "approved",
      $or: [{startDate: d, endDate: d, endTime: {$gte: t}},
            {startDate: {$gt: d}}, {endDate: {$gte: d}}]}], on strings. *)
Definition current_query (now : Clock) (b : Booking) : bool :=
  bool_decide (status b = Approved) &&
  ((String.eqb (startDate b) (currentDate now)
    && String.eqb (endDate b) (currentDate now)
    && String.leb (currentTime now) (endTime b))
   || String.ltb (currentDate now) (startDate b)
   || String.leb (currentDate now) (endDate b)).

(** [.sort({startDate: 1, startTime: 1})] *)
Definition start_leb (v1 v2 : BookingView) : bool :=
  String.ltb (startDate (v_booking v1)) (startDate (v_booking v2))
  || (String.eqb (startDate (v_booking v1)) (startDate (v_booking v2))
      && String.leb (startTime (v_booking v1)) (startTime (v_booking v2))).

Definition by_start (v1 v2 : BookingView) : Prop := start_leb v1 v2 = true.

#[global] Instance by_start_dec : RelDecision by_start.
Proof. intros v1 v2. unfold by_start. apply _. Defined.

(** [router.get("/current")]; [uid] is [req.user.firebaseUid], [now] what the
    route reads from the clock. *)
Definition getCurrentBookings (T : ReadFaults) (uid : string) (now : Clock) (w : World)
    : ListResponse :=
  if user_lookup_throws T uid then error_fetching_current
  else if not_admin (find_user w uid) then admin_access_required_list
  else if booking_query_throws T then error_fetching_current
  else
    let currentBookings :=
      merge_sort by_start
        (map (populate w)
           (List.filter (fun d => current_query now (snd d)) (map_to_list (bookings w)))) in
    if existsb (fun v => user_lookup_throws T (userId (v_booking v))) currentBookings
    then error_fetching_current
    else mkListResponse 200 (BookingsWithUsers (map (with_user_info w) currentBookings)).

Section Listing.

(** Modelled from the spec: the "creation timestamp" of a booking, a field of
    the Booking schema ([models/booking], not among the sources) that no route
    writes; it is a function of the document. *)
Variable createdAt : nat -> Z.

(** [.sort({createdAt: -1})] *)
Definition newest_first (v1 v2 : BookingView) : Prop :=
  (createdAt (v_id v2) <= createdAt (v_id v1))%Z.

#[global] Instance newest_first_dec : RelDecision newest_first.
Proof. intros v1 v2. unfold newest_first. apply _. Defined.

(** [router.get("/")] *)
Definition getBookings (T : ReadFaults) (uid : string) (w : World) : ListResponse :=
  if user_lookup_throws T uid then error_fetching_bookings
  else if booking_query_throws T then error_fetching_bookings
  else if negb (not_admin (find_user w uid)) then
    let found := merge_sort newest_first (map (populate w) (map_to_list (bookings w))) in
    if existsb (fun v => user_lookup_throws T (userId (v_booking v))) found
    then error_fetching_bookings
    else mkListResponse 200 (BookingsWithUsers (map (with_user_info w) found))
  else
    mkListResponse 200
      (BookingViews
         (merge_sort newest_first
            (map (populate w)
               (List.filter (fun d => String.eqb (userId (snd d)) uid)
                  (map_to_list (bookings w)))))).

End Listing.

(** Creation times for the examples: documents in the order of their
    identifiers. *)
Definition created_in_order : nat -> Z := Z.of_nat.

(** ** Civil dates in order *)

(** The order of (year, month, day). *)
Definition civil_compare (a b : Z * Z * Z) : comparison :=
  let '(y1, m1, d1) := a in
  let '(y2, m2, d2) := b in
  match (y1 ?= y2)%Z with
  | Eq => match (m1 ?= m2)%Z with
          | Eq => (d1 ?= d2)%Z
          | c => c
          end
  | c => c
  end.

(** The days from 1 January 0001 to 31 December 9999, numbered from 1 January
    1970: the years that [yyyy] and [toISOString] write with the same four
    digits. *)
Definition four_digit_year (day : Z) : Prop := (-719162 <= day < 2932897)%Z.

Definition pad6 (n : Z) : string :=
  String (DateFns.digit (n / 100000)) (String (DateFns.digit (n / 10000)) (DateFns.pad4 n)).

(** [d.toISOString().split("T")[0]], where [utc] is the timestamp read in
    UTC: the years 0000 to 9999 have four digits, the others a sign and six
    digits. *)
Definition toISODate (utc : Z) : string :=
  let '(y, m, dd) := DateFns.civil_of_days (utc / DateFns.ms_per_day) in
  ((if (0 <=? y)%Z && (y <=? 9999)%Z then DateFns.pad4 y
    else (if (y <? 0)%Z then "-" else "+") ++ pad6 (Z.abs y))
   ++ "-" ++ DateFns.pad2 m ++ "-" ++ DateFns.pad2 dd)%string.

(** What [checkExpiredBookings] reads from the clock at one instant: the date
    is the UTC date of the instant, of which [utc] is the reading in UTC; the
    time is its time of day in the zone of the server, of which [local] is
    the reading there, written [HH:mm] with the hours 00 to 23 (an engine
    that writes the hour after midnight as 24 is not covered in that
    hour). *)
Definition clock_reads (now : Clock) (utc local : Z) : Prop :=
  currentDate now = toISODate utc /\ currentTime now = DateFns.format_time local.

(** The booking carries the dates and the end time of [bookingData]. *)
Definition dates_of_form (b : Booking) (f : BookingForm) (cid : Id)
    (sd ed st et : Z) : Prop :=
  let data := bookingData f cid sd ed st et in
  cb_startDate data = Some (startDate b) /\
  cb_endDate data = Some (endDate b) /\
  cb_endTime data = Some (endTime b).

(** ** The duration under the pickers *)

(** [totalMinutes] of the duration display of the form. *)
Definition totalMinutes (startDate endDate startTime endTime : Z) : Z :=
  Z.max 0 ((getDateTime endDate endTime - getDateTime startDate startTime)
           / DateFns.ms_per_minute).

(** [days], [hours] and [minutes] of the display. *)
Definition duration_parts (total : Z) : Z * Z * Z :=
  (total / (60 * 24), (total mod (60 * 24)) / 60, total mod 60)%Z.

(** The display reads "0 minutes" when no part is positive. *)
Definition shows_zero_minutes (total : Z) : bool :=
  let '(days, hours, minutes) := duration_parts total in
  negb (0 <? days)%Z && negb (0 <? hours)%Z && negb (0 <? minutes)%Z.

(** The two warnings under the display. *)
Definition warns_over_7_days (startDate endDate : Z) : bool :=
  (7 <? DateFns.differenceInDays endDate startDate + 1)%Z.

Definition warns_under_1_hour (startDate endDate startTime endTime : Z) : bool :=
  (DateFns.differenceInDays endDate startDate =? 0)%Z
  && (DateFns.differenceInHours endTime startTime <? 1)%Z.

(** * Theorems *)

Open Scope list_scope.

(** ** The store monad *)

Ltac munfold :=
  unfold read, write in *;
  unfold bind, ret, throw, try_catch, console, access in *.

Lemma try_catch_console_ok (body : M unit) (e : LogEntry) (w : World) :
  fst (try_catch body (fun _ => console e) w) = Ok tt.
Proof.
  unfold try_catch, console.
  destruct (body w) as [[[]|x] w']; reflexivity.
Qed.

Lemma quiet_refl w : quiet w w.
Proof. repeat split; exists []; split; reflexivity. Qed.

Lemma quiet_trans w1 w2 w3 : quiet w1 w2 → quiet w2 w3 → quiet w1 w3.
Proof.
  intros (Hb1 & Hc1 & Hu1 & l1 & Hl1 & Hf1) (Hb2 & Hc2 & Hu2 & l2 & Hl2 & Hf2).
  repeat split; try congruence.
  exists (l2 ++ l1). split.
  - rewrite Hl2, Hl1. apply app_assoc.
  - rewrite List.filter_app, Hf1, Hf2. reflexivity.
Qed.

Lemma quiet_ret {A} (a : A) : quiet_m (ret a).
Proof. intros w. apply quiet_refl. Qed.

Lemma quiet_bind {A B} (m : M A) (k : A → M B) :
  quiet_m m → (∀ a, quiet_m (k a)) → quiet_m (bind m k).
Proof.
  intros Hm Hk w. unfold bind. specialize (Hm w).
  destruct (m w) as [[a|e] w1]; cbn in *; [|exact Hm].
  eapply quiet_trans; [exact Hm | apply Hk].
Qed.

Lemma quiet_try_catch {A} (body : M A) (h : Exn → M A) :
  quiet_m body → (∀ e, quiet_m (h e)) → quiet_m (try_catch body h).
Proof.
  intros Hm Hh w. unfold try_catch. specialize (Hm w).
  destruct (body w) as [[a|e] w1]; cbn in *; [exact Hm|].
  eapply quiet_trans; [exact Hm | apply Hh].
Qed.

Lemma quiet_console e : is_outcome e = false → quiet_m (console e).
Proof.
  intros He w. unfold console; cbn. repeat split.
  exists [e]. split; [reflexivity|]. cbn. rewrite He. reflexivity.
Qed.

Lemma quiet_access {A} F op (f : World → A * World) :
  (∀ w, quiet w (snd (f w))) → quiet_m (access F op f).
Proof.
  intros Hf w. unfold access.
  assert (Hb : quiet w (bump w)) by (repeat split; exists []; split; reflexivity).
  destruct (F (tick w) op); cbn; [exact Hb|].
  specialize (Hf (bump w)). destruct (f (bump w)) as [a w']; cbn in *.
  eapply quiet_trans; eassumption.
Qed.

Lemma quiet_for_each {A} (l : list A) (f : A → M unit) :
  (∀ x, quiet_m (f x)) → quiet_m (for_each l f).
Proof.
  intros Hf. induction l as [|x l IH]; cbn.
  - apply quiet_ret.
  - apply quiet_bind; [apply Hf | intros _; exact IH].
Qed.

Lemma quiet_Notification_save F n : quiet_m (Notification_save F n).
Proof.
  apply quiet_access. intros w; cbn. repeat split. exists []. split; reflexivity.
Qed.

Lemma quiet_User_findAdmins F : quiet_m (User_findAdmins F).
Proof. apply quiet_access. intros w; cbn. apply quiet_refl. Qed.

Lemma quiet_sendExpirationNotifications F id b c :
  quiet_m (sendExpirationNotifications F id b c).
Proof.
  unfold sendExpirationNotifications.
  apply quiet_try_catch.
  - apply quiet_bind; [apply quiet_Notification_save | intros _].
    apply quiet_bind; [apply quiet_User_findAdmins | intros admins].
    apply quiet_bind.
    + apply quiet_for_each. intros x. apply quiet_Notification_save.
    + intros _. apply quiet_console. reflexivity.
  - intros _. apply quiet_console. reflexivity.
Qed.

Lemma sendExpirationNotifications_ok F id b c w :
  fst (sendExpirationNotifications F id b c w) = Ok tt.
Proof. apply try_catch_console_ok. Qed.

(** ** The expiration service *)

Ltac use_send :=
  match goal with
  | |- context [sendExpirationNotifications ?F ?id ?b ?c ?w] =>
      let Hq := fresh "Hq" in
      let Hok := fresh "Hok" in
      pose proof (quiet_sendExpirationNotifications F id b c w) as Hq;
      pose proof (sendExpirationNotifications_ok F id b c w) as Hok;
      destruct (sendExpirationNotifications F id b c w) as [r w2];
      cbn in Hq, Hok; subst r;
      destruct Hq as (Hqb & Hqc & Hqu & lq & Hql & Hqf); cbn in Hqb, Hqc, Hqu, Hql
  end.

Lemma handleExpiredBooking_spec F id b w :
  ∃ w', handleExpiredBooking F (id, b) w = (Ok tt, w') ∧
    users w' = users w ∧
    (F (tick w) (OpBookingSave id) = true → bookings w' = bookings w) ∧
    (F (tick w) (OpBookingSave id) = false →
       bookings w' = <[id := with_status Completed b]> (bookings w)) ∧
    (computers w' = computers w ∨ computers w' = release (computerId b) (computers w)) ∧
    ∃ ls e, logs w' = ls ++ logs w ∧ List.filter is_outcome ls = [e] ∧ outcome_of (id, b) e.
Proof.
  unfold handleExpiredBooking, Booking_save, Computer_findById, Computer_save, release.
  munfold. cbn.
  destruct (F (tick w) (OpBookingSave id)) eqn:Hsave; cbn.
  { eexists; split; [reflexivity|]; cbn. repeat split; try congruence; auto.
    exists [LogErrorHandlingExpired], LogErrorHandlingExpired.
    repeat split. right; reflexivity. }
  destruct (F (S (tick w)) (OpComputerFindById (computerId b))) eqn:Hfind; cbn.
  { eexists; split; [reflexivity|]; cbn. repeat split; try congruence; auto.
    exists [LogErrorHandlingExpired], LogErrorHandlingExpired.
    repeat split. right; reflexivity. }
  destruct (computers w !! computerId b) as [c|] eqn:Hc; cbn.
  - destruct (bool_decide (c_status c = Booked)) eqn:Hbk; cbn.
    + destruct (F (S (S (tick w))) (OpComputerSave (computerId b))) eqn:Hcs; cbn.
      { eexists; split; [reflexivity|]; cbn. repeat split; try congruence; auto.
        exists [LogErrorHandlingExpired], LogErrorHandlingExpired.
        repeat split. right; reflexivity. }
      use_send. eexists; split; [reflexivity|]; cbn.
      repeat split; try congruence; auto.
      exists (LogExpiredProcessed id :: lq ++ [LogComputerReleased (computerId b)]),
             (LogExpiredProcessed id).
      repeat split.
      * rewrite Hql. cbn. rewrite <- app_assoc. reflexivity.
      * cbn. rewrite List.filter_app, Hqf. reflexivity.
      * left; reflexivity.
    + use_send. eexists; split; [reflexivity|]; cbn.
      repeat split; try congruence; auto.
      exists (LogExpiredProcessed id :: lq ++ [LogComputerNotBooked (computerId b) (c_status c)]),
             (LogExpiredProcessed id).
      repeat split.
      * rewrite Hql. cbn. rewrite <- app_assoc. reflexivity.
      * cbn. rewrite List.filter_app, Hqf. reflexivity.
      * left; reflexivity.
  - use_send. eexists; split; [reflexivity|]; cbn.
    repeat split; try congruence; auto.
    exists (LogExpiredProcessed id :: lq ++ [LogComputerNotFound (computerId b)]),
           (LogExpiredProcessed id).
    repeat split.
    * rewrite Hql. cbn. rewrite <- app_assoc. reflexivity.
    * cbn. rewrite List.filter_app, Hqf. reflexivity.
    * left; reflexivity.
Qed.

(** Without faults [handleExpiredBooking] completes the booking and releases
    its computer. *)
Lemma handleExpiredBooking_no_fault id b w :
  bookings (snd (handleExpiredBooking no_fault (id, b) w))
    = <[id := with_status Completed b]> (bookings w) ∧
  computers (snd (handleExpiredBooking no_fault (id, b) w))
    = release (computerId b) (computers w).
Proof.
  unfold handleExpiredBooking, Booking_save, Computer_findById, Computer_save, release.
  munfold. cbn.
  destruct (computers w !! computerId b) as [c|] eqn:Hc; cbn.
  - destruct (bool_decide (c_status c = Booked)) eqn:Hbk; cbn;
      use_send; cbn; split; congruence.
  - use_send; cbn; split; congruence.
Qed.

Lemma for_each_handleExpiredBooking F l w :
  for_each l (handleExpiredBooking F) w = (Ok tt, sweep_world F l w).
Proof.
  revert w. induction l as [|[id b] l IH]; intros w; cbn; [reflexivity|].
  unfold bind. destruct (handleExpiredBooking_spec F id b w) as (w' & Heq & _).
  rewrite Heq. cbn. apply IH.
Qed.

Lemma checkExpiredBookings_eq F now w :
  checkExpiredBookings F now w =
    if F (tick w) OpBookingFindExpired
    then (Ok tt, add_log LogErrorService (bump w))
    else (Ok tt, add_log (LogUpdatedExpired (length (find_expired now (bookings w))))
                   (sweep_world F (find_expired now (bookings w)) (bump w))).
Proof.
  unfold checkExpiredBookings, Booking_findExpired. munfold. cbn.
  destruct (F (tick w) OpBookingFindExpired); cbn; [reflexivity|].
  rewrite for_each_handleExpiredBooking. reflexivity.
Qed.

Lemma NoDup_fst_filter {A B} (p : A * B → bool) (l : list (A * B)) :
  NoDup (l.*1) → NoDup ((List.filter p l).*1).
Proof.
  induction l as [|a l IH]; cbn; [auto|].
  rewrite NoDup_cons. intros [Hn Hd].
  destruct (p a); cbn; [|auto].
  rewrite NoDup_cons. split; [|auto].
  intros Hin. apply Hn.
  apply list_elem_of_fmap in Hin as (y & -> & Hy).
  apply list_elem_of_fmap. exists y. split; [reflexivity|].
  apply list_elem_of_In in Hy. apply List.filter_In in Hy as [Hy _].
  apply list_elem_of_In. exact Hy.
Qed.

Lemma elem_of_find_expired now bs id b :
  (id, b) ∈ find_expired now bs ↔ bs !! id = Some b ∧ expired_query now b = true.
Proof.
  unfold find_expired. rewrite list_elem_of_In, List.filter_In, <- list_elem_of_In.
  rewrite elem_of_map_to_list. reflexivity.
Qed.

Lemma NoDup_find_expired now bs : NoDup ((find_expired now bs).*1).
Proof. apply NoDup_fst_filter, NoDup_fst_map_to_list. Qed.

Lemma released_only_refl cs : released_only cs cs.
Proof. intros cid. left; reflexivity. Qed.

Lemma released_only_trans cs1 cs2 cs3 :
  released_only cs1 cs2 → released_only cs2 cs3 → released_only cs1 cs3.
Proof.
  intros H12 H23 cid.
  destruct (H23 cid) as [H|(c & Hc & Hs & Hc')].
  - rewrite H. apply H12.
  - destruct (H12 cid) as [H|(c0 & Hc0 & Hs0 & Hc0')].
    + right. exists c. rewrite <- H. auto.
    + rewrite Hc0' in Hc. inversion Hc; subst. cbn in Hs. discriminate.
Qed.

Lemma released_only_release cid cs : released_only cs (release cid cs).
Proof.
  unfold release. intros cid'.
  destruct (cs !! cid) as [c|] eqn:Hc; [|left; reflexivity].
  case_bool_decide; [|left; reflexivity].
  destruct (decide (cid' = cid)) as [->|Hne].
  - right. exists c. rewrite lookup_insert_eq. auto.
  - left. apply lookup_insert_ne. congruence.
Qed.

Lemma release_not_booked cid cs c :
  release cid cs !! cid = Some c → c_status c ≠ Booked.
Proof.
  unfold release. destruct (cs !! cid) as [c0|] eqn:Hc; [|congruence].
  case_bool_decide.
  - rewrite lookup_insert_eq. intros [= <-]. cbn. discriminate.
  - rewrite Hc. intros [= <-]. assumption.
Qed.

(** What the sweep of the documents [l] does, whatever the faults. *)
Lemma sweep_world_spec F l w :
  NoDup (l.*1) →
  users (sweep_world F l w) = users w ∧
  released_only (computers w) (computers (sweep_world F l w)) ∧
  (∀ id, id ∉ l.*1 → bookings (sweep_world F l w) !! id = bookings w !! id) ∧
  (∀ id b, (id, b) ∈ l →
     (bookings (sweep_world F l w) !! id = bookings w !! id ∨
      bookings (sweep_world F l w) !! id = Some (with_status Completed b)) ∧
     ((∀ t, F t (OpBookingSave id) = false) →
      bookings (sweep_world F l w) !! id = Some (with_status Completed b))) ∧
  ∃ ls, logs (sweep_world F l w) = ls ++ logs w ∧
        Forall2 outcome_of l (rev (List.filter is_outcome ls)).
Proof.
  unfold sweep_world.
  revert w. induction l as [|[i b0] l IH]; intros w Hnd; cbn [fold_left].
  { refine (conj _ (conj _ (conj _ (conj _ _)))); auto using released_only_refl.
    - intros id b Hin. inversion Hin.
    - exists []. split; [reflexivity|constructor]. }
  cbn in Hnd. apply NoDup_cons in Hnd as [Hi Hnd].
  destruct (handleExpiredBooking_spec F i b0 w)
    as (w1 & Heq & Hu & Hbt & Hbf & Hcs & ls1 & e1 & Hl1 & Hf1 & Ho1).
  rewrite Heq. cbn [snd].
  destruct (IH w1 Hnd) as (IHu & IHc & IHn & IHb & ls & IHl & IHo).
  assert (Hb1 : ∀ id, id ≠ i → bookings w1 !! id = bookings w !! id).
  { intros id Hne. destruct (F (tick w) (OpBookingSave i)).
    - rewrite Hbt by reflexivity. reflexivity.
    - rewrite Hbf by reflexivity. apply lookup_insert_ne. congruence. }
  split; [congruence|]. split.
  { eapply released_only_trans; [|exact IHc].
    destruct Hcs as [->| ->]; auto using released_only_refl, released_only_release. }
  split.
  { intros id Hid. apply not_elem_of_cons in Hid as [Hne Hid].
    rewrite IHn by assumption. auto. }
  split.
  { intros id b Hin. apply elem_of_cons in Hin as [[= -> ->]|Hin].
    - rewrite (IHn i Hi). split.
      + destruct (F (tick w) (OpBookingSave i)).
        * left. rewrite Hbt; reflexivity.
        * right. rewrite Hbf by reflexivity. apply lookup_insert_eq.
      + intros HF. rewrite Hbf by apply HF. apply lookup_insert_eq.
    - assert (Hne : id ≠ i).
      { intros ->. apply Hi. apply list_elem_of_fmap. exists (i, b). auto. }
      destruct (IHb id b Hin) as [H1 H2]. rewrite (Hb1 id Hne) in H1. auto. }
  exists (ls ++ ls1). split.
  { rewrite IHl, Hl1. apply app_assoc. }
  rewrite List.filter_app, Hf1, rev_app_distr. cbn.
  constructor; assumption.
Qed.

Lemma sweep_world_no_fault_released l w id b c :
  NoDup (l.*1) → (id, b) ∈ l →
  computers (sweep_world no_fault l w) !! computerId b = Some c →
  c_status c ≠ Booked.
Proof.
  unfold sweep_world.
  revert w. induction l as [|[i b0] l IH]; intros w Hnd Hin; cbn [fold_left].
  { inversion Hin. }
  cbn in Hnd. apply NoDup_cons in Hnd as [Hi Hnd].
  apply elem_of_cons in Hin as [[= -> ->]|Hin]; [|apply IH; assumption].
  destruct (handleExpiredBooking_no_fault i b0 w) as [_ Hc].
  set (w1 := snd (handleExpiredBooking no_fault (i, b0) w)) in *.
  destruct (sweep_world_spec no_fault l w1 Hnd) as (_ & Hrel & _).
  unfold sweep_world in Hrel.
  destruct (Hrel (computerId b0)) as [Heq|(c0 & _ & _ & Heq)]; rewrite Heq.
  - rewrite Hc. apply release_not_booked.
  - intros [= <-]. cbn. discriminate.
Qed.

Lemma filter_nil {A} (p : A → bool) (l : list A) :
  (∀ x, x ∈ l → p x = false) → List.filter p l = [].
Proof.
  induction l as [|a l IH]; cbn; intros H; [reflexivity|].
  rewrite (H a) by apply list_elem_of_here.
  apply IH. intros x Hx. apply H. apply list_elem_of_further, Hx.
Qed.

Lemma expired_query_completed now b : expired_query now (with_status Completed b) = false.
Proof. reflexivity. Qed.

(** After a sweep without faults nothing is left to select. *)
Lemma find_expired_after_sweep now w :
  find_expired now
    (bookings (sweep_world no_fault (find_expired now (bookings w)) (bump w))) = [].
Proof.
  set (l := find_expired now (bookings w)).
  destruct (sweep_world_spec no_fault l (bump w) (NoDup_find_expired now (bookings w)))
    as (_ & _ & Hout & Hin & _).
  apply filter_nil. intros [id b'] Hx. cbn.
  apply elem_of_map_to_list in Hx.
  destruct (decide (id ∈ l.*1)) as [Hk|Hk].
  - apply list_elem_of_fmap in Hk as ([i b] & Hi & Hb). cbn in Hi; subst i.
    destruct (Hin id b Hb) as [_ Hdone].
    rewrite Hdone in Hx by reflexivity.
    injection Hx as <-. apply expired_query_completed.
  - rewrite (Hout id Hk) in Hx. cbn in Hx.
    destruct (expired_query now b') eqn:Hq; [|reflexivity].
    exfalso. apply Hk. apply list_elem_of_fmap. exists (id, b'). split; [reflexivity|].
    apply elem_of_find_expired. auto.
Qed.

(** C3 (amended): the sweep selects a stored booking exactly when it is
    approved and either its end date is before today's date, or its start date
    and its end date are both today's date and its end time is before the
    current time (dates and times compared as strings).  A booking with
    another status is never selected. *)
Theorem sweep_selects_iff now w id b :
  (id, b) ∈ find_expired now (bookings w) ↔
  bookings w !! id = Some b ∧ status b = Approved ∧
  (String.ltb (endDate b) (currentDate now) = true ∨
   (startDate b = currentDate now ∧ endDate b = currentDate now ∧
    String.ltb (endTime b) (currentTime now) = true)).
Proof.
  rewrite elem_of_find_expired. unfold expired_query, elapsed.
  rewrite andb_true_iff, orb_true_iff, !andb_true_iff, bool_decide_eq_true,
    !String.eqb_eq.
  tauto.
Qed.

(** C3, as stated, fails: a booking of 10 to 11 June that is approved and
    ended at 10:00 is not selected by the sweep of 11 June, 12:00. *)
Lemma sweep_skips_multi_day_ending_today :
  let b := with_status Approved booking_two_days in
  let w := world_of [(7, b)] pc1 in
  bookings w !! 7 = Some b ∧ status b = Approved ∧
  endDate b = currentDate noon_june11 ∧
  String.ltb (endTime b) (currentTime noon_june11) = true ∧
  (7, b) ∉ find_expired noon_june11 (bookings w).
Proof.
  cbn zeta. repeat split.
  assert (H : find_expired noon_june11
                (bookings (world_of [(7, with_status Approved booking_two_days)] pc1)) = [])
    by (vm_compute; reflexivity).
  rewrite H. apply not_elem_of_nil.
Qed.

(** C7: without faults, the first run of the sweep completes every booking it
    selected, and a second run at the same clock selects nothing: it changes
    no booking, no computer and no notification and only logs that it updated
    0 bookings. *)
Theorem sweep_twice_processes_once now w :
  let w1 := snd (checkExpiredBookings no_fault now w) in
  let w2 := snd (checkExpiredBookings no_fault now w1) in
  (∀ id b, (id, b) ∈ find_expired now (bookings w) →
     bookings w1 !! id = Some (with_status Completed b)) ∧
  find_expired now (bookings w1) = [] ∧
  bookings w2 = bookings w1 ∧ computers w2 = computers w1 ∧
  users w2 = users w1 ∧ notifications w2 = notifications w1 ∧
  logs w2 = LogUpdatedExpired 0 :: logs w1.
Proof.
  cbn zeta. rewrite !checkExpiredBookings_eq. cbn.
  pose proof (find_expired_after_sweep now w) as Hnil.
  split.
  { intros id b Hin.
    destruct (sweep_world_spec no_fault _ (bump w) (NoDup_find_expired now (bookings w)))
      as (_ & _ & _ & Hsel & _).
    apply (Hsel id b Hin). reflexivity. }
  split; [exact Hnil|].
  rewrite Hnil. cbn. repeat split.
Qed.

Lemma sweep_twice_processes_once_witness :
  bookings (snd (checkExpiredBookings no_fault noon_june12 two_ended)) !! 1
    = Some (with_status Completed (with_status Approved booking_june10)) ∧
  find_expired noon_june12
    (bookings (snd (checkExpiredBookings no_fault noon_june12 two_ended))) = [].
Proof.
  destruct (sweep_twice_processes_once noon_june12 two_ended) as (Hdone & Hnil & _).
  split; [|exact Hnil].
  apply Hdone. apply list_elem_of_In. vm_compute. auto.
Defined.

(** *** One booking at a time *)

Lemma for_each_Notification_save_any F {A} (g : A → Notification) (l : list A) w :
  ∃ o w', for_each l (fun a => Notification_save F (g a)) w = (o, w') ∧
    bookings w' = bookings w ∧ computers w' = computers w ∧
    users w' = users w ∧ logs w' = logs w ∧
    (o = Ok tt → notifications w' = rev (map g l) ++ notifications w).
Proof.
  revert w. induction l as [|a l IH]; intros w; cbn [for_each].
  - exists (Ok tt), w. repeat split.
  - unfold Notification_save at 1. munfold. cbn.
    destruct (F (tick w) OpNotificationSave); cbn.
    + eexists _, _. split; [reflexivity|]. cbn.
      refine (conj eq_refl (conj eq_refl (conj eq_refl (conj eq_refl _)))).
      intros H. discriminate H.
    + destruct (IH (add_notifications [g a] (bump w)))
        as (o & w' & Heq & Hb & Hc & Hu & Hl & Hn).
      exists o, w'. split; [exact Heq|]. cbn in Hb, Hc, Hu, Hl, Hn.
      refine (conj Hb (conj Hc (conj Hu (conj Hl _)))).
      intros Hok. rewrite (Hn Hok). cbn. rewrite <- app_assoc. reflexivity.
Qed.

(** [sendExpirationNotifications] either records all its notices and logs
    that they were sent, or logs that it failed. *)
Lemma sendExpirationNotifications_any F id b c w :
  ∃ w', sendExpirationNotifications F id b c w = (Ok tt, w') ∧
    bookings w' = bookings w ∧ computers w' = computers w ∧ users w' = users w ∧
    ((logs w' = LogNotificationsSent id :: logs w ∧
      notifications w'
      = expiration_notices (List.filter is_admin (users w)) id b ++ notifications w) ∨
     logs w' = LogErrorNotifications :: logs w).
Proof.
  unfold sendExpirationNotifications, User_findAdmins, expiration_notices.
  unfold Notification_save at 1. munfold. cbn.
  destruct (F (tick w) OpNotificationSave); cbn;
    [eexists; split; [reflexivity|]; cbn; auto|].
  destruct (F (S (tick w)) OpUserFindAdmins); cbn;
    [eexists; split; [reflexivity|]; cbn; auto|].
  destruct (for_each_Notification_save_any F (expired_admin_notification id b)
              (List.filter is_admin (users w))
              (bump (add_notifications [expired_user_notification id b] (bump w))))
    as (o & w2 & Heq & Hb & Hc & Hu & Hl & Hn).
  rewrite Heq. cbn in Hb, Hc, Hu, Hl, Hn.
  destruct o as [[]|e]; cbn.
  - eexists. split; [reflexivity|]. cbn.
    refine (conj Hb (conj Hc (conj Hu _))). left. split; [congruence|].
    rewrite (Hn eq_refl), <- app_assoc. reflexivity.
  - eexists. split; [reflexivity|]. cbn.
    refine (conj Hb (conj Hc (conj Hu _))). right. congruence.
Qed.

Ltac use_send_any :=
  match goal with
  | |- context [sendExpirationNotifications ?F ?id ?b ?c ?w] =>
      let w2 := fresh "w2" in
      destruct (sendExpirationNotifications_any F id b c w)
        as (w2 & Hs & Hsb & Hsc & Hsu & Hsn);
      rewrite Hs
  end.

(** What [handleExpiredBooking] does with one booking, whatever the faults:
    it logs the caught error exactly when one of its accesses threw, and
    "expired and processed" otherwise; in that case the booking is completed,
    its computer released, and the notices are recorded or the failure to
    send them is logged. *)
Lemma handleExpiredBooking_exact F id b w0 :
  let w1 := snd (handleExpiredBooking F (id, b) w0) in
  ∃ ls, logs w1 = ls ++ logs w0 ∧
        List.filter is_outcome ls
        = [if handling_fails F (id, b) w0 then LogErrorHandlingExpired
           else LogExpiredProcessed id] ∧
        (handling_fails F (id, b) w0 = false →
           bookings w1 = <[id := with_status Completed b]> (bookings w0) ∧
           computers w1 = release (computerId b) (computers w0) ∧
           ((LogNotificationsSent id ∈ ls ∧
             notifications w1
             = expiration_notices (List.filter is_admin (users w0)) id
                 (with_status Completed b) ++ notifications w0) ∨
            LogErrorNotifications ∈ ls)).
Proof.
  cbn zeta.
  unfold handleExpiredBooking, Booking_save, Computer_findById, Computer_save, release,
    handling_fails.
  munfold. cbn.
  destruct (F (tick w0) (OpBookingSave id)) eqn:Hsave; cbn.
  { exists [LogErrorHandlingExpired]. split; [reflexivity|]. split; [reflexivity|].
        intros H. discriminate H. }
  destruct (F (S (tick w0)) (OpComputerFindById (computerId b))) eqn:Hfind; cbn.
  { exists [LogErrorHandlingExpired]. split; [reflexivity|]. split; [reflexivity|].
        intros H. discriminate H. }
  destruct (computers w0 !! computerId b) as [c|] eqn:Hc; cbn.
  - destruct (bool_decide (c_status c = Booked)) eqn:Hbk; cbn.
    + destruct (F (S (S (tick w0))) (OpComputerSave (computerId b))) eqn:Hcs; cbn.
      { exists [LogErrorHandlingExpired]. split; [reflexivity|]. split; [reflexivity|].
        intros H. discriminate H. }
      use_send_any. cbn in *.
      destruct Hsn as [[Hl Hn]|Hl].
      * exists [LogExpiredProcessed id; LogNotificationsSent id;
                LogComputerReleased (computerId b)].
        split; [rewrite Hl; reflexivity|]. split; [reflexivity|]. intros _.
        split; [congruence|]. split; [congruence|]. left.
        split; [apply list_elem_of_further, list_elem_of_here|exact Hn].
      * exists [LogExpiredProcessed id; LogErrorNotifications;
                LogComputerReleased (computerId b)].
        split; [rewrite Hl; reflexivity|]. split; [reflexivity|]. intros _.
        split; [congruence|]. split; [congruence|]. right.
        apply list_elem_of_further, list_elem_of_here.
    + use_send_any. cbn in *.
      destruct Hsn as [[Hl Hn]|Hl].
      * exists [LogExpiredProcessed id; LogNotificationsSent id;
                LogComputerNotBooked (computerId b) (c_status c)].
        split; [rewrite Hl; reflexivity|]. split; [reflexivity|]. intros _.
        split; [congruence|]. split; [congruence|]. left.
        split; [apply list_elem_of_further, list_elem_of_here|exact Hn].
      * exists [LogExpiredProcessed id; LogErrorNotifications;
                LogComputerNotBooked (computerId b) (c_status c)].
        split; [rewrite Hl; reflexivity|]. split; [reflexivity|]. intros _.
        split; [congruence|]. split; [congruence|]. right.
        apply list_elem_of_further, list_elem_of_here.
  - use_send_any. cbn in *.
    destruct Hsn as [[Hl Hn]|Hl].
    * exists [LogExpiredProcessed id; LogNotificationsSent id;
              LogComputerNotFound (computerId b)].
      split; [rewrite Hl; reflexivity|]. split; [reflexivity|]. intros _.
      split; [congruence|]. split; [congruence|]. left.
      split; [apply list_elem_of_further, list_elem_of_here|exact Hn].
    * exists [LogExpiredProcessed id; LogErrorNotifications;
              LogComputerNotFound (computerId b)].
      split; [rewrite Hl; reflexivity|]. split; [reflexivity|]. intros _.
      split; [congruence|]. split; [congruence|]. right.
      apply list_elem_of_further, list_elem_of_here.
Qed.

Lemma never_fails_on_handling F id b w0 :
  never_fails_on F id (computerId b) → handling_fails F (id, b) w0 = false.
Proof.
  intros H. unfold handling_fails. cbn [fst snd].
  destruct (H (tick w0)) as (-> & _ & _). destruct (H (S (tick w0))) as (_ & -> & _).
  destruct (H (S (S (tick w0)))) as (_ & _ & ->).
  destruct (computers w0 !! computerId b); [|reflexivity].
  rewrite andb_false_r. reflexivity.
Qed.

Lemma is_outcome_filter e ls : e ∈ ls → is_outcome e = true → e ∈ List.filter is_outcome ls.
Proof.
  intros He Ho. apply list_elem_of_In, List.filter_In. split; [apply list_elem_of_In, He|exact Ho].
Qed.

Lemma filter_is_outcome_elem e ls : e ∈ List.filter is_outcome ls → e ∈ ls.
Proof. intros He. apply list_elem_of_In, List.filter_In in He as [He _]. apply list_elem_of_In, He. Qed.

(** *** The bookings of one sweep *)

Lemma sweep_world_logs F l w :
  NoDup (l.*1) →
  ∃ ls, logs (sweep_world F l w) = ls ++ logs w ∧
        length (List.filter is_outcome ls) = length l ∧
        (∀ id, LogExpiredProcessed id ∈ ls → id ∈ l.*1) ∧
        (∀ id b, (id, b) ∈ l → never_fails_on F id (computerId b) →
           LogExpiredProcessed id ∈ ls) ∧
        (∀ id b, (id, b) ∈ l → (∀ t, F t (OpBookingSave id) = true) →
           (LogExpiredProcessed id ∉ ls) ∧ LogErrorHandlingExpired ∈ ls).
Proof.
  unfold sweep_world.
  revert w. induction l as [|[i b0] l IH]; intros w Hnd; cbn [fold_left].
  { exists []. split; [reflexivity|]. split; [reflexivity|].
    split; [intros id H; inversion H|]. split; intros id b H; inversion H. }
  cbn in Hnd. apply NoDup_cons in Hnd as [Hi Hnd].
  destruct (handleExpiredBooking_exact F i b0 w) as (ls1 & Hl1 & Hf1 & Hok1).
  set (w1 := snd (handleExpiredBooking F (i, b0) w)) in *.
  destruct (IH w1 Hnd) as (ls & Hl & Hlen & Hin & Hgood & Hbad).
  assert (H1 : ∀ id, LogExpiredProcessed id ∈ ls1 → id = i ∧ handling_fails F (i, b0) w = false).
  { intros id Hid. apply is_outcome_filter in Hid; [|reflexivity]. rewrite Hf1 in Hid.
    apply list_elem_of_singleton in Hid.
    destruct (handling_fails F (i, b0) w); [discriminate|]. injection Hid as ->. auto. }
  exists (ls ++ ls1). split; [rewrite Hl, Hl1; apply app_assoc|].
  split; [rewrite List.filter_app, length_app, Hlen, Hf1; cbn; lia|].
  split.
  { intros id Hid. apply elem_of_app in Hid as [Hid|Hid].
    - cbn. apply list_elem_of_further. apply Hin, Hid.
    - cbn. destruct (H1 id Hid) as [-> _]. apply list_elem_of_here. }
  split.
  - intros id b Hb Hnever. apply elem_of_cons in Hb as [[= -> ->]|Hb].
    + apply elem_of_app. right. apply filter_is_outcome_elem. rewrite Hf1.
      rewrite (never_fails_on_handling F i b0 w Hnever). apply list_elem_of_here.
    + apply elem_of_app. left. apply (Hgood id b Hb Hnever).
  - intros id b Hb Hrefused. apply elem_of_cons in Hb as [[= -> ->]|Hb].
    + assert (Hfail : handling_fails F (i, b0) w = true).
      { unfold handling_fails. cbn [fst]. rewrite Hrefused. reflexivity. }
      split.
      * intros Hid. apply elem_of_app in Hid as [Hid|Hid].
        -- apply Hi, Hin, Hid.
        -- destruct (H1 i Hid) as [_ Hno]. congruence.
      * apply elem_of_app. right. apply filter_is_outcome_elem. rewrite Hf1, Hfail.
        apply list_elem_of_here.
    + destruct (Hbad id b Hb Hrefused) as [Hno Herr]. split.
      * intros Hid. apply elem_of_app in Hid as [Hid|Hid]; [apply Hno, Hid|].
        destruct (H1 id Hid) as [-> _]. apply Hi. apply list_elem_of_fmap.
        exists (i, b). auto.
      * apply elem_of_app. left. exact Herr.
Qed.

Lemma sweep_world_released F l w id b :
  NoDup (l.*1) → (id, b) ∈ l → never_fails_on F id (computerId b) →
  ∀ c, computers (sweep_world F l w) !! computerId b = Some c → c_status c ≠ Booked.
Proof.
  unfold sweep_world.
  revert w. induction l as [|[i b0] l IH]; intros w Hnd Hin Hnever; cbn [fold_left].
  { inversion Hin. }
  cbn in Hnd. apply NoDup_cons in Hnd as [Hi Hnd].
  apply elem_of_cons in Hin as [[= -> ->]|Hin]; [|apply IH; assumption].
  destruct (handleExpiredBooking_exact F i b0 w) as (ls1 & _ & _ & Hok1).
  destruct (Hok1 (never_fails_on_handling F i b0 w Hnever)) as (_ & Hc & _).
  set (w1 := snd (handleExpiredBooking F (i, b0) w)) in *.
  destruct (sweep_world_spec F l w1 Hnd) as (_ & Hrel & _).
  unfold sweep_world in Hrel. intros c.
  destruct (Hrel (computerId b0)) as [Heq|(c0 & _ & _ & Heq)]; rewrite Heq.
  - rewrite Hc. apply release_not_booked.
  - intros [= <-]. cbn. discriminate.
Qed.

Lemma sweep_world_refused F l w id b :
  NoDup (l.*1) → (id, b) ∈ l → (∀ t, F t (OpBookingSave id) = true) →
  bookings (sweep_world F l w) !! id = bookings w !! id.
Proof.
  unfold sweep_world.
  revert w. induction l as [|[i b0] l IH]; intros w Hnd Hin Hrefused; cbn [fold_left].
  { inversion Hin. }
  cbn in Hnd. apply NoDup_cons in Hnd as [Hi Hnd].
  destruct (handleExpiredBooking_spec F i b0 w) as (w1 & Heq & _ & Hbt & Hbf & _).
  rewrite Heq. cbn [snd].
  apply elem_of_cons in Hin as [[= -> ->]|Hin].
  - destruct (sweep_world_spec F l w1 Hnd) as (_ & _ & Hother & _).
    unfold sweep_world in Hother. rewrite (Hother i Hi).
    rewrite Hbt by apply Hrefused. reflexivity.
  - rewrite (IH w1 Hnd Hin Hrefused).
    assert (Hne : id ≠ i).
    { intros ->. apply Hi. apply list_elem_of_fmap. exists (i, b). auto. }
    destruct (F (tick w) (OpBookingSave i)).
    + rewrite Hbt by reflexivity. reflexivity.
    + rewrite Hbf by reflexivity. apply lookup_insert_ne. congruence.
Qed.

(** C8: whatever the store accesses that throw, [handleExpiredBooking] and
    [checkExpiredBookings] return normally.
    - The handling of one booking logs the caught error exactly when one of
      its accesses threw, and "expired and processed" otherwise; then the
      booking is completed, its computer released, and the notices are
      recorded or the failure to send them is logged.
    - When the query succeeds, the sweep is the handling of every selected
      booking in turn, each from the state the one before left, whatever
      failed there; every selected booking gets one closing log line.
    - A selected booking on whose documents no access throws is processed:
      it is completed, logged as processed, and its computer is not booked
      at the end, whatever fails for the others.  A selected booking whose
      save is refused is left as it was, is not logged as processed, and the
      error is logged. *)
Theorem sweep_isolates_failures F now w :
  (∀ d w0, fst (handleExpiredBooking F d w0) = Ok tt) ∧
  fst (checkExpiredBookings F now w) = Ok tt ∧
  (∀ id b w0,
     let w1 := snd (handleExpiredBooking F (id, b) w0) in
     ∃ ls, logs w1 = ls ++ logs w0 ∧
           List.filter is_outcome ls
           = [if handling_fails F (id, b) w0 then LogErrorHandlingExpired
              else LogExpiredProcessed id] ∧
           (handling_fails F (id, b) w0 = false →
              bookings w1 = <[id := with_status Completed b]> (bookings w0) ∧
              computers w1 = release (computerId b) (computers w0) ∧
              ((LogNotificationsSent id ∈ ls ∧
                notifications w1
                = expiration_notices (List.filter is_admin (users w0)) id
                    (with_status Completed b) ++ notifications w0) ∨
               LogErrorNotifications ∈ ls))) ∧
  (F (tick w) OpBookingFindExpired = false →
   let selected := find_expired now (bookings w) in
   let w' := snd (checkExpiredBookings F now w) in
   w' = add_log (LogUpdatedExpired (length selected))
          (fold_left (fun w0 d => snd (handleExpiredBooking F d w0)) selected (bump w)) ∧
   (∃ ls, logs w' = LogUpdatedExpired (length selected) :: ls ++ logs w ∧
          length (List.filter is_outcome ls) = length selected ∧
          (∀ id b, (id, b) ∈ selected → never_fails_on F id (computerId b) →
             LogExpiredProcessed id ∈ ls) ∧
          (∀ id b, (id, b) ∈ selected → (∀ t, F t (OpBookingSave id) = true) →
             (LogExpiredProcessed id ∉ ls) ∧ LogErrorHandlingExpired ∈ ls)) ∧
   (∀ id b, (id, b) ∈ selected → never_fails_on F id (computerId b) →
      bookings w' !! id = Some (with_status Completed b) ∧
      ∀ c, computers w' !! computerId b = Some c → c_status c ≠ Booked) ∧
   (∀ id b, (id, b) ∈ selected → (∀ t, F t (OpBookingSave id) = true) →
      bookings w' !! id = Some b)).
Proof.
  split; [|split; [|split]].
  - intros d w0. apply try_catch_console_ok.
  - apply try_catch_console_ok.
  - intros id b w0. apply handleExpiredBooking_exact.
  - intros HF. cbn zeta. rewrite checkExpiredBookings_eq, HF. cbn [snd].
    pose proof (NoDup_find_expired now (bookings w)) as Hnd.
    set (selected := find_expired now (bookings w)) in *.
    split; [reflexivity|]. split; [|split].
    + destruct (sweep_world_logs F selected (bump w) Hnd)
        as (ls & Hl & Hlen & _ & Hgood & Hbad).
      exists ls. cbn. rewrite Hl. auto.
    + intros id b Hin Hnever. cbn. split.
      * destruct (sweep_world_spec F selected (bump w) Hnd) as (_ & _ & _ & Hsel & _).
        apply (Hsel id b Hin). intros t. apply (Hnever t).
      * apply (sweep_world_released F selected (bump w) id b Hnd Hin Hnever).
    + intros id b Hin Hrefused. cbn.
      rewrite (sweep_world_refused F selected (bump w) id b Hnd Hin Hrefused). cbn.
      apply elem_of_find_expired in Hin. apply Hin.
Qed.

Lemma sweep_isolates_failures_witness :
  let w' := snd (checkExpiredBookings save_2_fails noon_june12 two_ended) in
  (find_expired noon_june12 (bookings two_ended)).*1 = [2; 1] ∧
  bookings w' !! 2 = Some (with_status Approved booking_two_days) ∧
  bookings w' !! 1 = Some (with_status Completed (with_status Approved booking_june10)) ∧
  computers w' !! 1 = Some pc1 ∧
  logs w' = [LogUpdatedExpired 2; LogExpiredProcessed 1; LogNotificationsSent 1;
             LogComputerReleased 1; LogErrorHandlingExpired].
Proof.
  cbn zeta.
  destruct (sweep_isolates_failures save_2_fails noon_june12 two_ended) as (_ & _ & _ & H).
  specialize (H eq_refl). cbn zeta in H. destruct H as (_ & _ & Hgood & Hbad).
  split; [vm_compute; reflexivity|]. split; [|split; [|split]].
  - apply Hbad.
    + apply list_elem_of_In. vm_compute. auto.
    + intros t. reflexivity.
  - apply Hgood.
    + apply list_elem_of_In. vm_compute. auto.
    + intros t. repeat split.
  - vm_compute. reflexivity.
  - vm_compute. reflexivity.
Defined.

(** ** The status route *)

Lemma parse_target_cases s t :
  parse_target s = Some t → t = Approved ∨ t = Rejected ∨ t = Cancelled.
Proof.
  unfold parse_target. intros H.
  repeat match type of H with
         | match ?x with _ => _ end = _ => destruct x; try discriminate
         | (if ?x then _ else _) = _ => destruct x; try discriminate
         end; injection H as <-; auto.
Qed.

(** Without faults the status route either leaves bookings and computers as
    they are, or it is an admin request with a valid target for a stored
    booking, whose status it sets and whose computer it updates. *)
Lemma setBookingStatus_no_fault uid id body w :
  let w' := snd (setBookingStatus no_fault uid id body w) in
  (bookings w' = bookings w ∧ computers w' = computers w) ∨
  ∃ target b,
    admin_actor w uid ∧
    parse_target (sb_status body) = Some target ∧
    (target = Rejected → falsy (sb_rejectionReason body) = false) ∧
    bookings w !! id = Some b ∧
    let b' := status_update target (sb_rejectionReason body) b in
    bookings w' = <[id := b']> (bookings w) ∧
    computers w' =
      match computers w !! computerId b with
      | Some _ => synced_computers target id b' (<[id := b']> (bookings w)) (computers w)
      | None => computers w
      end.
Proof.
  cbn zeta.
  unfold setBookingStatus, User_findOne, Booking_findById_populated, Booking_save,
    sync_computer, Booking_findOtherApproved, Computer_findByIdAndUpdate,
    Notification_save.
  munfold. cbn.
  destruct (List.find _ (users w)) as [u|] eqn:Hu; cbn; [|left; auto].
  destruct (is_admin u) eqn:Hadm; cbn; [|left; auto].
  destruct (parse_target (sb_status body)) as [target|] eqn:Ht; cbn; [|left; auto].
  destruct (bool_decide (target = Rejected) && falsy (sb_rejectionReason body)) eqn:Hr;
    cbn; [left; auto|].
  destruct (bookings w !! id) as [b|] eqn:Hb; cbn; [|left; auto].
  right. exists target, b.
  split; [exists u; auto|]. split; [reflexivity|].
  split.
  { intros ->. rewrite bool_decide_eq_true_2 in Hr by reflexivity. exact Hr. }
  split; [reflexivity|].
  unfold status_update, synced_computers.
  destruct (parse_target_cases _ _ Ht) as [->|[->| ->]];
    repeat (case_bool_decide; try discriminate; try congruence); cbn;
    destruct (computers w !! computerId b) as [c|]; cbn; auto;
    match goal with
    | |- context [find_other_approved ?a ?b ?c] =>
        destruct (find_other_approved a b c); cbn; auto
    | _ => idtac
    end.
Qed.

(** ** The creation route *)

(** Whatever the faults, [POST /] writes no computer, and the only booking it
    writes is a new, pending one. *)
Lemma createBooking_any F uid body w :
  let w' := snd (createBooking F uid body w) in
  computers w' = computers w ∧ users w' = users w ∧
  (bookings w' = bookings w ∨
   ∃ cid sd ed st et r,
     bookings w' = <[fresh (dom (bookings w)) :=
                      new_booking uid cid sd ed st et r (cb_meta body)]> (bookings w)).
Proof.
  cbn zeta.
  unfold createBooking, Computer_findById, new_id, Booking_save, User_findAdmins,
    Notification_insertMany, Booking_populate.
  munfold. cbn.
  destruct (cb_computerId body) as [cid|]; cbn; [|auto].
  destruct (present (cb_startDate body)) as [sd|]; cbn; [|auto].
  destruct (present (cb_endDate body)) as [ed|]; cbn; [|auto].
  destruct (present (cb_startTime body)) as [st|]; cbn; [|auto].
  destruct (present (cb_endTime body)) as [et|]; cbn; [|auto].
  destruct (present (cb_reason body)) as [r|]; cbn; [|auto].
  destruct (F (tick w) (OpComputerFindById cid)); cbn; [auto|].
  destruct (computers w !! cid) as [c|]; cbn; [|auto].
  repeat (match goal with
          | |- context [if F ?t ?op then _ else _] => destruct (F t op)
          | |- context [match length ?l with _ => _ end] => destruct (length l)
          end; cbn);
    (split; [reflexivity|split; [reflexivity|]]);
    first [left; reflexivity | right; do 6 eexists; reflexivity].
Qed.

(** Without faults, a request with all six fields for a computer that exists
    is answered 201 and stores the new booking. *)
Lemma createBooking_no_fault_created uid body w cid sd ed st et r c :
  cb_computerId body = Some cid →
  present (cb_startDate body) = Some sd → present (cb_endDate body) = Some ed →
  present (cb_startTime body) = Some st → present (cb_endTime body) = Some et →
  present (cb_reason body) = Some r →
  computers w !! cid = Some c →
  let id := fresh (dom (bookings w)) in
  let b := new_booking uid cid sd ed st et r (cb_meta body) in
  fst (createBooking no_fault uid body w) = Ok (mkResponse 201 (BookingJson id b)) ∧
  bookings (snd (createBooking no_fault uid body w)) = <[id := b]> (bookings w).
Proof.
  intros Hc Hsd Hed Hst Het Hr Hcomp. cbn zeta.
  unfold createBooking, Computer_findById, new_id, Booking_save, User_findAdmins,
    Notification_insertMany, Booking_populate.
  munfold. cbn. rewrite Hc, Hsd, Hed, Hst, Het, Hr. cbn. rewrite Hcomp. cbn.
  match goal with |- context [match length ?l with _ => _ end] => destruct (length l) end; cbn; auto.
Qed.

Lemma createBooking_no_fault_not_found uid body w cid sd ed st et r :
  cb_computerId body = Some cid →
  present (cb_startDate body) = Some sd → present (cb_endDate body) = Some ed →
  present (cb_startTime body) = Some st → present (cb_endTime body) = Some et →
  present (cb_reason body) = Some r →
  computers w !! cid = None →
  fst (createBooking no_fault uid body w) = Ok computer_not_found ∧
  bookings (snd (createBooking no_fault uid body w)) = bookings w.
Proof.
  intros Hc Hsd Hed Hst Het Hr Hcomp.
  unfold createBooking, Computer_findById.
  munfold. cbn. rewrite Hc, Hsd, Hed, Hst, Het, Hr. cbn. rewrite Hcomp. cbn. auto.
Qed.

Lemma fresh_booking_id (bs : gmap nat Booking) : bs !! fresh (dom bs) = None.
Proof. apply not_elem_of_dom. apply is_fresh. Qed.

(** ** The reschedule route *)

Lemma updateBookingTime_no_fault uid id body w :
  let w' := snd (updateBookingTime no_fault uid id body w) in
  (bookings w' = bookings w ∧ computers w' = computers w) ∨
  ∃ b b',
    bookings w !! id = Some b ∧ status b = Approved ∧
    status b' = Approved ∧ rejectionReason b' = rejectionReason b ∧
    bookings w' = <[id := b']> (bookings w) ∧
    ((computerId b' = computerId b ∧ computers w' = computers w) ∨
     (computerId b' ≠ computerId b ∧
      computers w' =
        alter (with_c_status Booked) (computerId b')
          (match find_other_approved (computerId b) id (bookings w) with
           | None => alter (with_c_status Available) (computerId b) (computers w)
           | Some _ => computers w
           end))).
Proof.
  cbn zeta.
  unfold updateBookingTime, change_computer, User_findOne, Booking_findById,
    Computer_findById, Booking_findOtherApproved, Computer_findByIdAndUpdate,
    Booking_save, Booking_populate.
  munfold. cbn.
  destruct (List.find _ (users w)) as [u|] eqn:Hu; cbn; [|left; auto].
  destruct (is_admin u) eqn:Hadm; cbn; [|left; auto].
  destruct (bookings w !! id) as [b|] eqn:Hb; cbn; [|left; auto].
  case_bool_decide as Hst; cbn; [left; auto|].
  assert (Hap : status b = Approved) by (destruct (status b); congruence).
  pose (retimed := fun b1 : Booking =>
    with_endDate (or_keep (tb_endDate body) (endDate b1))
      (with_endTime (or_keep (tb_endTime body) (endTime b1))
         (with_startTime (or_keep (tb_startTime body) (startTime b1)) b1))).
  destruct (tb_computerId body) as [cid|] eqn:Hcid; cbn.
  - case_bool_decide as Hne; cbn.
    + destruct (computers w !! cid) as [c|] eqn:Hc; cbn; [|left; auto].
      right. exists b, (retimed (with_computerId cid b)).
      destruct (find_other_approved (computerId b) id (bookings w)) eqn:Hother; cbn;
        repeat split; auto.
    + right. exists b, (retimed b). cbn. repeat split; auto.
  - right. exists b, (retimed b). cbn. repeat split; auto.
Qed.

(** ** A booked computer has an approved booking *)

Lemma find_other_approved_Some cid id bs p :
  find_other_approved cid id bs = Some p →
  bs !! fst p = Some (snd p) ∧ computerId (snd p) = cid ∧
  status (snd p) = Approved ∧ fst p ≠ id.
Proof.
  unfold find_other_approved, other_approved_query. intros H.
  apply List.find_some in H as [Hin Hq].
  apply list_elem_of_In in Hin. destruct p as [i b]. cbn in *.
  apply elem_of_map_to_list in Hin.
  apply andb_true_iff in Hq as [Hq Hne]. apply andb_true_iff in Hq as [Hc Hs].
  apply bool_decide_eq_true in Hc, Hs. apply negb_true_iff in Hne.
  apply bool_decide_eq_false in Hne. auto.
Qed.

Lemma find_other_approved_None cid id bs i b :
  find_other_approved cid id bs = None →
  bs !! i = Some b → computerId b = cid → status b = Approved → i = id.
Proof.
  unfold find_other_approved, other_approved_query. intros H Hb Hc Hs.
  apply elem_of_map_to_list, list_elem_of_In in Hb.
  pose proof (List.find_none _ _ H _ Hb) as Hq. cbn in Hq.
  rewrite !bool_decide_eq_true_2 in Hq by assumption. cbn in Hq.
  apply negb_false_iff, bool_decide_eq_true in Hq. exact Hq.
Qed.

Lemma status_update_computerId t r b : computerId (status_update t r b) = computerId b.
Proof. unfold status_update. case_bool_decide; reflexivity. Qed.

Lemma status_update_status t r b : status (status_update t r b) = t.
Proof. unfold status_update. case_bool_decide; reflexivity. Qed.

Lemma booked_has_approved_createBooking uid body w :
  booked_has_approved w → booked_has_approved (snd (createBooking no_fault uid body w)).
Proof.
  intros Hinv cid c Hc Hbk.
  destruct (createBooking_any no_fault uid body w) as (Hcs & _ & Hbs).
  rewrite Hcs in Hc. destruct (Hinv cid c Hc Hbk) as (i & b & Hb & Hcid & Hst).
  exists i, b. split; [|auto].
  destruct Hbs as [-> | (? & ? & ? & ? & ? & ? & ->)]; [exact Hb|].
  rewrite lookup_insert_ne; [exact Hb|].
  intros Heq. rewrite <- Heq, fresh_booking_id in Hb. discriminate.
Qed.

Lemma booked_has_approved_setBookingStatus uid id body w :
  booked_has_approved w → booked_has_approved (snd (setBookingStatus no_fault uid id body w)).
Proof.
  intros Hinv.
  destruct (setBookingStatus_no_fault uid id body w)
    as [[Hbs Hcs]|(t & b & _ & Ht & _ & Hb & Hbs & Hcs)].
  { intros cid c. rewrite Hbs, Hcs. apply Hinv. }
  cbn zeta in Hbs, Hcs.
  set (b' := status_update t (sb_rejectionReason body) b) in *.
  assert (Hcb : computerId b' = computerId b) by apply status_update_computerId.
  assert (Hother : ∀ cid c, cid ≠ computerId b → computers w !! cid = Some c →
            c_status c = Booked →
            ∃ i bi, <[id := b']> (bookings w) !! i = Some bi ∧ computerId bi = cid ∧
                    status bi = Approved).
  { intros cid c Hne Hc Hbk. destruct (Hinv cid c Hc Hbk) as (i & bi & Hbi & Hci & Hsi).
    exists i, bi. split; [|auto]. rewrite lookup_insert_ne; [exact Hbi|].
    intros <-. rewrite Hb in Hbi. injection Hbi as <-. congruence. }
  intros cid c. rewrite Hbs, Hcs. clear Hbs Hcs.
  destruct (computers w !! computerId b) as [c0|] eqn:Hc0.
  2:{ intros Hc Hbk. apply (Hother cid c); [congruence|assumption..]. }
  unfold synced_computers. rewrite Hcb.
  destruct (decide (cid = computerId b)) as [->|Hne].
  - case_bool_decide as Hap.
    + intros _ _. exists id, b'. rewrite lookup_insert_eq.
      split; [reflexivity|]. split; [exact Hcb|].
      unfold b'. rewrite status_update_status. exact Hap.
    + destruct (find_other_approved _ _ _) as [p|] eqn:Hf.
      * intros _ _. apply find_other_approved_Some in Hf as (Hp & Hpc & Hps & _).
        exists (fst p), (snd p). auto.
      * rewrite lookup_alter_eq, Hc0. cbn. intros [= <-]. cbn. discriminate.
  - intros Hc Hbk. apply (Hother cid c Hne); [|exact Hbk].
    case_bool_decide; [|destruct (find_other_approved _ _ _)];
      rewrite ?lookup_alter_ne in Hc by congruence; exact Hc.
Qed.

Lemma booked_has_approved_updateBookingTime uid id body w :
  booked_has_approved w → booked_has_approved (snd (updateBookingTime no_fault uid id body w)).
Proof.
  intros Hinv.
  destruct (updateBookingTime_no_fault uid id body w)
    as [[Hbs Hcs]|(b & b' & Hb & Hst & Hst' & _ & Hbs & Hcs)].
  { intros cid c. rewrite Hbs, Hcs. apply Hinv. }
  assert (Hkeep : ∀ cid c, computers w !! cid = Some c → c_status c = Booked →
            (cid = computerId b → cid = computerId b' ∨
               ∃ p, find_other_approved (computerId b) id (bookings w) = Some p) →
            ∃ i bi, <[id := b']> (bookings w) !! i = Some bi ∧ computerId bi = cid ∧
                    status bi = Approved).
  { intros cid c Hc Hbk Hold.
    destruct (Hinv cid c Hc Hbk) as (i & bi & Hbi & Hci & Hsi).
    destruct (decide (i = id)) as [->|Hne].
    - rewrite Hb in Hbi. injection Hbi as <-.
      destruct (Hold (eq_sym Hci)) as [Heq|[p Hp]].
      + exists id, b'. rewrite lookup_insert_eq. split; [reflexivity|]. split; congruence.
      + apply find_other_approved_Some in Hp as (Hp & Hpc & Hps & Hpn).
        exists (fst p), (snd p). rewrite lookup_insert_ne by congruence.
        split; [exact Hp|]. split; congruence.
    - exists i, bi. rewrite lookup_insert_ne by congruence. auto. }
  intros cid c. rewrite Hbs.
  destruct Hcs as [[Hsame ->]|[Hdiff ->]].
  { intros Hc Hbk. apply (Hkeep cid c Hc Hbk). intros ->. left. congruence. }
  destruct (decide (cid = computerId b')) as [->|Hnew].
  { intros _ _. exists id, b'. rewrite lookup_insert_eq. auto. }
  rewrite lookup_alter_ne by congruence.
  destruct (find_other_approved (computerId b) id (bookings w)) as [p|] eqn:Hf.
  { intros Hc Hbk. apply (Hkeep cid c Hc Hbk). intros _. right. exists p. reflexivity. }
  destruct (decide (cid = computerId b)) as [->|Hold].
  { rewrite lookup_alter_eq. destruct (computers w !! computerId b); cbn; [|discriminate].
    intros [= <-]. cbn. discriminate. }
  rewrite lookup_alter_ne by congruence.
  intros Hc Hbk. apply (Hkeep cid c Hc Hbk). congruence.
Qed.

Lemma booked_has_approved_checkExpiredBookings now w :
  booked_has_approved w → booked_has_approved (snd (checkExpiredBookings no_fault now w)).
Proof.
  intros Hinv. rewrite checkExpiredBookings_eq. cbn.
  set (l := find_expired now (bookings w)).
  pose proof (NoDup_find_expired now (bookings w)) as Hnd. fold l in Hnd.
  destruct (sweep_world_spec no_fault l (bump w) Hnd) as (_ & Hrel & Hout & _).
  intros cid c Hc Hbk. cbn in *.
  destruct (Hrel cid) as [Heq|(c0 & _ & _ & Heq)]; rewrite Heq in Hc.
  2:{ injection Hc as <-. cbn in Hbk. discriminate. }
  destruct (Hinv cid c Hc Hbk) as (i & b & Hb & Hci & Hsi).
  destruct (decide (i ∈ l.*1)) as [Hk|Hk].
  - exfalso. apply list_elem_of_fmap in Hk as ([i' b'] & Hi & Hin). cbn in Hi; subst i'.
    pose proof Hin as Hin'. apply elem_of_find_expired in Hin' as [Hb' _].
    rewrite Hb in Hb'. injection Hb' as <-.
    assert (Hcur : computers (sweep_world no_fault l (bump w)) !! computerId b = Some c)
      by (rewrite Hci, Heq; exact Hc).
    exact (sweep_world_no_fault_released l (bump w) i b c Hnd Hin Hcur Hbk).
  - exists i, b. rewrite (Hout i Hk). auto.
Qed.

Lemma booked_has_approved_apply_op o w :
  booked_has_approved w → booked_has_approved (apply_op no_fault w o).
Proof.
  destruct o; cbn.
  - apply booked_has_approved_createBooking.
  - apply booked_has_approved_setBookingStatus.
  - apply booked_has_approved_updateBookingTime.
  - apply booked_has_approved_checkExpiredBookings.
Qed.

Lemma status_consistent_booked_has_approved now w :
  status_consistent now w → booked_has_approved w.
Proof.
  intros H cid c Hc Hbk. apply (H cid c Hc) in Hbk as (i & b & Hb & Hci & Hsi & _).
  eauto.
Qed.

Lemma active_approvedb_spec now w cid :
  active_approvedb now w cid = true ↔ has_active_approved now w cid.
Proof.
  unfold active_approvedb, has_active_approved. rewrite List.existsb_exists. split.
  - intros ([i b] & Hin & Hq). cbn in Hq.
    apply list_elem_of_In, elem_of_map_to_list in Hin.
    apply andb_true_iff in Hq as [Hq He]. apply andb_true_iff in Hq as [Hc Hs].
    apply bool_decide_eq_true in Hc, Hs. apply negb_true_iff in He. eauto 10.
  - intros (i & b & Hb & Hc & Hs & He). exists (i, b). split.
    + apply list_elem_of_In, elem_of_map_to_list. exact Hb.
    + cbn. rewrite !bool_decide_eq_true_2, He by assumption. reflexivity.
Qed.

Lemma status_consistentb_spec now w :
  status_consistentb now w = true ↔ status_consistent now w.
Proof.
  unfold status_consistentb, status_consistent. rewrite List.forallb_forall. split.
  - intros H cid c Hc.
    apply elem_of_map_to_list, list_elem_of_In in Hc. specialize (H _ Hc). cbn in H.
    apply Bool.eqb_prop in H. rewrite <- active_approvedb_spec, <- H.
    symmetry. apply bool_decide_eq_true.
  - intros H [cid c] Hin. apply list_elem_of_In, elem_of_map_to_list in Hin.
    specialize (H cid c Hin). cbn.
    destruct (active_approvedb now w cid) eqn:Ha.
    + rewrite bool_decide_eq_true_2; [reflexivity|]. apply H, active_approvedb_spec, Ha.
    + rewrite bool_decide_eq_false_2; [reflexivity|]. intros Hbk.
      apply H, active_approvedb_spec in Hbk. congruence.
Qed.

(** A cancellation whose query for other approved bookings throws: the
    booking is saved as cancelled and the computer is left as it was. *)
Lemma setBookingStatus_cancel_fault F uid id body w b c :
  admin_actor w uid →
  sb_status body = Some "cancelled" →
  bookings w !! id = Some b →
  computers w !! computerId b = Some c →
  F (tick w) (OpUserFindOne uid) = false →
  F (S (tick w)) (OpBookingFindById id) = false →
  F (S (S (tick w))) (OpBookingSave id) = false →
  F (S (S (S (tick w)))) (OpBookingFindOtherApproved (computerId b) id) = true →
  bookings (snd (setBookingStatus F uid id body w))
    = <[id := with_status Cancelled b]> (bookings w) ∧
  computers (snd (setBookingStatus F uid id body w)) = computers w.
Proof.
  intros (u & Hu & Hadm) Hs Hb Hc H0 H1 H2 H3.
  unfold setBookingStatus, User_findOne, Booking_findById_populated, Booking_save,
    sync_computer, Booking_findOtherApproved, Computer_findByIdAndUpdate,
    Notification_save.
  munfold. cbn. rewrite H0. cbn. rewrite Hu. cbn. rewrite Hadm, Hs. cbn.
  repeat (case_bool_decide; try discriminate; try congruence); cbn;
    rewrite H1; cbn; rewrite Hb; cbn; rewrite H2; cbn; rewrite Hc; cbn; rewrite H3; cbn;
    repeat split.
Qed.

(** A reschedule to another computer books it. *)
Lemma updateBookingTime_books uid id body w b cid cn :
  admin_actor w uid → bookings w !! id = Some b → status b = Approved →
  tb_computerId body = Some cid → cid ≠ computerId b →
  computers w !! cid = Some cn →
  computers (snd (updateBookingTime no_fault uid id body w)) !! cid
  = Some (with_c_status Booked cn).
Proof.
  intros (u & Hu & Hadm) Hb Hst Hcid Hne Hcn.
  assert (Hcs :
    computers (snd (updateBookingTime no_fault uid id body w))
      = alter (with_c_status Booked) cid
          (match find_other_approved (computerId b) id (bookings w) with
           | None => alter (with_c_status Available) (computerId b) (computers w)
           | Some _ => computers w
           end)).
  { unfold updateBookingTime, change_computer, User_findOne, Booking_findById,
      Computer_findById, Booking_findOtherApproved, Computer_findByIdAndUpdate,
      Booking_save, Booking_populate.
    munfold. cbn. rewrite Hu. cbn. rewrite Hadm. cbn. rewrite Hb. cbn.
    rewrite bool_decide_eq_false_2 by (intros H; apply H; exact Hst). cbn.
    rewrite Hcid. cbn. rewrite bool_decide_eq_true_2 by assumption. cbn.
    rewrite Hcn. cbn.
    destruct (find_other_approved (computerId b) id (bookings w)); cbn; auto. }
  rewrite Hcs, lookup_alter_eq.
  destruct (find_other_approved _ _ _);
    rewrite ?lookup_alter_ne by congruence; rewrite Hcn; reflexivity.
Qed.

(** C1 (amended): as long as no access to the store throws, any sequence of
    create, status, reschedule and sweep operations from a state that is
    consistent in the sense of the specification leads to a state in which
    every booked computer has an approved booking.  (Whether that booking has
    elapsed, and whether a computer with an approved booking is booked, is not
    maintained.)  [POST /] never writes a computer, whatever throws; the
    reschedule route does: it books the computer the booking moves to.  A
    throw can break the property, since nothing is rolled back: when an admin
    cancels the only approved booking of a booked computer and the query for
    other approved bookings throws, the booking stays cancelled and the
    computer booked. *)
Theorem booked_computers_have_approved_booking now ops w :
  status_consistent now w →
  booked_has_approved (run_ops no_fault ops w) ∧
  (∀ F uid body w0, computers (snd (createBooking F uid body w0)) = computers w0) ∧
  (∀ uid id body w0 b cid cn,
     admin_actor w0 uid → bookings w0 !! id = Some b → status b = Approved →
     tb_computerId body = Some cid → cid ≠ computerId b →
     computers w0 !! cid = Some cn →
     computers (snd (updateBookingTime no_fault uid id body w0)) !! cid
     = Some (with_c_status Booked cn)) ∧
  (∀ F uid id body w0 b c,
     admin_actor w0 uid → sb_status body = Some "cancelled" →
     bookings w0 !! id = Some b → computers w0 !! computerId b = Some c →
     c_status c = Booked → no_other_approved w0 (computerId b) id →
     F (tick w0) (OpUserFindOne uid) = false →
     F (S (tick w0)) (OpBookingFindById id) = false →
     F (S (S (tick w0))) (OpBookingSave id) = false →
     F (S (S (S (tick w0)))) (OpBookingFindOtherApproved (computerId b) id) = true →
     ¬ booked_has_approved (snd (setBookingStatus F uid id body w0))).
Proof.
  intros H. split; [|split; [|split]].
  - apply status_consistent_booked_has_approved in H.
    unfold run_ops. revert w H. induction ops as [|o ops IH]; intros w H; cbn; [exact H|].
    apply IH. apply booked_has_approved_apply_op. exact H.
  - intros F uid body w0. apply (createBooking_any F uid body w0).
  - apply updateBookingTime_books.
  - intros F uid id body w0 b c Hadm Hs Hb Hc Hbk Hno H0 H1 H2 H3 Hinv.
    destruct (setBookingStatus_cancel_fault F uid id body w0 b c Hadm Hs Hb Hc H0 H1 H2 H3)
      as [Hbs Hcs].
    destruct (Hinv (computerId b) c) as (i & b' & Hb' & Hci & Hst).
    + rewrite Hcs. exact Hc.
    + exact Hbk.
    + rewrite Hbs in Hb'. destruct (decide (i = id)) as [->|Hne].
      * rewrite lookup_insert_eq in Hb'. injection Hb' as <-. discriminate.
      * rewrite lookup_insert_ne in Hb' by congruence.
        apply Hne. apply (Hno i b' Hb' Hci Hst).
Qed.

Lemma booked_computers_have_approved_booking_witness :
  let w1 := run_ops no_fault approve_ended two_pending in
  computers w1 !! 1 = Some (with_c_status Booked pc1) ∧
  (∃ id b, bookings w1 !! id = Some b ∧ computerId b = 1 ∧ status b = Approved) ∧
  ¬ booked_has_approved
      (snd (setBookingStatus other_approved_lookup_fails "admin-uid" 1 cancel w1)).
Proof.
  cbn zeta.
  destruct (booked_computers_have_approved_booking noon_june12 approve_ended two_pending)
    as (Hinv & _ & _ & Hfault).
  { apply status_consistentb_spec. vm_compute. reflexivity. }
  split; [vm_compute; reflexivity|]. split.
  - apply (Hinv 1 (with_c_status Booked pc1)); [vm_compute; reflexivity|reflexivity].
  - apply (Hfault other_approved_lookup_fails "admin-uid" 1 cancel
             (run_ops no_fault approve_ended two_pending)
             (with_status Approved booking_june10) (with_c_status Booked pc1)).
    + exists admin0. split; reflexivity.
    + reflexivity.
    + vm_compute. reflexivity.
    + vm_compute. reflexivity.
    + reflexivity.
    + intros i b Hb Hc Hs.
      apply elem_of_map_to_list, list_elem_of_In in Hb. vm_compute in Hb.
      destruct Hb as [Hb|[Hb|[]]]; injection Hb as <- <-;
        first [reflexivity | cbn in Hs; discriminate Hs].
    + reflexivity.
    + reflexivity.
    + reflexivity.
    + reflexivity.
Defined.

(** C1, as stated, fails: two pending bookings on an available computer, one
    of 10 June and one of 12 to 14 June, at 12 June, 12:00.
    - Both are approved (the state is still consistent) and the sweep runs: it
      completes the first booking and sets the computer to available, while
      the second booking is approved and has not elapsed.
    - Only the first, which has elapsed, is approved: the computer is booked
      and no approved booking on it is left to elapse. *)
Lemma sweep_releases_computer_in_use :
  let w2 := run_ops no_fault (take 2 approve_both_then_sweep) two_pending in
  let w3 := run_ops no_fault approve_both_then_sweep two_pending in
  let w1 := run_ops no_fault approve_ended two_pending in
  status_consistent noon_june12 two_pending ∧
  status_consistent noon_june12 w2 ∧
  (computers w3 !! 1 = Some pc1 ∧ c_status pc1 = Available ∧
   bookings w3 !! 2 = Some (with_status Approved booking_june12) ∧
   elapsed noon_june12 (with_status Approved booking_june12) = false ∧
   ¬ status_consistent noon_june12 w3) ∧
  (computers w1 !! 1 = Some (with_c_status Booked pc1) ∧
   ¬ has_active_approved noon_june12 w1 1 ∧
   ¬ status_consistent noon_june12 w1).
Proof.
  cbn zeta. split; [apply status_consistentb_spec; vm_compute; reflexivity|].
  split; [apply status_consistentb_spec; vm_compute; reflexivity|].
  split.
  - split; [vm_compute; reflexivity|]. split; [reflexivity|].
    split; [vm_compute; reflexivity|]. split; [vm_compute; reflexivity|].
    rewrite <- status_consistentb_spec. vm_compute. discriminate.
  - split; [vm_compute; reflexivity|]. split.
    + rewrite <- active_approvedb_spec. vm_compute. discriminate.
    + rewrite <- status_consistentb_spec. vm_compute. discriminate.
Qed.

(** ** Rejection reasons *)

Lemma reason_iff_rejectedb_spec w :
  reason_iff_rejectedb w = true ↔ reason_iff_rejected w.
Proof.
  unfold reason_iff_rejectedb, reason_iff_rejected. rewrite List.forallb_forall. split.
  - intros H id b Hb. apply elem_of_map_to_list, list_elem_of_In in Hb.
    specialize (H _ Hb). cbn in H. apply Bool.eqb_prop in H.
    rewrite <- (bool_decide_eq_true (status b = Rejected)), <- H.
    destruct (falsy (rejectionReason b)); cbn; split; congruence.
  - intros H [id b] Hin. apply list_elem_of_In, elem_of_map_to_list in Hin.
    specialize (H id b Hin). cbn.
    destruct (falsy (rejectionReason b)); cbn; case_bool_decide; cbn; try reflexivity.
    + destruct H as [_ H]. specialize (H ltac:(assumption)). discriminate.
    + destruct H as [H _]. specialize (H eq_refl). contradiction.
Qed.

Lemma rejected_has_reason_insert id b w w' :
  rejected_has_reason w →
  bookings w' = <[id := b]> (bookings w) →
  (status b = Rejected → falsy (rejectionReason b) = false) →
  rejected_has_reason w'.
Proof.
  intros Hinv Hbs Hb i bi. rewrite Hbs.
  destruct (decide (i = id)) as [->|Hne].
  - rewrite lookup_insert_eq. intros [= <-]. exact Hb.
  - rewrite lookup_insert_ne by congruence. apply Hinv.
Qed.

Lemma rejected_has_reason_same w w' :
  rejected_has_reason w → bookings w' = bookings w → rejected_has_reason w'.
Proof. intros Hinv Hbs i bi. rewrite Hbs. apply Hinv. Qed.

Lemma rejected_has_reason_apply_op o w :
  rejected_has_reason w → rejected_has_reason (apply_op no_fault w o).
Proof.
  intros Hinv. destruct o as [uid body|uid id body|uid id body|now]; cbn.
  - destruct (createBooking_any no_fault uid body w) as (_ & _ & [Hbs|Hbs]).
    + eapply rejected_has_reason_same; eassumption.
    + destruct Hbs as (cid & sd & ed & st & et & r & Hbs).
      eapply rejected_has_reason_insert; [exact Hinv|exact Hbs|]. cbn. discriminate.
  - destruct (setBookingStatus_no_fault uid id body w)
      as [[Hbs _]|(t & b & _ & _ & Hr & _ & Hbs & _)].
    + eapply rejected_has_reason_same; eassumption.
    + eapply rejected_has_reason_insert; [exact Hinv|exact Hbs|].
      rewrite status_update_status. intros ->.
      unfold status_update. rewrite bool_decide_eq_true_2 by reflexivity. cbn. auto.
  - destruct (updateBookingTime_no_fault uid id body w)
      as [[Hbs _]|(b & b' & _ & _ & Hst & _ & Hbs & _)].
    + eapply rejected_has_reason_same; eassumption.
    + eapply rejected_has_reason_insert; [exact Hinv|exact Hbs|]. congruence.
  - rewrite checkExpiredBookings_eq. cbn.
    set (l := find_expired now (bookings w)).
    destruct (sweep_world_spec no_fault l (bump w) (NoDup_find_expired now (bookings w)))
      as (_ & _ & Hout & Hin & _).
    intros i bi Hbi Hst. cbn in *.
    destruct (decide (i ∈ l.*1)) as [Hk|Hk].
    + apply list_elem_of_fmap in Hk as ([i' b'] & Hi & Hmem). cbn in Hi; subst i'.
      destruct (Hin i b' Hmem) as [_ Hdone]. rewrite Hdone in Hbi by reflexivity.
      injection Hbi as <-. cbn in Hst. discriminate.
    + rewrite (Hout i Hk) in Hbi. exact (Hinv i bi Hbi Hst).
Qed.

(** C6 (amended): a rejected booking has a rejection reason, after any
    sequence of create, status, reschedule and sweep operations (without
    faults) from a state where that holds.  The converse is not maintained:
    a reason stays on a booking that leaves [rejected]. *)
Theorem rejected_bookings_have_reason ops w :
  rejected_has_reason w → rejected_has_reason (run_ops no_fault ops w).
Proof.
  unfold run_ops. revert w. induction ops as [|o ops IH]; intros w H; cbn; [exact H|].
  apply IH. apply rejected_has_reason_apply_op. exact H.
Qed.

Lemma rejected_bookings_have_reason_witness :
  rejected_has_reason (run_ops no_fault reject_then_approve two_pending).
Proof.
  apply (rejected_bookings_have_reason reject_then_approve two_pending).
  intros id b Hb Hst.
  assert (H : reason_iff_rejected two_pending)
    by (apply reason_iff_rejectedb_spec; vm_compute; reflexivity).
  apply (H id b Hb). exact Hst.
Defined.

(** C6, as stated, fails: booking 1 is rejected with reason "busy" and then
    approved; it is approved and still has the reason. *)
Lemma approved_booking_keeps_rejection_reason :
  let w' := run_ops no_fault reject_then_approve two_pending in
  reason_iff_rejected two_pending ∧
  bookings w' !! 1
    = Some (with_rejectionReason (Some "busy") (with_status Approved booking_june10)) ∧
  ¬ reason_iff_rejected w'.
Proof.
  cbn zeta. split; [apply reason_iff_rejectedb_spec; vm_compute; reflexivity|].
  split; [vm_compute; reflexivity|].
  rewrite <- reason_iff_rejectedb_spec. vm_compute. discriminate.
Qed.

(** ** The status route does not look at the current status *)

Lemma setBookingStatus_no_fault_applied uid id body w b c t :
  admin_actor w uid →
  parse_target (sb_status body) = Some t →
  (t = Rejected → falsy (sb_rejectionReason body) = false) →
  bookings w !! id = Some b →
  computers w !! computerId b = Some c →
  let b' := status_update t (sb_rejectionReason body) b in
  let w' := snd (setBookingStatus no_fault uid id body w) in
  fst (setBookingStatus no_fault uid id body w) = Ok (mkResponse 200 (BookingJson id b')) ∧
  bookings w' = <[id := b']> (bookings w) ∧
  computers w' = synced_computers t id b' (<[id := b']> (bookings w)) (computers w).
Proof.
  intros (u & Hu & Hadm) Ht Hr Hb Hc. cbn zeta.
  unfold setBookingStatus, User_findOne, Booking_findById_populated, Booking_save,
    sync_computer, Booking_findOtherApproved, Computer_findByIdAndUpdate,
    Notification_save, status_update, synced_computers.
  munfold. cbn. rewrite Hu. cbn. rewrite Hadm, Ht. cbn.
  assert (Hr' : bool_decide (t = Rejected) && falsy (sb_rejectionReason body) = false).
  { case_bool_decide; cbn; auto. }
  rewrite Hr'. cbn. rewrite Hb. cbn. rewrite Hc. cbn.
  destruct (parse_target_cases _ _ Ht) as [->|[->| ->]];
    repeat (case_bool_decide; try discriminate; try congruence); cbn; auto;
    match goal with
    | |- context [find_other_approved ?a ?b ?c] =>
        destruct (find_other_approved a b c); cbn; auto
    end.
Qed.

Lemma find_other_approved_insert_None w cid id b' :
  no_other_approved w cid id →
  find_other_approved cid id (<[id := b']> (bookings w)) = None.
Proof.
  intros Hno. destruct (find_other_approved _ _ _) as [p|] eqn:Hf; [|reflexivity].
  apply find_other_approved_Some in Hf as (Hp & Hpc & Hps & Hne).
  rewrite lookup_insert_ne in Hp by congruence.
  exfalso. apply Hne. eapply Hno; eassumption.
Qed.

Lemma find_other_approved_insert_Some w cid id b' i bi :
  bookings w !! i = Some bi → i ≠ id → computerId bi = cid → status bi = Approved →
  is_Some (find_other_approved cid id (<[id := b']> (bookings w))).
Proof.
  intros Hbi Hne Hc Hs.
  destruct (find_other_approved _ _ _) as [p|] eqn:Hf; [eauto|].
  exfalso. apply Hne.
  eapply (find_other_approved_None _ _ _ i bi Hf); [|assumption..].
  rewrite lookup_insert_ne by congruence. exact Hbi.
Qed.

(** C4 (amended): the sweep changes a booking only from approved to
    completed, whatever the faults; [POST /] changes no stored booking and the
    reschedule route changes no booking that is not approved.  The status
    route does not look at the current status: an admin request with a valid
    target (and a reason, for a rejection) on a stored booking whose computer
    exists sets the status to the target, also from rejected, cancelled or
    completed, and approve does not require pending. *)
Theorem only_sweep_guards_the_current_status F now uid id body tbody cbody w b :
  bookings w !! id = Some b →
  (bookings (snd (checkExpiredBookings F now w)) !! id = Some b ∨
   (status b = Approved ∧
    bookings (snd (checkExpiredBookings F now w)) !! id = Some (with_status Completed b))) ∧
  bookings (snd (createBooking F uid cbody w)) !! id = Some b ∧
  (status b ≠ Approved →
   ∀ i, bookings (snd (updateBookingTime no_fault uid i tbody w)) !! id = Some b) ∧
  (∀ t c, admin_actor w uid → parse_target (sb_status body) = Some t →
     (t = Rejected → falsy (sb_rejectionReason body) = false) →
     computers w !! computerId b = Some c →
     ∃ b', bookings (snd (setBookingStatus no_fault uid id body w)) !! id = Some b' ∧
           status b' = t).
Proof.
  intros Hb. split; [|split; [|split]].
  - rewrite checkExpiredBookings_eq. destruct (F (tick w) OpBookingFindExpired); cbn; [auto|].
    set (l := find_expired now (bookings w)).
    destruct (sweep_world_spec F l (bump w) (NoDup_find_expired now (bookings w)))
      as (_ & _ & Hout & Hin & _).
    destruct (decide (id ∈ l.*1)) as [Hk|Hk].
    + apply list_elem_of_fmap in Hk as ([i' b'] & Hi & Hmem). cbn in Hi; subst i'.
      pose proof Hmem as Hq. apply elem_of_find_expired in Hq as [Hb' Hq].
      rewrite Hb in Hb'. injection Hb' as <-.
      apply andb_true_iff in Hq as [Hs _]. apply bool_decide_eq_true in Hs.
      destruct (Hin id b Hmem) as [[Hsame|Hdone] _]; cbn in *.
      * left. congruence.
      * right. auto.
    + left. rewrite (Hout id Hk). exact Hb.
  - destruct (createBooking_any F uid cbody w) as (_ & _ & [->|Hbs]); [exact Hb|].
    destruct Hbs as (? & ? & ? & ? & ? & ? & ->).
    rewrite lookup_insert_ne; [exact Hb|].
    intros Heq. rewrite <- Heq, fresh_booking_id in Hb. discriminate.
  - intros Hst i.
    destruct (updateBookingTime_no_fault uid i tbody w)
      as [[-> _]|(b0 & b' & Hb0 & Hs0 & _ & _ & -> & _)]; [exact Hb|].
    rewrite lookup_insert_ne; [exact Hb|].
    intros ->. rewrite Hb in Hb0. injection Hb0 as <-. contradiction.
  - intros t c Hadm Ht Hr Hc.
    destruct (setBookingStatus_no_fault_applied uid id body w b c t Hadm Ht Hr Hb Hc)
      as (_ & -> & _).
    eexists. rewrite lookup_insert_eq. split; [reflexivity|]. apply status_update_status.
Qed.

Lemma only_sweep_guards_the_current_status_witness :
  ∃ b', bookings (snd (setBookingStatus no_fault "admin-uid" 1 approve one_rejected)) !! 1
          = Some b' ∧ status b' = Approved.
Proof.
  destruct (only_sweep_guards_the_current_status no_fault noon_june12 "admin-uid" 1 approve
              (mkTimeBody None None None None)
              (mkCreateBody None None None None None None meta0)
              one_rejected rejected_june10 eq_refl) as (_ & _ & _ & H).
  apply (H Approved pc1).
  - exists admin0. split; reflexivity.
  - reflexivity.
  - discriminate.
  - reflexivity.
Defined.

(** C4, as stated, fails: a rejected booking is approved by the status
    route. *)
Lemma rejected_booking_can_be_approved :
  bookings one_rejected !! 1 = Some rejected_june10 ∧
  status rejected_june10 = Rejected ∧
  fst (setBookingStatus no_fault "admin-uid" 1 approve one_rejected)
    = Ok (mkResponse 200 (BookingJson 1 (with_status Approved rejected_june10))) ∧
  bookings (snd (setBookingStatus no_fault "admin-uid" 1 approve one_rejected)) !! 1
    = Some (with_status Approved rejected_june10).
Proof. repeat split; vm_compute; reflexivity. Qed.

(** ** Computers in maintenance *)

(** C5 (amended): the sweep never changes a computer in maintenance, whatever
    the faults.  The status route does: for a stored booking on a computer
    that exists, whatever the status of the computer, approve sets it to
    booked, and reject and cancel set it to available when no other approved
    booking refers to it and leave it as it is otherwise. *)
Theorem only_sweep_keeps_maintenance F now uid id body w b c :
  computers w !! computerId b = Some c →
  (c_status c = Maintenance →
   computers (snd (checkExpiredBookings F now w)) !! computerId b = Some c) ∧
  (∀ t, bookings w !! id = Some b → admin_actor w uid →
     parse_target (sb_status body) = Some t →
     (t = Rejected → falsy (sb_rejectionReason body) = false) →
     let cs' := computers (snd (setBookingStatus no_fault uid id body w)) in
     (t = Approved → cs' !! computerId b = Some (with_c_status Booked c)) ∧
     (t ≠ Approved → no_other_approved w (computerId b) id →
      cs' !! computerId b = Some (with_c_status Available c)) ∧
     (t ≠ Approved → ¬ no_other_approved w (computerId b) id →
      cs' !! computerId b = Some c)).
Proof.
  intros Hc. split.
  - intros Hm. rewrite checkExpiredBookings_eq.
    destruct (F (tick w) OpBookingFindExpired); cbn; [exact Hc|].
    destruct (sweep_world_spec F _ (bump w) (NoDup_find_expired now (bookings w)))
      as (_ & Hrel & _).
    destruct (Hrel (computerId b)) as [->|(c0 & Hc0 & Hbk & _)]; [exact Hc|].
    cbn in Hc0. rewrite Hc in Hc0. injection Hc0 as <-. congruence.
  - intros t Hb Hadm Ht Hr. cbn zeta.
    destruct (setBookingStatus_no_fault_applied uid id body w b c t Hadm Ht Hr Hb Hc)
      as (_ & _ & ->).
    unfold synced_computers. rewrite status_update_computerId.
    split; [|split].
    + intros ->. rewrite bool_decide_eq_true_2 by reflexivity.
      rewrite lookup_alter_eq, Hc. reflexivity.
    + intros Hne Hno. rewrite bool_decide_eq_false_2 by assumption.
      rewrite find_other_approved_insert_None by assumption.
      rewrite lookup_alter_eq, Hc. reflexivity.
    + intros Hne Hsome. rewrite bool_decide_eq_false_2 by assumption.
      destruct (find_other_approved _ _ _) as [p|] eqn:Hf; [exact Hc|].
      exfalso. apply Hsome. intros i bi Hbi Hci Hsi.
      destruct (decide (i = id)) as [|Hni]; [assumption|].
      eapply (find_other_approved_None _ _ _ i bi Hf); [|assumption..].
      rewrite lookup_insert_ne by congruence. exact Hbi.
Qed.

Lemma only_sweep_keeps_maintenance_witness :
  computers (snd (checkExpiredBookings save_1_fails noon_june12 in_maintenance)) !! 1
    = Some (with_c_status Maintenance pc1) ∧
  computers (snd (setBookingStatus no_fault "admin-uid" 1 cancel in_maintenance)) !! 1
    = Some (with_c_status Available (with_c_status Maintenance pc1)).
Proof.
  destruct (only_sweep_keeps_maintenance save_1_fails noon_june12 "admin-uid" 1 cancel
              in_maintenance booking_june10 (with_c_status Maintenance pc1) eq_refl)
    as [Hsweep Hroute].
  split; [apply Hsweep; reflexivity|].
  destruct (Hroute Cancelled eq_refl) as (_ & Hrelease & _).
  - exists admin0. split; reflexivity.
  - reflexivity.
  - discriminate.
  - apply Hrelease; [discriminate|].
    intros i bi Hbi _ Hsi.
    destruct (decide (i = 1)) as [|Hne]; [assumption|].
    unfold in_maintenance, world_of in Hbi. cbn in Hbi.
    rewrite lookup_insert_ne in Hbi by congruence. rewrite lookup_empty in Hbi. discriminate.
Defined.

(** C5, as stated, fails: approving a booking on a computer in maintenance
    sets the computer to booked. *)
Lemma approve_overwrites_maintenance :
  computers in_maintenance !! 1 = Some (with_c_status Maintenance pc1) ∧
  computers (snd (setBookingStatus no_fault "admin-uid" 1 approve in_maintenance)) !! 1
    = Some (with_c_status Booked pc1).
Proof. split; vm_compute; reflexivity. Qed.

(** ** The order of the checks of the status route *)

Lemma parse_target_None s :
  parse_target s = None ↔
  s ≠ Some "approved" ∧ s ≠ Some "rejected" ∧ s ≠ Some "cancelled".
Proof.
  unfold parse_target. destruct s as [s|]; [|split; [repeat split; discriminate|auto]].
  destruct (String.eqb_spec s "approved") as [->|H1];
    [split; [discriminate|intros (H & _); congruence]|].
  destruct (String.eqb_spec s "rejected") as [->|H2];
    [split; [discriminate|intros (_ & H & _); congruence]|].
  destruct (String.eqb_spec s "cancelled") as [->|H3];
    [split; [discriminate|intros (_ & _ & H); congruence]|].
  split; [|reflexivity]. intros _. repeat split; congruence.
Qed.

(** C9 (amended): the status route looks at the caller first.  When the
    lookup of the user throws, the answer is 500; for a caller who is not
    stored or is not an admin it is "Admin access required", whatever the
    target status and the reason.  For an admin, the validity of the target
    status and the presence of the rejection reason are decided before the
    booking is looked up, whatever the faults after the lookup of the user: a
    target outside approved, rejected, cancelled is answered "Invalid
    status", and a rejection without a reason "Rejection reason is required",
    whether the booking exists or not.  In all these cases no booking,
    computer or notification changes.  "Booking not found" is answered only
    to an admin whose request passed both checks, for a booking that is not
    stored. *)
Theorem status_checks_precede_lookup F uid id body w :
  let res := setBookingStatus F uid id body w in
  let unchanged := bookings (snd res) = bookings w ∧ computers (snd res) = computers w ∧
                   notifications (snd res) = notifications w in
  (F (tick w) (OpUserFindOne uid) = true →
   fst res = Ok error_updating_status ∧ unchanged) ∧
  (F (tick w) (OpUserFindOne uid) = false → ¬ admin_actor w uid →
   fst res = Ok admin_access_required ∧ unchanged) ∧
  (F (tick w) (OpUserFindOne uid) = false → admin_actor w uid →
   (sb_status body ≠ Some "approved" → sb_status body ≠ Some "rejected" →
    sb_status body ≠ Some "cancelled" →
    fst res = Ok invalid_status ∧ unchanged) ∧
   (sb_status body = Some "rejected" → falsy (sb_rejectionReason body) = true →
    fst res = Ok rejection_reason_required ∧ unchanged)) ∧
  (fst res = Ok booking_not_found →
   F (tick w) (OpUserFindOne uid) = false ∧ admin_actor w uid ∧
   bookings w !! id = None ∧
   ∃ t, parse_target (sb_status body) = Some t ∧
        (t = Rejected → falsy (sb_rejectionReason body) = false)).
Proof.
  cbn zeta.
  unfold setBookingStatus, User_findOne, Booking_findById_populated, Booking_save,
    sync_computer, Booking_findOtherApproved, Computer_findByIdAndUpdate,
    Notification_save.
  munfold. cbn.
  destruct (F (tick w) (OpUserFindOne uid)) eqn:HF; cbn.
  { split; [auto|]. split; [discriminate|]. split; [discriminate|]. discriminate. }
  split; [discriminate|].
  destruct (not_admin (List.find (λ u, String.eqb (firebaseUid u) uid) (users w))) eqn:Hna;
    cbn.
  { assert (Hno : ¬ admin_actor w uid).
    { intros (u & Hu & Hadm). rewrite Hu in Hna. cbn in Hna. rewrite Hadm in Hna.
      discriminate. }
    split; [auto|]. split; [intros _ Hadm; contradiction|]. discriminate. }
  assert (Hadm : admin_actor w uid).
  { unfold admin_actor.
    destruct (List.find (λ u, String.eqb (firebaseUid u) uid) (users w)) as [u|];
      [|discriminate].
    exists u. split; [reflexivity|]. cbn in Hna. destruct (is_admin u); [reflexivity|discriminate]. }
  split; [intros _ Hno; contradiction|].
  split.
  - intros _ _. split.
    + intros H1 H2 H3.
      assert (Hp : parse_target (sb_status body) = None) by (apply parse_target_None; auto).
      rewrite Hp. cbn. auto.
    + intros Hs Hr. rewrite Hs. cbn. rewrite Hr. cbn. auto.
  - destruct (parse_target (sb_status body)) as [t|] eqn:Ht; cbn; [|discriminate].
    destruct (bool_decide (t = Rejected) && falsy (sb_rejectionReason body)) eqn:Hr;
      cbn; [discriminate|].
    destruct (F (S (tick w)) (OpBookingFindById id)); cbn; [discriminate|].
    destruct (bookings w !! id) as [b|] eqn:Hb; cbn.
    + intros Hres. exfalso. revert Hres.
      repeat (match goal with
              | |- context [if F ?t ?op then _ else _] => destruct (F t op)
              | |- context [if bool_decide ?P then _ else _] => destruct (bool_decide P)
              | |- context [if ?a || ?b then _ else _] => destruct (a || b)
              | |- context [match computers w !! ?k with _ => _ end] =>
                  destruct (computers w !! k)
              | |- context [match find_other_approved ?a ?b ?c with _ => _ end] =>
                  destruct (find_other_approved a b c)
              end; cbn); discriminate.
    + intros _. split; [reflexivity|]. split; [exact Hadm|]. split; [reflexivity|].
      exists t. split; [reflexivity|].
      intros ->. rewrite bool_decide_eq_true_2 in Hr by reflexivity. exact Hr.
Qed.

Lemma status_checks_precede_lookup_witness :
  fst (setBookingStatus save_1_fails "admin-uid" 9 (mkStatusBody (Some "completed") None)
         two_pending) = Ok invalid_status ∧
  fst (setBookingStatus save_1_fails "admin-uid" 9 (mkStatusBody (Some "rejected") (Some ""))
         two_pending) = Ok rejection_reason_required ∧
  fst (setBookingStatus save_1_fails "alice" 9 (mkStatusBody (Some "rejected") (Some ""))
         two_pending) = Ok admin_access_required ∧
  bookings two_pending !! 9 = None.
Proof.
  assert (Hadm : admin_actor two_pending "admin-uid") by (exists admin0; split; reflexivity).
  assert (Hno : ¬ admin_actor two_pending "alice").
  { intros (u & Hu & Ha). vm_compute in Hu. injection Hu as <-. discriminate. }
  split; [|split; [|split]].
  - destruct (status_checks_precede_lookup save_1_fails "admin-uid" 9
                (mkStatusBody (Some "completed") None) two_pending)
      as (_ & _ & H & _).
    apply (H eq_refl Hadm); discriminate.
  - destruct (status_checks_precede_lookup save_1_fails "admin-uid" 9
                (mkStatusBody (Some "rejected") (Some "")) two_pending)
      as (_ & _ & H & _).
    apply (H eq_refl Hadm); reflexivity.
  - destruct (status_checks_precede_lookup save_1_fails "alice" 9
                (mkStatusBody (Some "rejected") (Some "")) two_pending)
      as (_ & H & _).
    apply (H eq_refl Hno).
  - destruct (status_checks_precede_lookup save_1_fails "admin-uid" 9 approve two_pending)
      as (_ & _ & _ & H).
    apply H. vm_compute. reflexivity.
Defined.

(** C9, as stated, fails for a caller who is not an admin: a target status
    outside approved, rejected, cancelled, and a rejection without a reason,
    are both answered "Admin access required". *)
Lemma invalid_status_of_other_users_is_forbidden :
  parse_target (Some "completed") = None ∧
  fst (setBookingStatus no_fault "alice" 9 (mkStatusBody (Some "completed") None) two_pending)
  = Ok admin_access_required ∧
  fst (setBookingStatus no_fault "alice" 9 (mkStatusBody (Some "rejected") None) two_pending)
  = Ok admin_access_required ∧
  admin_access_required ≠ invalid_status ∧
  admin_access_required ≠ rejection_reason_required.
Proof.
  split; [reflexivity|]. split; [vm_compute; reflexivity|].
  split; [vm_compute; reflexivity|]. split; discriminate.
Qed.

(** ** The creation route looks only at the existence of the computer *)

(** C10: without faults, a creation request with all its fields for a
    computer that exists succeeds whatever the status of the computer
    (available, booked or maintenance): it is answered 201 with a pending
    booking, which is stored under a new identifier, and the computer is not
    changed.  The request is answered "Computer not found" exactly when no
    computer has the identifier, and then nothing is stored.  Only the form
    filters on availability: [fetchComputers] offers available computers. *)
Theorem createBooking_checks_existence_only uid body w cid sd ed st et r :
  cb_computerId body = Some cid →
  present (cb_startDate body) = Some sd → present (cb_endDate body) = Some ed →
  present (cb_startTime body) = Some st → present (cb_endTime body) = Some et →
  present (cb_reason body) = Some r →
  let res := createBooking no_fault uid body w in
  let id := fresh (dom (bookings w)) in
  let b := new_booking uid cid sd ed st et r (cb_meta body) in
  (∀ c, computers w !! cid = Some c →
     fst res = Ok (mkResponse 201 (BookingJson id b)) ∧ status b = Pending ∧
     bookings w !! id = None ∧ bookings (snd res) = <[id := b]> (bookings w) ∧
     computers (snd res) !! cid = Some c) ∧
  (fst res = Ok computer_not_found ↔ computers w !! cid = None) ∧
  (computers w !! cid = None → bookings (snd res) = bookings w) ∧
  (∀ e, e ∈ fetchComputers (map_to_list (computers w)) →
     computers w !! fst e = Some (snd e) ∧ c_status (snd e) = Available).
Proof.
  intros Hc Hsd Hed Hst Het Hr. cbn zeta.
  split; [|split; [|split]]; cycle 3.
  { intros [i c] He. apply list_elem_of_In, List.filter_In in He as [He Hs].
    apply list_elem_of_In, elem_of_map_to_list in He.
    apply bool_decide_eq_true in Hs. auto. }
  - intros c Hcomp.
    destruct (createBooking_no_fault_created uid body w cid sd ed st et r c
                Hc Hsd Hed Hst Het Hr Hcomp) as [Hres Hbs].
    split; [exact Hres|]. split; [reflexivity|]. split; [apply fresh_booking_id|].
    split; [exact Hbs|].
    destruct (createBooking_any no_fault uid body w) as (-> & _). exact Hcomp.
  - split.
    + intros Hres. destruct (computers w !! cid) as [c|] eqn:Hcomp; [|reflexivity].
      destruct (createBooking_no_fault_created uid body w cid sd ed st et r c
                  Hc Hsd Hed Hst Het Hr Hcomp) as [Hres' _].
      rewrite Hres' in Hres. discriminate.
    + intros Hcomp.
      apply (createBooking_no_fault_not_found uid body w cid sd ed st et r
               Hc Hsd Hed Hst Het Hr Hcomp).
  - intros Hcomp.
    apply (createBooking_no_fault_not_found uid body w cid sd ed st et r
             Hc Hsd Hed Hst Het Hr Hcomp).
Qed.

Lemma createBooking_checks_existence_only_witness :
  c_status (with_c_status Maintenance pc1) = Maintenance ∧
  ∃ id b, fst (createBooking no_fault "alice" create_june10 in_maintenance)
            = Ok (mkResponse 201 (BookingJson id b)) ∧ status b = Pending.
Proof.
  split; [reflexivity|].
  destruct (createBooking_checks_existence_only "alice" create_june10 in_maintenance
              1 "2024-06-10" "2024-06-10" "09:00" "10:00" "test"
              eq_refl eq_refl eq_refl eq_refl eq_refl eq_refl) as (H & _).
  destruct (H (with_c_status Maintenance pc1) eq_refl) as (Hres & Hst & _).
  eexists _, _. split; [exact Hres|exact Hst].
Defined.

(** ** The validator of the booking form *)

Section Validator.

Import DateFns ValidatorSpec.
Open Scope Z_scope.

Lemma date_only_multiple d : startOfDay d = d → d = ms_per_day * (d / ms_per_day).
Proof.
  unfold startOfDay, ms_per_day. intros H.
  pose proof (Z.div_mod d 86400000 ltac:(lia)). lia.
Qed.

(** Hours and minutes of a time give its minute of the day. *)
Lemma hours_minutes t : getHours t * 60 + getMinutes t = minute_of_day t.
Proof.
  unfold getHours, getMinutes, minute_of_day, ms_per_day, ms_per_hour, ms_per_minute.
  Z.to_euclidean_division_equations. lia.
Qed.

Lemma getDateTime_instant a t :
  getDateTime (ms_per_day * a) t = ms_per_minute * instant a (minute_of_day t).
Proof.
  unfold getDateTime, setHours, startOfDay, instant. rewrite <- hours_minutes.
  replace ((ms_per_day * a) mod ms_per_day) with 0.
  - unfold ms_per_day, ms_per_hour, ms_per_minute. lia.
  - rewrite Z.mul_comm. symmetry. apply Z.mod_mul. discriminate.
Qed.

Lemma differenceInDays_days a b :
  differenceInDays (ms_per_day * b) (ms_per_day * a) = b - a.
Proof.
  unfold differenceInDays.
  replace (ms_per_day * b - ms_per_day * a) with ((b - a) * ms_per_day) by lia.
  apply Z.quot_mul. discriminate.
Qed.

Lemma differenceInHours_lt_1 x y :
  x <= y →
  (differenceInHours (ms_per_minute * y) (ms_per_minute * x) <? 1) = (y - x <? 60).
Proof.
  intros Hle. unfold differenceInHours, ms_per_hour, ms_per_minute.
  rewrite Z.quot_div_nonneg by lia.
  destruct (Z.ltb_spec (y - x) 60); destruct (Z.ltb_spec ((60000 * y - 60000 * x) / 3600000) 1);
    try reflexivity; exfalso; Z.to_euclidean_division_equations; lia.
Qed.

(** On calendar dates the tests of [handleSubmit] are the rules of the
    specification, in their order. *)
Lemma validate_interval_rules sd ed st et :
  startOfDay sd = sd → startOfDay ed = ed →
  validate_interval sd ed st et
  = option_map message_of (first_failing (rules (interval_of sd ed st et))).
Proof.
  intros Hs He.
  apply date_only_multiple in Hs, He.
  unfold validate_interval, first_failing, rules, interval_of, day_of, isBefore. cbn.
  unfold getDay, weekday.
  set (a := sd / ms_per_day) in *. set (b := ed / ms_per_day) in *.
  destruct ((a + 4) mod 7 =? 0); [reflexivity|]. cbn.
  destruct ((b + 4) mod 7 =? 0); [reflexivity|]. cbn.
  rewrite Hs, He. clearbody a b. clear Hs He sd ed.
  replace (ms_per_day * b <? ms_per_day * a) with (b <? a)
    by (unfold ms_per_day; destruct (Z.ltb_spec b a);
        destruct (Z.ltb_spec (86400000 * b) (86400000 * a)); (reflexivity || lia)).
  destruct (b <? a); [reflexivity|]. cbn.
  rewrite differenceInDays_days.
  destruct (7 <? b - a + 1); [reflexivity|]. cbn.
  rewrite !getDateTime_instant.
  set (x := instant a (minute_of_day st)). set (y := instant b (minute_of_day et)).
  replace (ms_per_minute * y <? ms_per_minute * x) with (y <? x)
    by (unfold ms_per_minute; destruct (Z.ltb_spec y x);
        destruct (Z.ltb_spec (60000 * y) (60000 * x)); (reflexivity || lia)).
  destruct (Z.ltb_spec y x) as [Hlt|Hle]; [reflexivity|]. cbn.
  rewrite differenceInHours_lt_1 by exact Hle.
  replace (b - a =? 0) with (b =? a)
    by (destruct (Z.eqb_spec b a); destruct (Z.eqb_spec (b - a) 0); (reflexivity || lia)).
  destruct ((b =? a) && (y - x <? 60)); reflexivity.
Qed.

End Validator.

Lemma submit_eq F uid data w :
  submit F uid data w =
  (match fst (createBooking F uid data w) with
   | Ok response =>
       if (200 <=? code response)%Z && (code response <? 300)%Z
       then Ok (SetSuccess "Booking request submitted successfully!")
       else Ok (SetError (match payload response with
                          | Message m => if String.eqb m "" then "Failed to create booking" else m
                          | BookingJson _ _ => "Failed to create booking"
                          end))
   | Throw _ => Ok (SetError "Failed to create booking")
   end, snd (createBooking F uid data w)).
Proof.
  unfold submit. munfold.
  destruct (createBooking F uid data w) as [[response|e] w']; cbn [fst snd]; [|reflexivity].
  destruct ((200 <=? code response)%Z && (code response <? 300)%Z); reflexivity.
Qed.

Lemma addLeadingZeros4_nonempty n : ∃ c s, DateFns.addLeadingZeros4 n = String c s.
Proof.
  unfold DateFns.addLeadingZeros4. destruct (n <? 10000)%Z; [unfold DateFns.pad4; eauto|].
  destruct (N.to_uint (Z.to_N n)); cbn; eauto.
Qed.

Lemma present_format_date d : present (Some (DateFns.format_date d)) = Some (DateFns.format_date d).
Proof.
  unfold DateFns.format_date. destruct (DateFns.civil_of_days _) as [[y m] dd].
  destruct (addLeadingZeros4_nonempty (if (0 <? y)%Z then y else (1 - y)%Z)) as (c & s & ->).
  reflexivity.
Qed.

Lemma present_format_time t : present (Some (DateFns.format_time t)) = Some (DateFns.format_time t).
Proof. reflexivity. Qed.

Lemma present_not_blank s : blank s = false → present (Some (trim s)) = Some (trim s).
Proof. unfold blank, present. intros ->. reflexivity. Qed.

(** *** White space *)

Lemma ascii_of_nat_of c n : nat_of_ascii c = n → c = ascii_of_nat n.
Proof. intros <-. symmetry. apply ascii_nat_embedding. Qed.

Lemma all_white_1 c s :
  is_space c = true → all_white s → all_white (String c s).
Proof.
  intros Hc Hs. unfold is_space in Hc. cbv zeta in Hc.
  assert (Hn : (nat_of_ascii c = 9 ∨ nat_of_ascii c = 10 ∨ nat_of_ascii c = 11 ∨
               nat_of_ascii c = 12 ∨ nat_of_ascii c = 13 ∨ nat_of_ascii c = 32)%nat).
  { destruct (Nat.eqb_spec (nat_of_ascii c) 32); [lia|].
    destruct (Nat.leb_spec 9 (nat_of_ascii c)); [|discriminate].
    destruct (Nat.leb_spec (nat_of_ascii c) 13); [lia|discriminate]. }
  repeat destruct Hn as [Hn|Hn]; apply ascii_of_nat_of in Hn; subst c;
    match goal with
    | |- all_white (String ?a s) => apply (all_white_cons (String a EmptyString) s)
    end; (reflexivity || assumption).
Qed.

Lemma all_white_2 c1 c2 s :
  is_space2 c1 c2 = true → all_white s → all_white (String c1 (String c2 s)).
Proof.
  intros Hc Hs. unfold is_space2 in Hc.
  apply andb_true_iff in Hc as [H1 H2].
  apply Nat.eqb_eq, ascii_of_nat_of in H1. apply Nat.eqb_eq, ascii_of_nat_of in H2.
  subst c1 c2.
  apply (all_white_cons (utf8 [194; 160]%nat) s); (reflexivity || assumption).
Qed.

Lemma all_white_3 c1 c2 c3 s :
  is_space3 c1 c2 c3 = true → all_white s →
  all_white (String c1 (String c2 (String c3 s))).
Proof.
  intros Hc Hs. unfold is_space3 in Hc. cbv zeta in Hc.
  assert (Hn : ∃ n3, (nat_of_ascii c1, nat_of_ascii c2, nat_of_ascii c3) = (225, 154, 128)%nat ∨
               ((nat_of_ascii c1, nat_of_ascii c2) = (226, 128)%nat ∧ nat_of_ascii c3 = n3 ∧
                (128 <= n3 <= 138 ∨ n3 = 168 ∨ n3 = 169 ∨ n3 = 175)%nat) ∨
               (nat_of_ascii c1, nat_of_ascii c2, nat_of_ascii c3) = (226, 129, 159)%nat ∨
               (nat_of_ascii c1, nat_of_ascii c2, nat_of_ascii c3) = (227, 128, 128)%nat ∨
               (nat_of_ascii c1, nat_of_ascii c2, nat_of_ascii c3) = (239, 187, 191)%nat).
  { exists (nat_of_ascii c3).
    repeat (apply orb_true_iff in Hc as [Hc|Hc]);
      repeat (apply andb_true_iff in Hc as [Hc ?]);
      repeat match goal with
             | H : (_ =? _)%nat = true |- _ => apply Nat.eqb_eq in H
             | H : (_ <=? _)%nat = true |- _ => apply Nat.leb_le in H
             | H : (_ || _) = true |- _ => apply orb_true_iff in H
             | H : (_ && _) = true |- _ => apply andb_true_iff in H
             end.
    - left. congruence.
    - right; left. split; [congruence|]. split; [reflexivity|].
      rewrite ?orb_true_iff, ?andb_true_iff, ?Nat.eqb_eq, ?Nat.leb_le in *. lia.
    - right; right; left. congruence.
    - right; right; right; left. congruence.
    - right; right; right; right. congruence. }
  destruct Hn as (n3 & [Hn|[(Hn & H3 & Hr)|[Hn|[Hn|Hn]]]]).
  - injection Hn as H1 H2 H3. apply ascii_of_nat_of in H1, H2, H3. subst.
    apply (all_white_cons (utf8 [225; 154; 128]%nat) s); (reflexivity || assumption).
  - injection Hn as H1 H2. apply ascii_of_nat_of in H1, H2, H3. subst c1 c2 c3.
    assert (Hk : (n3 = 128 ∨ n3 = 129 ∨ n3 = 130 ∨ n3 = 131 ∨ n3 = 132 ∨ n3 = 133 ∨
                  n3 = 134 ∨ n3 = 135 ∨ n3 = 136 ∨ n3 = 137 ∨ n3 = 138 ∨
                  n3 = 168 ∨ n3 = 169 ∨ n3 = 175)%nat) by lia.
    repeat destruct Hk as [Hk|Hk]; subst n3;
      match goal with
      | |- all_white (String _ (String _ (String (ascii_of_nat ?k) s))) =>
          apply (all_white_cons (utf8 [226; 128; k]%nat) s)
      end; (reflexivity || assumption).
  - injection Hn as H1 H2 H3. apply ascii_of_nat_of in H1, H2, H3. subst.
    apply (all_white_cons (utf8 [226; 129; 159]%nat) s); (reflexivity || assumption).
  - injection Hn as H1 H2 H3. apply ascii_of_nat_of in H1, H2, H3. subst.
    apply (all_white_cons (utf8 [227; 128; 128]%nat) s); (reflexivity || assumption).
  - injection Hn as H1 H2 H3. apply ascii_of_nat_of in H1, H2, H3. subst.
    apply (all_white_cons (utf8 [239; 187; 191]%nat) s); (reflexivity || assumption).
Qed.

(** Induction on a string, three bytes at a time. *)
Lemma string_ind3 (P : string → Prop) :
  (∀ n s, (∀ t, (String.length t < String.length s)%nat → (String.length t <= n)%nat → P t) →
          (String.length s <= S n)%nat → P s) →
  P EmptyString → ∀ s, P s.
Proof.
  intros Hstep Hnil s.
  assert (H : ∀ n t, (String.length t <= n)%nat → P t).
  { induction n as [|n IH]; intros t Ht.
    - destruct t; [exact Hnil|cbn in Ht; lia].
    - apply (Hstep n). + intros u Hu _. apply IH. lia. + exact Ht. }
  apply (H (String.length s)). lia.
Qed.

Lemma white_only_all_white s : white_only s = true → all_white s.
Proof.
  induction s as [n s IH Hlen|] using string_ind3; [|constructor].
  destruct s as [|c1 s1]; [constructor|]. cbn [white_only].
  destruct (is_space c1) eqn:E1.
  { intros H. apply all_white_1; [exact E1|]. apply IH; [cbn; lia|cbn in Hlen; lia| exact H]. }
  destruct s1 as [|c2 s2]; [discriminate|].
  destruct (is_space2 c1 c2) eqn:E2.
  { intros H. apply all_white_2; [exact E2|]. apply IH; [cbn; lia|cbn in Hlen; lia|exact H]. }
  destruct s2 as [|c3 s3]; [discriminate|].
  intros H. apply andb_true_iff in H as [E3 H].
  apply all_white_3; [exact E3|]. apply IH; [cbn; lia|cbn in Hlen; lia|exact H].
Qed.

Lemma all_white_white_only s : all_white s → white_only s = true.
Proof.
  induction 1 as [|c s Hc _ IH]; [reflexivity|].
  unfold white_space in Hc. cbn [map existsb] in Hc.
  repeat (apply orb_true_iff in Hc as [Hc|Hc]; [apply String.eqb_eq in Hc; subst c; exact IH|]).
  discriminate.
Qed.

Lemma white_only_trim_start s : white_only (trim_start s) = white_only s.
Proof.
  induction s as [n s IH Hlen|] using string_ind3; [|reflexivity].
  destruct s as [|c1 s1]; [reflexivity|]. cbn [white_only trim_start].
  destruct (is_space c1) eqn:E1; [apply IH; cbn; cbn in Hlen; lia|].
  destruct s1 as [|c2 s2]; [cbn; rewrite E1; reflexivity|].
  destruct (is_space2 c1 c2) eqn:E2; [apply IH; cbn; cbn in Hlen; lia|].
  destruct s2 as [|c3 s3]; [cbn; rewrite E1, E2; reflexivity|].
  destruct (is_space3 c1 c2 c3) eqn:E3.
  - rewrite IH by (cbn; cbn in Hlen; lia). reflexivity.
  - cbn. rewrite E1, E2, E3. reflexivity.
Qed.

Lemma trim_end_empty s : String.eqb (trim_end s) "" = white_only s.
Proof.
  destruct s as [|c s]; [reflexivity|].
  cbn [trim_end]. destruct (white_only (String c s)); reflexivity.
Qed.

(** A text is blank for the form exactly when it is white space only. *)
Lemma blank_spec s : blank s = true ↔ all_white s.
Proof.
  unfold blank, trim. rewrite trim_end_empty, white_only_trim_start.
  split; [apply white_only_all_white|apply all_white_white_only].
Qed.

Example blank_no_break_space :
  blank (utf8 [194; 160]%nat) = true ∧
  blank (utf8 [32; 239; 187; 191; 9; 226; 128; 168]%nat) = true ∧
  trim (utf8 [194; 160; 97; 32; 98; 226; 128; 137]%nat) = "a b".
Proof. repeat split; vm_compute; reflexivity. Qed.

Lemma fields_filled_spec f :
  fields_filled f ↔ selectedComputer f ≠ None ∧ form_text_missing f = false.
Proof.
  unfold fields_filled, form_text_missing.
  rewrite !orb_false_iff, <- !not_true_iff_false, !blank_spec.
  rewrite String.eqb_eq, Z.eqb_eq. tauto.
Qed.

Lemma fields_filled_dec f : fields_filled f ∨ ¬ fields_filled f.
Proof.
  rewrite fields_filled_spec.
  destruct (selectedComputer f); destruct (form_text_missing f);
    first [left; split; congruence | right; intros [? ?]; congruence].
Qed.

(** *** The requests the route accepts, the forms the client sends *)

(** The request of the form has all the fields of [POST /]. *)
Lemma bookingData_present f cid sd ed st et :
  blank (f_reason f) = false →
  ∃ sds eds sts ets rs,
    cb_computerId (bookingData f cid sd ed st et) = Some cid ∧
    present (cb_startDate (bookingData f cid sd ed st et)) = Some sds ∧
    present (cb_endDate (bookingData f cid sd ed st et)) = Some eds ∧
    present (cb_startTime (bookingData f cid sd ed st et)) = Some sts ∧
    present (cb_endTime (bookingData f cid sd ed st et)) = Some ets ∧
    present (cb_reason (bookingData f cid sd ed st et)) = Some rs.
Proof.
  intros Hr. unfold bookingData.
  cbn [cb_computerId cb_startDate cb_endDate cb_startTime cb_endTime cb_reason].
  exists (DateFns.format_date sd), (DateFns.format_date ed),
         (DateFns.format_time st), (DateFns.format_time et), (trim (f_reason f)).
  split; [reflexivity|].
  split; [apply present_format_date|]. split; [apply present_format_date|].
  split; [apply present_format_time|]. split; [apply present_format_time|].
  apply present_not_blank. exact Hr.
Qed.

Lemma handleSubmit_fields_missing F uid f w :
  ¬ fields_filled f →
  handleSubmit F uid f w
  = (Ok (SetError (ValidatorSpec.message_of ValidatorSpec.MissingFields)), w).
Proof.
  intros Hnot. rewrite fields_filled_spec in Hnot. unfold handleSubmit.
  destruct (selectedComputer f) as [cid|]; [|reflexivity].
  destruct (form_text_missing f).
  - destruct (f_startDate f), (f_endDate f), (f_startTime f), (f_endTime f); reflexivity.
  - exfalso. apply Hnot. split; [discriminate|reflexivity].
Qed.

Lemma handleSubmit_rejects F uid f w r :
  date_only f → fields_filled f → validated f = inl r →
  handleSubmit F uid f w = (Ok (SetError (ValidatorSpec.message_of r)), w).
Proof.
  intros [Hsd Hed] Hfill Hval. apply fields_filled_spec in Hfill as [Hsel Hmiss].
  unfold handleSubmit, validated, ValidatorSpec.validate in *.
  destruct (selectedComputer f) as [cid|]; [|contradiction].
  destruct (f_startDate f) as [sd|]; cbn [fmap option_fmap option_map] in Hval;
    [|injection Hval as <-; reflexivity].
  destruct (f_endDate f) as [ed|]; cbn [fmap option_fmap option_map] in Hval;
    [|injection Hval as <-; reflexivity].
  destruct (f_startTime f) as [st|]; cbn [fmap option_fmap option_map] in Hval;
    [|injection Hval as <-; reflexivity].
  destruct (f_endTime f) as [et|]; cbn [fmap option_fmap option_map] in Hval;
    [|injection Hval as <-; reflexivity].
  rewrite Hmiss.
  rewrite (validate_interval_rules sd ed st et (Hsd sd eq_refl) (Hed ed eq_refl)).
  unfold ValidatorSpec.interval_of.
  destruct (ValidatorSpec.first_failing _) as [r'|]; [|discriminate].
  injection Hval as <-. reflexivity.
Qed.

Lemma handleSubmit_present F uid f w cid sd ed st et :
  selectedComputer f = Some cid →
  f_startDate f = Some sd → f_endDate f = Some ed →
  f_startTime f = Some st → f_endTime f = Some et →
  form_text_missing f = false →
  handleSubmit F uid f w
  = match validate_interval sd ed st et with
    | Some message => (Ok (SetError message), w)
    | None => submit F uid (bookingData f cid sd ed st et) w
    end.
Proof.
  intros H1 H2 H3 H4 H5 H6. unfold handleSubmit. rewrite H1, H2, H3, H4, H5, H6.
  destruct (validate_interval sd ed st et); reflexivity.
Qed.

Lemma submit_no_fault uid f w cid sd ed st et :
  blank (f_reason f) = false →
  let res := submit no_fault uid (bookingData f cid sd ed st et) w in
  computers (snd res) = computers w ∧
  match computers w !! cid with
  | Some _ =>
      fst res = Ok (SetSuccess "Booking request submitted successfully!") ∧
      ∃ b, bookings (snd res) = <[fresh (dom (bookings w)) := b]> (bookings w) ∧
           status b = Pending ∧ userId b = uid ∧ computerId b = cid
  | None =>
      fst res = Ok (SetError "Computer not found") ∧ bookings (snd res) = bookings w
  end.
Proof.
  intros Hr. cbn zeta.
  destruct (bookingData_present f cid sd ed st et Hr)
    as (sds & eds & sts & ets & rs & Hcid & Psd & Ped & Pst & Pet & Pr).
  generalize dependent (bookingData f cid sd ed st et). intros data Hcid Psd Ped Pst Pet Pr.
  rewrite submit_eq. cbn [fst snd].
  split; [apply (createBooking_any no_fault uid data w)|].
  destruct (computers w !! cid) as [c|] eqn:Hc.
  - destruct (createBooking_no_fault_created uid data w cid sds eds sts ets rs c
                Hcid Psd Ped Pst Pet Pr Hc) as [Hres Hbs].
    rewrite Hres. split; [reflexivity|].
    eexists. split; [exact Hbs|]. split; [reflexivity|]. split; reflexivity.
  - destruct (createBooking_no_fault_not_found uid data w cid sds eds sts ets rs
                Hcid Psd Ped Pst Pet Pr Hc) as [Hres Hbs].
    rewrite Hres. split; [reflexivity|exact Hbs].
Qed.

Lemma handleSubmit_pipeline uid f w :
  date_only f → fields_filled f →
  let res := handleSubmit no_fault uid f w in
  match created f w with
  | inl r =>
      fst res = Ok (SetError (ValidatorSpec.message_of r)) ∧
      bookings (snd res) = bookings w ∧ computers (snd res) = computers w
  | inr _ =>
      fst res = Ok (SetSuccess "Booking request submitted successfully!") ∧
      computers (snd res) = computers w ∧
      bookings w !! fresh (dom (bookings w)) = None ∧
      ∃ b, bookings (snd res) = <[fresh (dom (bookings w)) := b]> (bookings w) ∧
           status b = Pending ∧ userId b = uid ∧
           selectedComputer f = Some (computerId b)
  end.
Proof.
  intros Hd Hfill. cbn zeta.
  destruct (validated f) as [r|i] eqn:Hv.
  - assert (Hc : created f w = inl r).
    { unfold created, ValidatorSpec.createBooking. unfold validated in Hv. rewrite Hv.
      reflexivity. }
    rewrite Hc, (handleSubmit_rejects no_fault uid f w r Hd Hfill Hv). auto.
  - pose proof Hfill as Hfill'. apply fields_filled_spec in Hfill' as [Hsel Hmiss].
    destruct Hd as [Hsd Hed].
    unfold created, ValidatorSpec.createBooking, selected_exists.
    unfold validated in Hv. rewrite Hv. unfold ValidatorSpec.validate in Hv.
    destruct (selectedComputer f) as [cid|] eqn:E1; [|contradiction].
    destruct (f_startDate f) as [sd|] eqn:E2; [|discriminate].
    destruct (f_endDate f) as [ed|] eqn:E3; [|discriminate].
    destruct (f_startTime f) as [st|] eqn:E4; [|discriminate].
    destruct (f_endTime f) as [et|] eqn:E5; [|discriminate].
    cbn [fmap option_fmap option_map] in Hv.
    rewrite (handleSubmit_present no_fault uid f w cid sd ed st et E1 E2 E3 E4 E5 Hmiss).
    rewrite (validate_interval_rules sd ed st et (Hsd sd eq_refl) (Hed ed eq_refl)).
    unfold ValidatorSpec.interval_of.
    destruct (ValidatorSpec.first_failing _) as [r'|]; [discriminate|].
    cbn [option_map].
    assert (Hr : blank (f_reason f) = false).
    { unfold form_text_missing in Hmiss. destruct (blank (f_reason f)); [discriminate|reflexivity]. }
    destruct (submit_no_fault uid f w cid sd ed st et Hr) as [Hcs Hsub].
    destruct (computers w !! cid) as [c|] eqn:Hc.
    + rewrite bool_decide_eq_true_2 by eauto.
      destruct Hsub as (Hres & b & Hbs & Hst & Hu & Hcid).
      split; [exact Hres|]. split; [exact Hcs|]. split; [apply fresh_booking_id|].
      exists b. rewrite Hcid. auto.
    + rewrite bool_decide_eq_false_2 by (intros [? ?]; discriminate).
      destruct Hsub as (Hres & Hbs). split; [exact Hres|]. split; [exact Hbs|exact Hcs].
Qed.

(** C2 (amended): the rules of the validator are applied by the form, not by
    the route.
    - [POST /] (no faults) answers 201 and stores a pending booking for every
      request whose six fields are present and whose computer exists,
      whatever its dates and times are.
    - [handleSubmit] shows "Please fill in all required fields" and sends
      nothing when a field other than the dates and times is not filled,
      whatever the dates.
    - Otherwise, for dates that are calendar dates, it shows the message of
      the first rule of the validator that fails, in the order of the
      specification, and sends nothing, whatever the faults.
    - With [POST /] behind it (no faults), the form then answers as
      [createBooking] of the specification: the message of the rejection and
      nothing stored, or success and one pending booking of the user on the
      selected computer, under a new identifier. *)
Theorem handleSubmit_applies_rules_in_order uid f w :
  (∀ body cid sd ed st et r c,
     cb_computerId body = Some cid →
     present (cb_startDate body) = Some sd → present (cb_endDate body) = Some ed →
     present (cb_startTime body) = Some st → present (cb_endTime body) = Some et →
     present (cb_reason body) = Some r →
     computers w !! cid = Some c →
     fst (createBooking no_fault uid body w)
     = Ok (mkResponse 201 (BookingJson (fresh (dom (bookings w)))
             (new_booking uid cid sd ed st et r (cb_meta body)))) ∧
     bookings (snd (createBooking no_fault uid body w))
     = <[fresh (dom (bookings w)) := new_booking uid cid sd ed st et r (cb_meta body)]>
         (bookings w)) ∧
  (∀ F, ¬ fields_filled f →
     handleSubmit F uid f w
     = (Ok (SetError (ValidatorSpec.message_of ValidatorSpec.MissingFields)), w)) ∧
  (∀ F r, date_only f → fields_filled f → validated f = inl r →
     handleSubmit F uid f w = (Ok (SetError (ValidatorSpec.message_of r)), w)) ∧
  (date_only f → fields_filled f →
   let res := handleSubmit no_fault uid f w in
   match created f w with
   | inl r =>
       fst res = Ok (SetError (ValidatorSpec.message_of r)) ∧
       bookings (snd res) = bookings w ∧ computers (snd res) = computers w
   | inr _ =>
       fst res = Ok (SetSuccess "Booking request submitted successfully!") ∧
       computers (snd res) = computers w ∧
       bookings w !! fresh (dom (bookings w)) = None ∧
       ∃ b, bookings (snd res) = <[fresh (dom (bookings w)) := b]> (bookings w) ∧
            status b = Pending ∧ userId b = uid ∧
            selectedComputer f = Some (computerId b)
   end).
Proof.
  split; [|split; [|split]].
  - intros body cid sd ed st et r c Hc Hsd Hed Hst Het Hr Hcomp.
    apply (createBooking_no_fault_created uid body w cid sd ed st et r c); assumption.
  - intros F. apply handleSubmit_fields_missing.
  - intros F r. apply handleSubmit_rejects.
  - apply handleSubmit_pipeline.
Qed.

Lemma handleSubmit_applies_rules_in_order_witness :
  handleSubmit save_1_fails "alice" form_sunday two_pending
    = (Ok (SetError "Lab is closed on Sundays. Please select a different start date."),
       two_pending) ∧
  fst (handleSubmit no_fault "alice" form_june10 two_pending)
    = Ok (SetSuccess "Booking request submitted successfully!").
Proof.
  assert (Hfill : ∀ f, selectedComputer f = Some 1 → f_reason f = "test" →
            f_problemStatement f = "segmentation" → f_datasetType f = "Image" →
            f_datasetLink f = "http://data" → f_bottleneckExplanation f = "cpu bound" →
            f_datasetSize f = 5%Z → fields_filled f).
  { intros f H1 H2 H3 H4 H5 H6 H7. apply fields_filled_spec.
    unfold form_text_missing. rewrite H1, H2, H3, H4, H5, H6, H7.
    split; [discriminate|reflexivity]. }
  split.
  - destruct (handleSubmit_applies_rules_in_order "alice" form_sunday two_pending)
      as (_ & _ & Hrule & _).
    apply (Hrule save_1_fails ValidatorSpec.ClosureDayStart).
    + split; intros d [= <-]; vm_compute; reflexivity.
    + apply Hfill; reflexivity.
    + vm_compute. reflexivity.
  - destruct (handleSubmit_applies_rules_in_order "alice" form_june10 two_pending)
      as (_ & _ & _ & Hpipe).
    assert (Hd : date_only form_june10)
      by (split; intros d [= <-]; vm_compute; reflexivity).
    specialize (Hpipe Hd (Hfill form_june10 eq_refl eq_refl eq_refl eq_refl eq_refl
                            eq_refl eq_refl)).
    cbn zeta in Hpipe.
    destruct (created form_june10 two_pending) as [r|i] eqn:Hspec;
      [vm_compute in Hspec; discriminate|].
    apply Hpipe.
Defined.

(** C2, as stated, fails for the requests themselves: [POST /] stores a
    booking that starts on Sunday 9 June 2024, which the validator of the
    specification rejects with [ClosureDayStart]. *)
Lemma createBooking_accepts_sunday_start :
  let sunday := DateFns.make_date 2024 6 9 0 0 in
  DateFns.getDay sunday = 0%Z ∧
  DateFns.format_date sunday = "2024-06-09" ∧
  ValidatorSpec.createBooking true
    (Some (ValidatorSpec.day_of sunday)) (Some (ValidatorSpec.day_of sunday))
    (Some 540%Z) (Some 600%Z)
  = inl ValidatorSpec.ClosureDayStart ∧
  createBooking no_fault "alice" create_sunday empty_lab
  = (Ok (mkResponse 201
           (BookingJson 0 (mkBooking "alice" 1 "2024-06-09" "2024-06-09" "09:00" "10:00"
                             "test" Pending None meta0))),
     snd (createBooking no_fault "alice" create_sunday empty_lab)) ∧
  bookings (snd (createBooking no_fault "alice" create_sunday empty_lab)) !! 0
  = Some (mkBooking "alice" 1 "2024-06-09" "2024-06-09" "09:00" "10:00"
            "test" Pending None meta0).
Proof.
  cbn zeta. repeat split; vm_compute; reflexivity.
Qed.

(** ** The scenario of the specification *)

Example scenario_created :
  let w := run_ops no_fault (take 1 scenario) empty_lab in
  bookings w !! 0 = Some booking_june10 ∧
  notifications w = [mkNotification (ToUid "admin-uid") "New Booking Request" Info 0 1].
Proof. split; vm_compute; reflexivity. Qed.

Example scenario_approved :
  let w := run_ops no_fault (take 2 scenario) empty_lab in
  bookings w !! 0 = Some (with_status Approved booking_june10) ∧
  computers w !! 1 = Some (with_c_status Booked pc1) ∧
  head (notifications w) = Some (mkNotification (ToUid "alice") "Booking Approved" Success 0 1).
Proof. repeat split; vm_compute; reflexivity. Qed.

Example scenario_swept :
  let w := run_ops no_fault scenario empty_lab in
  bookings w !! 0 = Some (with_status Completed booking_june10) ∧
  computers w !! 1 = Some pc1 ∧
  take 2 (notifications w)
  = [mkNotification (ToOid 100) "Computer Available" Success 0 1;
     mkNotification (ToUid "alice") "Booking Session Ended" Info 0 1].
Proof. repeat split; vm_compute; reflexivity. Qed.

Example scenario_reject_without_reason :
  setBookingStatus no_fault "admin-uid" 1 (mkStatusBody (Some "rejected") None) two_pending
  = (Ok rejection_reason_required, bump two_pending).
Proof. vm_compute. reflexivity. Qed.

Example scenario_sunday :
  handleSubmit no_fault "alice" form_sunday empty_lab
  = (Ok (SetError "Lab is closed on Sundays. Please select a different start date."),
     empty_lab).
Proof. vm_compute. reflexivity. Qed.

(** * Further properties of the routes *)

(** ** Who may use the admin routes *)

(** X1: a request to the status route or to the reschedule route by a user
    who is not stored or is not an admin is answered 403, and nothing but the
    access count changes: no booking, computer, notification or log line. *)
Theorem admin_routes_refuse_other_users F uid id sbody tbody w :
  F (tick w) (OpUserFindOne uid) = false →
  ¬ admin_actor w uid →
  setBookingStatus F uid id sbody w = (Ok admin_access_required, bump w) ∧
  updateBookingTime F uid id tbody w = (Ok admin_access_required, bump w).
Proof.
  intros HF Hna.
  assert (Hn : not_admin (List.find (fun u => String.eqb (firebaseUid u) uid) (users w)) = true).
  { destruct (List.find _ (users w)) as [u|] eqn:Hu; [|reflexivity].
    cbn. destruct (is_admin u) eqn:Ha; [|reflexivity].
    exfalso. apply Hna. exists u. auto. }
  unfold setBookingStatus, updateBookingTime, User_findOne. munfold. cbn.
  rewrite HF. cbn. rewrite Hn. cbn. split; reflexivity.
Qed.

Lemma admin_routes_refuse_other_users_witness :
  setBookingStatus no_fault "alice" 1 approve two_pending
    = (Ok admin_access_required, bump two_pending) ∧
  updateBookingTime no_fault "nobody" 1 (mkTimeBody None None None None) two_pending
    = (Ok admin_access_required, bump two_pending).
Proof.
  split.
  - apply (admin_routes_refuse_other_users no_fault "alice" 1 approve
             (mkTimeBody None None None None) two_pending eq_refl).
    intros (u & Hu & Ha). vm_compute in Hu. injection Hu as <-. discriminate.
  - apply (admin_routes_refuse_other_users no_fault "nobody" 1 approve
             (mkTimeBody None None None None) two_pending eq_refl).
    intros (u & Hu & Ha). vm_compute in Hu. discriminate.
Defined.

(** ** Missing fields of a creation request *)

(** X2: [POST /] answers "Missing required fields" exactly when the computer
    id is absent or one of start date, end date, start time, end time and
    reason is absent or empty, whatever the faults; it then makes no access to
    the store and leaves the world as it is. *)
Theorem createBooking_missing_fields F uid body w :
  let missing :=
    cb_computerId body = None ∨ falsy (cb_startDate body) = true ∨
    falsy (cb_endDate body) = true ∨ falsy (cb_startTime body) = true ∨
    falsy (cb_endTime body) = true ∨ falsy (cb_reason body) = true in
  (fst (createBooking F uid body w) = Ok missing_required_fields ↔ missing) ∧
  (missing → snd (createBooking F uid body w) = w).
Proof.
  cbn zeta.
  unfold createBooking, Computer_findById, new_id, Booking_save, User_findAdmins,
    Notification_insertMany, Booking_populate, falsy.
  munfold. cbn.
  assert (Hmiss : ∀ P : Prop, P →
            (Ok missing_required_fields = Ok missing_required_fields ↔ P) ∧ (P → w = w)).
  { intros P HP. split; [split; auto|auto]. }
  destruct (cb_computerId body) as [cid|]; cbn; [|apply Hmiss; auto].
  destruct (present (cb_startDate body)) as [sd|]; cbn; [|apply Hmiss; auto].
  destruct (present (cb_endDate body)) as [ed|]; cbn; [|apply Hmiss; auto].
  destruct (present (cb_startTime body)) as [st|]; cbn; [|apply Hmiss; auto 6].
  destruct (present (cb_endTime body)) as [et|]; cbn; [|apply Hmiss; auto 7].
  destruct (present (cb_reason body)) as [r|]; cbn; [|apply Hmiss; auto 8].
  clear Hmiss.
  assert (Hno : ¬ (Some cid = None ∨ false = true ∨ false = true ∨ false = true ∨
                   false = true ∨ false = true)) by (intros [|[|[|[|[|]]]]]; discriminate).
  split; [|intros H; contradiction].
  split; [|intros H; contradiction].
  intros Hres. exfalso. revert Hres.
  destruct (F (tick w) (OpComputerFindById cid)); cbn; [discriminate|].
  destruct (computers w !! cid) as [c|]; cbn; [|discriminate].
  repeat (match goal with
          | |- context [if F ?t ?op then _ else _] => destruct (F t op)
          | |- context [match length ?l with _ => _ end] => destruct (length l)
          end; cbn); discriminate.
Qed.

Lemma createBooking_missing_fields_witness :
  createBooking save_1_fails "alice"
    (mkCreateBody (Some 1) (Some "2024-06-10") (Some "2024-06-10") (Some "09:00")
       (Some "10:00") (Some "") meta0) two_pending
  = (Ok missing_required_fields, two_pending).
Proof.
  destruct (createBooking_missing_fields save_1_fails "alice"
              (mkCreateBody (Some 1) (Some "2024-06-10") (Some "2024-06-10") (Some "09:00")
                 (Some "10:00") (Some "") meta0) two_pending) as [Hres Hw].
  apply injective_projections.
  - apply Hres. do 5 right. reflexivity.
  - apply Hw. do 5 right. reflexivity.
Defined.

(** ** Notifications of the routes *)

Lemma createBooking_no_fault_notifications uid body w cid sd ed st et r c :
  cb_computerId body = Some cid →
  present (cb_startDate body) = Some sd → present (cb_endDate body) = Some ed →
  present (cb_startTime body) = Some st → present (cb_endTime body) = Some et →
  present (cb_reason body) = Some r →
  computers w !! cid = Some c →
  notifications (snd (createBooking no_fault uid body w))
  = map (create_notification uid (fresh (dom (bookings w))) cid)
        (List.filter is_admin (users w)) ++ notifications w.
Proof.
  intros Hc Hsd Hed Hst Het Hr Hcomp.
  unfold createBooking, Computer_findById, new_id, Booking_save, User_findAdmins,
    Notification_insertMany, Booking_populate.
  munfold. cbn. rewrite Hc, Hsd, Hed, Hst, Het, Hr. cbn. rewrite Hcomp. cbn.
  destruct (List.filter is_admin (users w)) as [|a l]; cbn; reflexivity.
Qed.

(** X3: a successful [POST /] (no faults) records one "New Booking Request"
    notice of type info for every admin user, about the new booking, and
    nothing for anyone else; without admins it records nothing. *)
Theorem createBooking_notifies_every_admin uid body w cid sd ed st et r c :
  cb_computerId body = Some cid →
  present (cb_startDate body) = Some sd → present (cb_endDate body) = Some ed →
  present (cb_startTime body) = Some st → present (cb_endTime body) = Some et →
  present (cb_reason body) = Some r →
  computers w !! cid = Some c →
  ∃ ns, notifications (snd (createBooking no_fault uid body w)) = ns ++ notifications w ∧
        length ns = length (List.filter is_admin (users w)) ∧
        (∀ u, u ∈ users w → is_admin u = true →
           mkNotification (ToUid (firebaseUid u)) "New Booking Request" Info
             (fresh (dom (bookings w))) cid ∈ ns) ∧
        (∀ n, n ∈ ns → ∃ u, u ∈ users w ∧ is_admin u = true ∧
                            n_userId n = ToUid (firebaseUid u) ∧ n_type n = Info).
Proof.
  intros Hc Hsd Hed Hst Het Hr Hcomp.
  rewrite (createBooking_no_fault_notifications uid body w cid sd ed st et r c)
    by assumption.
  eexists. split; [reflexivity|]. split; [apply length_map|]. split.
  - intros u Hu Ha. apply list_elem_of_fmap. exists u. split; [reflexivity|].
    apply list_elem_of_In, List.filter_In. split; [apply list_elem_of_In, Hu|exact Ha].
  - intros n Hn. apply list_elem_of_fmap in Hn as (u & -> & Hu).
    apply list_elem_of_In, List.filter_In in Hu as [Hu Ha].
    exists u. split; [apply list_elem_of_In, Hu|]. auto.
Qed.

Lemma createBooking_notifies_every_admin_witness :
  ∃ ns, notifications (snd (createBooking no_fault "alice" create_june10 two_pending))
        = ns ++ notifications two_pending ∧
        length ns = 1 ∧
        mkNotification (ToUid "admin-uid") "New Booking Request" Info
          (fresh (dom (bookings two_pending))) 1 ∈ ns.
Proof.
  destruct (createBooking_notifies_every_admin "alice" create_june10 two_pending
              1 "2024-06-10" "2024-06-10" "09:00" "10:00" "test" pc1
              eq_refl eq_refl eq_refl eq_refl eq_refl eq_refl eq_refl)
    as (ns & Heq & Hlen & Hadm & _).
  exists ns. split; [exact Heq|]. split; [exact Hlen|].
  apply (Hadm admin0); [apply list_elem_of_here|reflexivity].
Defined.

Lemma setBookingStatus_no_fault_rest uid id body w b c t :
  admin_actor w uid →
  parse_target (sb_status body) = Some t →
  (t = Rejected → falsy (sb_rejectionReason body) = false) →
  bookings w !! id = Some b →
  computers w !! computerId b = Some c →
  let w' := snd (setBookingStatus no_fault uid id body w) in
  users w' = users w ∧ logs w' = logs w ∧
  notifications w'
  = status_notification t id (status_update t (sb_rejectionReason body) b) :: notifications w.
Proof.
  intros (u & Hu & Hadm) Ht Hr Hb Hc. cbn zeta.
  unfold setBookingStatus, User_findOne, Booking_findById_populated, Booking_save,
    sync_computer, Booking_findOtherApproved, Computer_findByIdAndUpdate,
    Notification_save, status_update.
  munfold. cbn. rewrite Hu. cbn. rewrite Hadm, Ht. cbn.
  assert (Hr' : bool_decide (t = Rejected) && falsy (sb_rejectionReason body) = false).
  { case_bool_decide; cbn; auto. }
  rewrite Hr'. cbn. rewrite Hb. cbn. rewrite Hc. cbn.
  destruct (parse_target_cases _ _ Ht) as [->|[->| ->]];
    repeat (case_bool_decide; try discriminate; try congruence); cbn; auto;
    match goal with
    | |- context [find_other_approved ?a ?b ?c] =>
        destruct (find_other_approved a b c); cbn; auto
    end.
Qed.

(** X4: a status change that succeeds (no faults) records exactly one
    notification, for the owner of the booking and about this booking; its
    type is success for an approval and error for a rejection and for a
    cancellation. *)
Theorem setBookingStatus_notifies_owner uid id body w b c t :
  admin_actor w uid →
  parse_target (sb_status body) = Some t →
  (t = Rejected → falsy (sb_rejectionReason body) = false) →
  bookings w !! id = Some b →
  computers w !! computerId b = Some c →
  ∃ n, notifications (snd (setBookingStatus no_fault uid id body w)) = n :: notifications w ∧
       n_userId n = ToUid (userId b) ∧ n_bookingId n = id ∧
       n_computerId n = computerId b ∧
       (t = Approved → n_type n = Success ∧ n_title n = "Booking Approved") ∧
       (t = Rejected → n_type n = Error ∧ n_title n = "Booking Rejected") ∧
       (t = Cancelled → n_type n = Error ∧ n_title n = "Booking Cancelled").
Proof.
  intros Hadm Ht Hr Hb Hc.
  destruct (setBookingStatus_no_fault_rest uid id body w b c t Hadm Ht Hr Hb Hc)
    as (_ & _ & Hn).
  eexists. split; [exact Hn|].
  unfold status_notification, status_update.
  refine (conj _ (conj _ (conj _ (conj _ (conj _ _))))).
  - cbn. case_bool_decide; reflexivity.
  - reflexivity.
  - cbn. case_bool_decide; reflexivity.
  - intros ->. split; reflexivity.
  - intros ->. split; reflexivity.
  - intros ->. split; reflexivity.
Qed.

Lemma setBookingStatus_notifies_owner_witness :
  ∃ n, notifications (snd (setBookingStatus no_fault "admin-uid" 1 cancel two_pending))
       = n :: notifications two_pending ∧
       n_userId n = ToUid "alice" ∧ n_type n = Error.
Proof.
  destruct (setBookingStatus_notifies_owner "admin-uid" 1 cancel two_pending
              booking_june10 pc1 Cancelled) as (n & Hn & Hu & _ & _ & _ & _ & Hc).
  - exists admin0. split; reflexivity.
  - reflexivity.
  - discriminate.
  - reflexivity.
  - reflexivity.
  - exists n. split; [exact Hn|]. split; [exact Hu|]. apply Hc. reflexivity.
Defined.

(** ** Repeating a status request *)

Lemma status_update_idem t r b :
  status_update t r (status_update t r b) = status_update t r b.
Proof. unfold status_update. case_bool_decide; reflexivity. Qed.

Lemma alter_with_c_status_idem s cid (cs : gmap nat Computer) :
  alter (with_c_status s) cid (alter (with_c_status s) cid cs)
  = alter (with_c_status s) cid cs.
Proof.
  apply map_eq. intros k. destruct (decide (k = cid)) as [->|Hne].
  - rewrite !lookup_alter_eq. destruct (cs !! cid); reflexivity.
  - rewrite !lookup_alter_ne by congruence. reflexivity.
Qed.

(** X5: repeating a status request that succeeded (no faults) changes no
    booking and no computer; it only notifies the owner once more. *)
Theorem setBookingStatus_repeat uid id body w b c t :
  admin_actor w uid →
  parse_target (sb_status body) = Some t →
  (t = Rejected → falsy (sb_rejectionReason body) = false) →
  bookings w !! id = Some b →
  computers w !! computerId b = Some c →
  let w1 := snd (setBookingStatus no_fault uid id body w) in
  let w2 := snd (setBookingStatus no_fault uid id body w1) in
  bookings w2 = bookings w1 ∧ computers w2 = computers w1 ∧
  ∃ n, notifications w2 = n :: notifications w1 ∧ head (notifications w1) = Some n.
Proof.
  intros Hadm Ht Hr Hb Hc. cbn zeta.
  destruct (setBookingStatus_no_fault_applied uid id body w b c t Hadm Ht Hr Hb Hc)
    as (_ & Hbs & Hcs).
  destruct (setBookingStatus_no_fault_rest uid id body w b c t Hadm Ht Hr Hb Hc)
    as (Hus & _ & Hns).
  set (w1 := snd (setBookingStatus no_fault uid id body w)) in *.
  set (b' := status_update t (sb_rejectionReason body) b) in *.
  assert (Hadm1 : admin_actor w1 uid).
  { destruct Hadm as (u & Hu & Ha). exists u. rewrite Hus. auto. }
  assert (Hb1 : bookings w1 !! id = Some b') by (rewrite Hbs; apply lookup_insert_eq).
  assert (Hcb : computerId b' = computerId b) by apply status_update_computerId.
  assert (Hc1 : ∃ c1, computers w1 !! computerId b' = Some c1).
  { rewrite Hcs, Hcb. unfold synced_computers. rewrite Hcb.
    case_bool_decide; [|destruct (find_other_approved _ _ _)];
      rewrite ?lookup_alter_eq, Hc; cbn; eauto. }
  destruct Hc1 as [c1 Hc1].
  destruct (setBookingStatus_no_fault_applied uid id body w1 b' c1 t Hadm1 Ht Hr Hb1 Hc1)
    as (_ & Hbs2 & Hcs2).
  destruct (setBookingStatus_no_fault_rest uid id body w1 b' c1 t Hadm1 Ht Hr Hb1 Hc1)
    as (_ & _ & Hns2).
  cbn zeta in *. unfold b' in Hbs2, Hcs2, Hns2. rewrite status_update_idem in Hbs2, Hcs2, Hns2.
  fold b' in Hbs2, Hcs2, Hns2.
  assert (Hbs2' : bookings (snd (setBookingStatus no_fault uid id body w1)) = bookings w1).
  { rewrite Hbs2, Hbs. apply insert_insert_eq. }
  split; [exact Hbs2'|]. split.
  - rewrite Hcs2, Hbs, insert_insert_eq, Hcs. unfold synced_computers.
    case_bool_decide; [apply alter_with_c_status_idem|].
    destruct (find_other_approved _ _ _); [reflexivity|apply alter_with_c_status_idem].
  - eexists. split; [exact Hns2|]. rewrite Hns. reflexivity.
Qed.

Lemma setBookingStatus_repeat_witness :
  let w1 := snd (setBookingStatus no_fault "admin-uid" 1 approve two_pending) in
  bookings (snd (setBookingStatus no_fault "admin-uid" 1 approve w1)) = bookings w1 ∧
  computers (snd (setBookingStatus no_fault "admin-uid" 1 approve w1)) = computers w1.
Proof.
  destruct (setBookingStatus_repeat "admin-uid" 1 approve two_pending
              booking_june10 pc1 Approved) as (Hb & Hc & _).
  - exists admin0. split; reflexivity.
  - reflexivity.
  - discriminate.
  - reflexivity.
  - reflexivity.
  - split; assumption.
Defined.

(** ** A fault after the booking was saved *)

(** X6: the status route saves the booking before it updates the computer.
    When that update throws, an approval is answered 500 although the booking
    is stored as approved; the computer is not booked and the owner is not
    notified. *)
Theorem setBookingStatus_fault_after_save F uid id body w b c :
  admin_actor w uid →
  sb_status body = Some "approved" →
  bookings w !! id = Some b →
  computers w !! computerId b = Some c →
  F (tick w) (OpUserFindOne uid) = false →
  F (S (tick w)) (OpBookingFindById id) = false →
  F (S (S (tick w))) (OpBookingSave id) = false →
  F (S (S (S (tick w)))) (OpComputerUpdate (computerId b)) = true →
  let res := setBookingStatus F uid id body w in
  fst res = Ok error_updating_status ∧
  bookings (snd res) = <[id := with_status Approved b]> (bookings w) ∧
  computers (snd res) = computers w ∧
  notifications (snd res) = notifications w ∧
  logs (snd res) = LogErrorUpdatingStatus :: logs w.
Proof.
  intros (u & Hu & Hadm) Hs Hb Hc H0 H1 H2 H3. cbn zeta.
  unfold setBookingStatus, User_findOne, Booking_findById_populated, Booking_save,
    sync_computer, Booking_findOtherApproved, Computer_findByIdAndUpdate,
    Notification_save.
  munfold. cbn. rewrite H0. cbn. rewrite Hu. cbn. rewrite Hadm, Hs. cbn.
  repeat (case_bool_decide; try discriminate; try congruence); cbn;
    rewrite H1; cbn; rewrite Hb; cbn; rewrite H2; cbn; rewrite Hc; cbn; rewrite H3; cbn;
    repeat split.
Qed.

Lemma setBookingStatus_fault_after_save_witness :
  fst (setBookingStatus computer_update_fails "admin-uid" 1 approve two_pending)
    = Ok error_updating_status ∧
  bookings (snd (setBookingStatus computer_update_fails "admin-uid" 1 approve two_pending)) !! 1
    = Some (with_status Approved booking_june10) ∧
  computers (snd (setBookingStatus computer_update_fails "admin-uid" 1 approve two_pending)) !! 1
    = Some pc1.
Proof.
  destruct (setBookingStatus_fault_after_save computer_update_fails "admin-uid" 1 approve
              two_pending booking_june10 pc1) as (Hres & Hbs & Hcs & _).
  - exists admin0. split; reflexivity.
  - reflexivity.
  - reflexivity.
  - reflexivity.
  - reflexivity.
  - reflexivity.
  - reflexivity.
  - reflexivity.
  - split; [exact Hres|]. rewrite Hbs, Hcs. split; [apply lookup_insert_eq|reflexivity].
Defined.

(** X7: [POST /] saves the booking before it looks the admins up.  When the
    computer is found and the save succeeds, the booking is stored whatever
    throws afterwards; when the lookup of the admins throws, the answer is 500
    and nobody is notified, but the booking stays. *)
Theorem createBooking_fault_after_save F uid body w cid sd ed st et r c :
  cb_computerId body = Some cid →
  present (cb_startDate body) = Some sd → present (cb_endDate body) = Some ed →
  present (cb_startTime body) = Some st → present (cb_endTime body) = Some et →
  present (cb_reason body) = Some r →
  computers w !! cid = Some c →
  F (tick w) (OpComputerFindById cid) = false →
  F (S (tick w)) (OpBookingSave (fresh (dom (bookings w)))) = false →
  let res := createBooking F uid body w in
  bookings (snd res)
  = <[fresh (dom (bookings w)) := new_booking uid cid sd ed st et r (cb_meta body)]> (bookings w) ∧
  (F (S (S (tick w))) OpUserFindAdmins = true →
   fst res = Ok error_creating ∧ notifications (snd res) = notifications w ∧
   logs (snd res) = LogErrorCreating :: logs w).
Proof.
  intros Hc Hsd Hed Hst Het Hr Hcomp H0 H1. cbn zeta.
  unfold createBooking, Computer_findById, new_id, Booking_save, User_findAdmins,
    Notification_insertMany, Booking_populate.
  munfold. cbn. rewrite Hc, Hsd, Hed, Hst, Het, Hr. cbn. rewrite H0. cbn.
  rewrite Hcomp. cbn. rewrite H1. cbn.
  destruct (F (S (S (tick w))) OpUserFindAdmins); cbn; [split; [reflexivity|auto]|].
  split; [|discriminate].
  repeat (match goal with
          | |- context [if F ?t ?op then _ else _] => destruct (F t op)
          | |- context [match length ?l with _ => _ end] => destruct (length l)
          end; cbn); reflexivity.
Qed.

Lemma createBooking_fault_after_save_witness :
  fst (createBooking admin_lookup_fails "alice" create_june10 two_pending) = Ok error_creating ∧
  bookings (snd (createBooking admin_lookup_fails "alice" create_june10 two_pending))
    !! fresh (dom (bookings two_pending))
  = Some booking_june10.
Proof.
  destruct (createBooking_fault_after_save admin_lookup_fails "alice" create_june10 two_pending
              1 "2024-06-10" "2024-06-10" "09:00" "10:00" "test" pc1
              eq_refl eq_refl eq_refl eq_refl eq_refl eq_refl eq_refl eq_refl eq_refl)
    as (Hbs & Hres).
  split; [apply Hres; reflexivity|].
  rewrite Hbs. apply lookup_insert_eq.
Defined.

(** ** The reschedule route *)

(** X8: for an admin and without faults, the reschedule route answers 404 for
    a booking that is not stored, 400 for a booking that is not approved, and
    404 when the body names another computer that does not exist; in each case
    nothing but the access count changes (in particular the old computer is
    not released). *)
Theorem updateBookingTime_refusals uid id body w :
  admin_actor w uid →
  (bookings w !! id = None →
   updateBookingTime no_fault uid id body w = (Ok booking_not_found, bump (bump w))) ∧
  (∀ b, bookings w !! id = Some b → status b ≠ Approved →
   updateBookingTime no_fault uid id body w = (Ok only_approved_bookings, bump (bump w))) ∧
  (∀ b cid, bookings w !! id = Some b → status b = Approved →
   tb_computerId body = Some cid → cid ≠ computerId b → computers w !! cid = None →
   updateBookingTime no_fault uid id body w
   = (Ok new_computer_not_found, bump (bump (bump w)))).
Proof.
  intros (u & Hu & Hadm).
  unfold updateBookingTime, change_computer, User_findOne, Booking_findById,
    Computer_findById.
  munfold. cbn. rewrite Hu. cbn. rewrite Hadm. cbn.
  split; [|split].
  - intros ->. reflexivity.
  - intros b -> Hst. cbn. rewrite bool_decide_eq_true_2 by assumption. reflexivity.
  - intros b cid -> Hst -> Hne Hc. cbn.
    rewrite bool_decide_eq_false_2 by (intros H; apply H; exact Hst). cbn.
    rewrite bool_decide_eq_true_2 by assumption. cbn. rewrite Hc. reflexivity.
Qed.

Lemma updateBookingTime_refusals_witness :
  updateBookingTime no_fault "admin-uid" 1 (mkTimeBody None (Some "11:00") None None) two_pending
  = (Ok only_approved_bookings, bump (bump two_pending)).
Proof.
  destruct (updateBookingTime_refusals "admin-uid" 1
              (mkTimeBody None (Some "11:00") None None) two_pending) as (_ & H & _).
  - exists admin0. split; reflexivity.
  - apply (H booking_june10); [reflexivity|discriminate].
Defined.

Lemma updateBookingTime_no_fault_same_computer uid id body w b :
  admin_actor w uid → bookings w !! id = Some b → status b = Approved →
  same_computer body b →
  fst (updateBookingTime no_fault uid id body w)
    = Ok (mkResponse 200 (BookingJson id (retimed body b))) ∧
  bookings (snd (updateBookingTime no_fault uid id body w))
    = <[id := retimed body b]> (bookings w) ∧
  computers (snd (updateBookingTime no_fault uid id body w)) = computers w.
Proof.
  intros (u & Hu & Hadm) Hb Hst Hsame.
  unfold updateBookingTime, change_computer, User_findOne, Booking_findById,
    Computer_findById, Booking_findOtherApproved, Computer_findByIdAndUpdate,
    Booking_save, Booking_populate, retimed.
  munfold. cbn. rewrite Hu. cbn. rewrite Hadm. cbn. rewrite Hb. cbn.
  rewrite bool_decide_eq_false_2 by (intros H; apply H; exact Hst). cbn.
  destruct Hsame as [-> | ->]; cbn.
  - auto.
  - rewrite bool_decide_eq_false_2 by (intros H; apply H; reflexivity). cbn. auto.
Qed.

Lemma or_keep_None old : or_keep None old = old.
Proof. reflexivity. Qed.

(** X9: a reschedule that keeps the computer (admin, approved booking, no
    faults) stores the booking with the start time, end time and end date of
    the body where they are given and not empty, and as they were otherwise;
    no other field of the booking changes and no computer changes.  The new
    values are not validated: any end date is taken over.  With an empty body
    nothing changes in bookings and computers. *)
Theorem updateBookingTime_takes_over_times uid id body w b :
  admin_actor w uid → bookings w !! id = Some b → status b = Approved →
  same_computer body b →
  let res := updateBookingTime no_fault uid id body w in
  ∃ b', fst res = Ok (mkResponse 200 (BookingJson id b')) ∧
        bookings (snd res) = <[id := b']> (bookings w) ∧
        computers (snd res) = computers w ∧
        startTime b' = or_keep (tb_startTime body) (startTime b) ∧
        endTime b' = or_keep (tb_endTime body) (endTime b) ∧
        endDate b' = or_keep (tb_endDate body) (endDate b) ∧
        b' = with_endDate (endDate b') (with_endTime (endTime b')
               (with_startTime (startTime b') b)) ∧
        (tb_startTime body = None → tb_endTime body = None → tb_endDate body = None →
         bookings (snd res) = bookings w).
Proof.
  intros Hadm Hb Hst Hsame. cbn zeta.
  destruct (updateBookingTime_no_fault_same_computer uid id body w b Hadm Hb Hst Hsame)
    as (Hres & Hbs & Hcs).
  exists (retimed body b). rewrite Hres, Hbs, Hcs.
  do 7 (split; [reflexivity|]).
  intros H1 H2 H3. unfold retimed. rewrite H1, H2, H3, !or_keep_None.
  apply insert_id. rewrite Hb. destruct b; reflexivity.
Qed.

Lemma updateBookingTime_takes_over_times_witness :
  bookings (snd (updateBookingTime no_fault "admin-uid" 1
                   (mkTimeBody None None None (Some "2024-06-01")) two_computers)) !! 1
  = Some (with_endDate "2024-06-01" (with_status Approved booking_june12)) ∧
  String.ltb "2024-06-01" (startDate booking_june12) = true.
Proof.
  destruct (updateBookingTime_takes_over_times "admin-uid" 1
              (mkTimeBody None None None (Some "2024-06-01")) two_computers
              (with_status Approved booking_june12)) as (b' & _ & Hbs & _ & Hst & Het & Hed & Hb' & _).
  - exists admin0. split; reflexivity.
  - reflexivity.
  - reflexivity.
  - left. reflexivity.
  - split; [|reflexivity]. rewrite Hbs, lookup_insert_eq, Hb', Hst, Het, Hed. reflexivity.
Defined.

Lemma find_other_approved_None_iff cid id bs :
  find_other_approved cid id bs = None ↔
  ∀ i b, bs !! i = Some b → computerId b = cid → status b = Approved → i = id.
Proof.
  split.
  - intros H i b. apply find_other_approved_None. exact H.
  - intros H. destruct (find_other_approved cid id bs) as [p|] eqn:Hf; [|reflexivity].
    apply find_other_approved_Some in Hf as (Hp & Hc & Hs & Hne).
    exfalso. apply Hne. eapply H; eassumption.
Qed.

(** X10: a reschedule to another computer that exists (admin, approved
    booking, no faults) sets the new computer to booked whatever its status
    was, sets the old computer to available when no other approved booking
    refers to it and leaves it as it is otherwise, changes no other computer,
    and stores the booking, still approved, on the new computer. *)
Theorem updateBookingTime_moves_booking uid id body w b cid cn :
  admin_actor w uid → bookings w !! id = Some b → status b = Approved →
  tb_computerId body = Some cid → cid ≠ computerId b →
  computers w !! cid = Some cn →
  let w' := snd (updateBookingTime no_fault uid id body w) in
  computers w' !! cid = Some (with_c_status Booked cn) ∧
  (no_other_approved w (computerId b) id →
   computers w' !! computerId b = with_c_status Available <$> computers w !! computerId b) ∧
  (¬ no_other_approved w (computerId b) id →
   computers w' !! computerId b = computers w !! computerId b) ∧
  (∀ k, k ≠ cid → k ≠ computerId b → computers w' !! k = computers w !! k) ∧
  bookings w' = <[id := retimed body (with_computerId cid b)]> (bookings w).
Proof.
  intros (u & Hu & Hadm) Hb Hst Hcid Hne Hcn. cbn zeta.
  assert (Heq :
    bookings (snd (updateBookingTime no_fault uid id body w))
      = <[id := retimed body (with_computerId cid b)]> (bookings w) ∧
    computers (snd (updateBookingTime no_fault uid id body w))
      = alter (with_c_status Booked) cid
          (match find_other_approved (computerId b) id (bookings w) with
           | None => alter (with_c_status Available) (computerId b) (computers w)
           | Some _ => computers w
           end)).
  { unfold updateBookingTime, change_computer, User_findOne, Booking_findById,
      Computer_findById, Booking_findOtherApproved, Computer_findByIdAndUpdate,
      Booking_save, Booking_populate, retimed.
    munfold. cbn. rewrite Hu. cbn. rewrite Hadm. cbn. rewrite Hb. cbn.
    rewrite bool_decide_eq_false_2 by (intros H; apply H; exact Hst). cbn.
    rewrite Hcid. cbn. rewrite bool_decide_eq_true_2 by assumption. cbn.
    rewrite Hcn. cbn.
    destruct (find_other_approved (computerId b) id (bookings w)); cbn; auto. }
  destruct Heq as [Hbs Hcs]. rewrite Hbs, Hcs. clear Hbs Hcs.
  split; [|split; [|split; [|split]]].
  - rewrite lookup_alter_eq.
    destruct (find_other_approved _ _ _);
      rewrite ?lookup_alter_ne by congruence; rewrite Hcn; reflexivity.
  - intros Hno. rewrite lookup_alter_ne by congruence.
    apply (proj2 (find_other_approved_None_iff _ _ _)) in Hno. rewrite Hno.
    apply lookup_alter_eq.
  - intros Hsome. rewrite lookup_alter_ne by congruence.
    destruct (find_other_approved _ _ _) eqn:Hf; [reflexivity|].
    exfalso. apply Hsome. unfold no_other_approved.
    apply (proj1 (find_other_approved_None_iff _ _ _) Hf).
  - intros k Hk1 Hk2. rewrite lookup_alter_ne by congruence.
    destruct (find_other_approved _ _ _); rewrite ?lookup_alter_ne by congruence; reflexivity.
  - reflexivity.
Qed.

Lemma updateBookingTime_moves_booking_witness :
  let w' := snd (updateBookingTime no_fault "admin-uid" 1
                   (mkTimeBody None None (Some 2) None) two_computers) in
  computers w' !! 2 = Some (with_c_status Booked pc1) ∧
  computers w' !! 1 = Some (with_c_status Available (with_c_status Booked pc1)).
Proof.
  destruct (updateBookingTime_moves_booking "admin-uid" 1 (mkTimeBody None None (Some 2) None)
              two_computers (with_status Approved booking_june12) 2 pc1)
    as (Hnew & Hold & _).
  - exists admin0. split; reflexivity.
  - reflexivity.
  - reflexivity.
  - reflexivity.
  - discriminate.
  - reflexivity.
  - split; [exact Hnew|]. cbn zeta. refine (eq_trans (Hold _) _); [|reflexivity].
    intros i bi Hbi _ _.
    destruct (decide (i = 1)) as [|Hn]; [assumption|].
    unfold two_computers in Hbi. cbn in Hbi.
    rewrite lookup_insert_ne in Hbi by congruence. rewrite lookup_empty in Hbi. discriminate.
Defined.

(** ** What the sweep leaves alone *)

(** X11: whatever the faults, the sweep adds and removes no booking, no
    computer and no user; a booking keeps all its fields but the status, and a
    computer keeps its name, location and specifications, and its status
    unless it goes from booked to available. *)
Theorem sweep_keeps_the_collections F now w :
  let w' := snd (checkExpiredBookings F now w) in
  dom (bookings w') = dom (bookings w) ∧
  dom (computers w') = dom (computers w) ∧
  users w' = users w ∧
  (∀ id b', bookings w' !! id = Some b' →
     ∃ b, bookings w !! id = Some b ∧ b' = with_status (status b') b) ∧
  (∀ cid c', computers w' !! cid = Some c' →
     ∃ c, computers w !! cid = Some c ∧ c' = with_c_status (c_status c') c ∧
          (c_status c' = c_status c ∨ (c_status c = Booked ∧ c_status c' = Available))).
Proof.
  cbn zeta. rewrite checkExpiredBookings_eq.
  destruct (F (tick w) OpBookingFindExpired); cbn.
  { repeat split; auto.
    - intros id b' Hb. exists b'. split; [exact Hb|]. destruct b'; reflexivity.
    - intros cid c' Hc. exists c'. split; [exact Hc|]. split; [destruct c'; reflexivity|auto]. }
  set (l := find_expired now (bookings w)).
  destruct (sweep_world_spec F l (bump w) (NoDup_find_expired now (bookings w)))
    as (Hus & Hrel & Hout & Hin & _).
  cbn in Hus, Hrel, Hout, Hin.
  assert (Hbk : ∀ id b', bookings (sweep_world F l (bump w)) !! id = Some b' →
            ∃ b, bookings w !! id = Some b ∧ b' = with_status (status b') b).
  { intros id b' Hb'. destruct (decide (id ∈ l.*1)) as [Hk|Hk].
    - apply list_elem_of_fmap in Hk as ([i b] & Hi & Hmem). cbn in Hi; subst i.
      pose proof Hmem as Hq. apply elem_of_find_expired in Hq as [Hb _].
      exists b. split; [exact Hb|].
      destruct (Hin id b Hmem) as [[Hs|Hs] _]; rewrite Hs in Hb'.
      + rewrite Hb in Hb'. injection Hb' as <-. destruct b; reflexivity.
      + injection Hb' as <-. reflexivity.
    - rewrite (Hout id Hk) in Hb'. exists b'. split; [exact Hb'|]. destruct b'; reflexivity. }
  assert (Hck : ∀ cid c', computers (sweep_world F l (bump w)) !! cid = Some c' →
            ∃ c, computers w !! cid = Some c ∧ c' = with_c_status (c_status c') c ∧
                 (c_status c' = c_status c ∨ (c_status c = Booked ∧ c_status c' = Available))).
  { intros cid c' Hc'. destruct (Hrel cid) as [Hs|(c & Hc & Hbkd & Hs)]; rewrite Hs in Hc'.
    - exists c'. split; [exact Hc'|]. split; [destruct c'; reflexivity|auto].
    - injection Hc' as <-. exists c. split; [exact Hc|]. split; [reflexivity|auto]. }
  split; [|split; [|split; [exact Hus|split; [exact Hbk|exact Hck]]]].
  - apply set_eq. intros id. rewrite !elem_of_dom. split.
    + intros [b' Hb']. destruct (Hbk id b' Hb') as (b & Hb & _). eauto.
    + intros [b Hb]. destruct (decide (id ∈ l.*1)) as [Hk|Hk].
      * apply list_elem_of_fmap in Hk as ([i b0] & Hi & Hmem). cbn in Hi; subst i.
        destruct (Hin id b0 Hmem) as [[Hs|Hs] _]; rewrite Hs; eauto.
      * rewrite (Hout id Hk). eauto.
  - apply set_eq. intros cid. rewrite !elem_of_dom. split.
    + intros [c' Hc']. destruct (Hck cid c' Hc') as (c & Hc & _). eauto.
    + intros [c Hc]. destruct (Hrel cid) as [Hs|(c0 & _ & _ & Hs)]; rewrite Hs; eauto.
Qed.

(** ** The notices of the sweep *)

Lemma for_each_Notification_save_no_fault {A} (g : A → Notification) (l : list A) w :
  ∃ w', for_each l (fun a => Notification_save no_fault (g a)) w = (Ok tt, w') ∧
        bookings w' = bookings w ∧ computers w' = computers w ∧ users w' = users w ∧
        logs w' = logs w ∧
        notifications w' = rev (map g l) ++ notifications w.
Proof.
  revert w. induction l as [|a l IH]; intros w; cbn.
  - eexists. split; [reflexivity|]. repeat split.
  - unfold Notification_save at 1. munfold. cbn.
    destruct (IH (add_notifications [g a] (bump w))) as (w' & Heq & Hb & Hc & Hu & Hl & Hn).
    exists w'. split; [exact Heq|]. cbn in *.
    repeat split; try assumption.
    rewrite Hn, <- app_assoc. reflexivity.
Qed.

Lemma sendExpirationNotifications_no_fault id b c w :
  ∃ w', sendExpirationNotifications no_fault id b c w = (Ok tt, w') ∧
        bookings w' = bookings w ∧ computers w' = computers w ∧ users w' = users w ∧
        notifications w'
        = expiration_notices (List.filter is_admin (users w)) id b ++ notifications w.
Proof.
  unfold sendExpirationNotifications, User_findAdmins, expiration_notices.
  unfold Notification_save at 1. munfold. cbn.
  destruct (for_each_Notification_save_no_fault (expired_admin_notification id b)
              (List.filter is_admin (users w))
              (bump (add_notifications [expired_user_notification id b] (bump w))))
    as (w' & Heq & Hb & Hc & Hu & Hl & Hn).
  rewrite Heq. cbn. eexists. split; [reflexivity|]. cbn in *.
  repeat split; try assumption.
  rewrite Hn, <- app_assoc. reflexivity.
Qed.

Lemma handleExpiredBooking_no_fault_notifications id b w :
  users (snd (handleExpiredBooking no_fault (id, b) w)) = users w ∧
  notifications (snd (handleExpiredBooking no_fault (id, b) w))
  = expiration_notices (List.filter is_admin (users w)) id (with_status Completed b)
    ++ notifications w.
Proof.
  unfold handleExpiredBooking, Booking_save, Computer_findById, Computer_save.
  munfold. cbn.
  destruct (computers w !! computerId b) as [c|] eqn:Hc; cbn;
    [destruct (bool_decide (c_status c = Booked)) eqn:Hbk; cbn|];
    match goal with
    | |- context [sendExpirationNotifications no_fault ?i ?bb ?cc ?ww] =>
        destruct (sendExpirationNotifications_no_fault i bb cc ww)
          as (w' & Heq & _ & _ & Hu & Hn); rewrite Heq; cbn in *; split; assumption
    end.
Qed.

Lemma sweep_world_no_fault_notifications l w :
  users (sweep_world no_fault l w) = users w ∧
  notifications (sweep_world no_fault l w)
  = concat (rev (map (fun d => expiration_notices (List.filter is_admin (users w))
                                 (fst d) (with_status Completed (snd d))) l))
    ++ notifications w.
Proof.
  unfold sweep_world. revert w. induction l as [|[id b] l IH]; intros w; cbn [fold_left].
  { split; reflexivity. }
  destruct (handleExpiredBooking_no_fault_notifications id b w) as [Hu Hn].
  destruct (IH (snd (handleExpiredBooking no_fault (id, b) w))) as [IHu IHn].
  split; [congruence|].
  rewrite IHn, Hn, Hu. cbn [map rev fst snd].
  rewrite concat_app. cbn. rewrite app_nil_r, <- app_assoc. reflexivity.
Qed.

Lemma elem_of_rev_iff {A} (x : A) (l : list A) : x ∈ rev l ↔ x ∈ l.
Proof. rewrite !list_elem_of_In. symmetry. apply in_rev. Qed.

Lemma elem_of_concat_iff {A} (x : A) (ls : list (list A)) :
  x ∈ concat ls ↔ ∃ l, x ∈ l ∧ l ∈ ls.
Proof.
  rewrite list_elem_of_In, in_concat. split.
  - intros (l & Hl & Hx). exists l. rewrite !list_elem_of_In. auto.
  - intros (l & Hx & Hl). exists l. rewrite <- !list_elem_of_In. auto.
Qed.

(** X12: a sweep without faults records, for every booking it selects, one
    "Booking Session Ended" notice of type info for the owner and one
    "Computer Available" notice of type success for every admin, addressed to
    the document id of the admin; it records nothing else. *)
Theorem sweep_notices now w :
  let selected := find_expired now (bookings w) in
  let admins := List.filter is_admin (users w) in
  ∃ ns, notifications (snd (checkExpiredBookings no_fault now w)) = ns ++ notifications w ∧
        length ns = (length selected * S (length admins))%nat ∧
        (∀ n, n ∈ ns ↔
           ∃ id b, (id, b) ∈ selected ∧
             (n = mkNotification (ToUid (userId b)) "Booking Session Ended" Info id (computerId b) ∨
              ∃ u, u ∈ admins ∧
                   n = mkNotification (ToOid (u_id u)) "Computer Available" Success id
                         (computerId b))).
Proof.
  cbn zeta. rewrite checkExpiredBookings_eq. cbn.
  set (l := find_expired now (bookings w)).
  destruct (sweep_world_no_fault_notifications l (bump w)) as [_ Hn]. cbn in Hn.
  eexists. split; [exact Hn|]. clear Hn.
  set (admins := List.filter is_admin (users w)).
  split.
  - induction l as [|d l IH]; [reflexivity|].
    cbn [map rev]. rewrite concat_app, length_app, IH. cbn.
    unfold expiration_notices. rewrite app_nil_r, length_app, length_rev, length_map. cbn. lia.
  - intros n. rewrite elem_of_concat_iff. split.
    + intros (ns & Hn & Hns). apply elem_of_rev_iff, list_elem_of_fmap in Hns as ([id b] & -> & Hd).
      exists id, b. split; [exact Hd|]. unfold expiration_notices in Hn. cbn in Hn.
      apply elem_of_app in Hn as [Hn|Hn].
      * right. apply elem_of_rev_iff, list_elem_of_fmap in Hn as (u & -> & Hu). eauto.
      * left. apply list_elem_of_singleton in Hn. exact Hn.
    + intros (id & b & Hd & Hn).
      exists (expiration_notices admins id (with_status Completed b)). split.
      * unfold expiration_notices. apply elem_of_app.
        destruct Hn as [->|(u & Hu & ->)].
        -- right. apply list_elem_of_singleton. reflexivity.
        -- left. apply elem_of_rev_iff, list_elem_of_fmap. eauto.
      * apply elem_of_rev_iff, list_elem_of_fmap. exists (id, b). auto.
Qed.

Lemma handleExpiredBooking_notification_faults F id b w :
  only_notification_faults F →
  bookings (snd (handleExpiredBooking F (id, b) w))
    = <[id := with_status Completed b]> (bookings w) ∧
  computers (snd (handleExpiredBooking F (id, b) w))
    = release (computerId b) (computers w) ∧
  head (logs (snd (handleExpiredBooking F (id, b) w))) = Some (LogExpiredProcessed id).
Proof.
  intros HF.
  assert (Hno : ∀ t op, op ≠ OpNotificationSave → op ≠ OpUserFindAdmins → F t op = false).
  { intros t op H1 H2. destruct (F t op) eqn:E; [|reflexivity].
    destruct (HF t op E); contradiction. }
  unfold handleExpiredBooking, Booking_save, Computer_findById, Computer_save, release.
  munfold. cbn.
  rewrite (Hno (tick w) (OpBookingSave id)) by discriminate. cbn.
  rewrite (Hno (S (tick w)) (OpComputerFindById (computerId b))) by discriminate. cbn.
  destruct (computers w !! computerId b) as [c|] eqn:Hc; cbn.
  - destruct (bool_decide (c_status c = Booked)) eqn:Hbk; cbn.
    + rewrite (Hno (S (S (tick w))) (OpComputerSave (computerId b))) by discriminate. cbn.
      use_send; cbn; repeat split; congruence.
    + use_send; cbn; repeat split; congruence.
  - use_send; cbn; repeat split; congruence.
Qed.

Lemma sweep_world_notification_faults F l w w0 :
  only_notification_faults F →
  bookings w = bookings w0 → computers w = computers w0 →
  bookings (sweep_world F l w) = bookings (sweep_world no_fault l w0) ∧
  computers (sweep_world F l w) = computers (sweep_world no_fault l w0).
Proof.
  intros HF. unfold sweep_world.
  revert w w0. induction l as [|[id b] l IH]; intros w w0 Hb Hc; cbn [fold_left]; [auto|].
  destruct (handleExpiredBooking_notification_faults F id b w HF) as (Hb1 & Hc1 & _).
  destruct (handleExpiredBooking_no_fault id b w0) as (Hb2 & Hc2).
  apply IH; congruence.
Qed.

(** X13: a failure to notify does not undo or stop an expiration.  When only
    the saves of notifications and the lookup of the admins throw, the sweep
    leaves the bookings and the computers exactly as a sweep without faults
    does, and reports every selected booking as updated. *)
Theorem sweep_survives_notification_faults F now w :
  only_notification_faults F →
  let w' := snd (checkExpiredBookings F now w) in
  bookings w' = bookings (snd (checkExpiredBookings no_fault now w)) ∧
  computers w' = computers (snd (checkExpiredBookings no_fault now w)) ∧
  head (logs w') = Some (LogUpdatedExpired (length (find_expired now (bookings w)))).
Proof.
  intros HF. cbn zeta. rewrite !checkExpiredBookings_eq.
  assert (Hq : F (tick w) OpBookingFindExpired = false).
  { destruct (F (tick w) OpBookingFindExpired) eqn:E; [|reflexivity].
    destruct (HF _ _ E); discriminate. }
  rewrite Hq. cbn.
  destruct (sweep_world_notification_faults F (find_expired now (bookings w))
              (bump w) (bump w) HF eq_refl eq_refl) as [Hb Hc].
  auto.
Qed.

Lemma sweep_survives_notification_faults_witness :
  bookings (snd (checkExpiredBookings notification_save_fails noon_june12 two_ended)) !! 1
    = Some (with_status Completed (with_status Approved booking_june10)) ∧
  computers (snd (checkExpiredBookings notification_save_fails noon_june12 two_ended)) !! 1
    = Some pc1 ∧
  notifications (snd (checkExpiredBookings notification_save_fails noon_june12 two_ended)) = [].
Proof.
  destruct (sweep_survives_notification_faults notification_save_fails noon_june12 two_ended)
    as (Hb & Hc & _).
  - intros t op H. destruct op; try discriminate H. left. reflexivity.
  - rewrite Hb, Hc. repeat split; vm_compute; reflexivity.
Defined.

(** ** From approval to expiration *)

Lemma status_update_Approved r b : status_update Approved r b = with_status Approved b.
Proof. unfold status_update. case_bool_decide; [discriminate|reflexivity]. Qed.

Lemma synced_computers_Approved id b' bs cs :
  synced_computers Approved id b' bs cs = alter (with_c_status Booked) (computerId b') cs.
Proof. unfold synced_computers. case_bool_decide; [reflexivity|contradiction]. Qed.

(** X14: without faults, when an admin approves a stored booking whose
    computer exists and the sweep then runs at a clock at which the booking
    has elapsed, the booking is completed and its computer is available,
    whatever other bookings refer to that computer. *)
Theorem approve_then_sweep uid id w b c now :
  admin_actor w uid →
  bookings w !! id = Some b →
  computers w !! computerId b = Some c →
  elapsed now b = true →
  let w' := run_ops no_fault [SetStatus uid id approve; Sweep now] w in
  bookings w' !! id = Some (with_status Completed b) ∧
  computers w' !! computerId b = Some (with_c_status Available c).
Proof.
  intros Hadm Hb Hc Hel. cbn zeta. unfold run_ops. cbn [fold_left apply_op].
  destruct (setBookingStatus_no_fault_applied uid id approve w b c Approved Hadm
              eq_refl ltac:(discriminate) Hb Hc) as (_ & Hbs & Hcs).
  set (w1 := snd (setBookingStatus no_fault uid id approve w)) in *.
  cbn zeta in Hbs, Hcs.
  rewrite synced_computers_Approved in Hcs. rewrite status_update_Approved in Hbs, Hcs.
  cbn in Hcs.
  assert (Hb1 : bookings w1 !! id = Some (with_status Approved b))
    by (rewrite Hbs; apply lookup_insert_eq).
  assert (Hc1 : computers w1 !! computerId b = Some (with_c_status Booked c))
    by (rewrite Hcs, lookup_alter_eq, Hc; reflexivity).
  assert (Hsel : (id, with_status Approved b) ∈ find_expired now (bookings w1)).
  { apply elem_of_find_expired. split; [exact Hb1|].
    unfold expired_query. rewrite bool_decide_eq_true_2 by reflexivity. exact Hel. }
  rewrite checkExpiredBookings_eq. cbn.
  pose proof (NoDup_find_expired now (bookings w1)) as Hnd.
  destruct (sweep_world_spec no_fault _ (bump w1) Hnd) as (_ & Hrel & _ & Hin & _).
  split.
  - apply (Hin id _ Hsel). reflexivity.
  - destruct (Hrel (computerId b)) as [Hs|(c0 & Hc0 & _ & Hs)].
    + exfalso. cbn in Hs. rewrite Hc1 in Hs.
      exact (sweep_world_no_fault_released _ (bump w1) id (with_status Approved b) _
               Hnd Hsel Hs eq_refl).
    + cbn in Hc0. rewrite Hc1 in Hc0. injection Hc0 as <-. exact Hs.
Qed.

Lemma approve_then_sweep_witness :
  let w' := run_ops no_fault [SetStatus "admin-uid" 1 approve; Sweep noon_june12] two_pending in
  bookings w' !! 1 = Some (with_status Completed booking_june10) ∧
  computers w' !! 1 = Some (with_c_status Available pc1).
Proof.
  apply (approve_then_sweep "admin-uid" 1 two_pending booking_june10 pc1 noon_june12).
  - exists admin0. split; reflexivity.
  - reflexivity.
  - reflexivity.
  - reflexivity.
Defined.

(** ** The order of strings *)

Lemma ascii_compare_refl c : Ascii.compare c c = Eq.
Proof. unfold Ascii.compare. apply N.compare_refl. Qed.

Lemma ascii_compare_eq a b : Ascii.compare a b = Eq ↔ a = b.
Proof.
  split; [apply Ascii.compare_eq_iff|intros ->; apply ascii_compare_refl].
Qed.

Lemma ascii_compare_lt_trans a b c :
  Ascii.compare a b = Lt → Ascii.compare b c = Lt → Ascii.compare a c = Lt.
Proof.
  unfold Ascii.compare. rewrite !N.compare_lt_iff. lia.
Qed.

Lemma string_compare_refl s : String.compare s s = Eq.
Proof.
  induction s as [|c s IH]; cbn; [reflexivity|]. rewrite ascii_compare_refl. exact IH.
Qed.

Lemma string_compare_lt_trans a b c :
  String.compare a b = Lt → String.compare b c = Lt → String.compare a c = Lt.
Proof.
  revert b c. induction a as [|x a IH]; intros [|y b] [|z c]; cbn; try discriminate; auto.
  destruct (Ascii.compare x y) eqn:Hxy; try discriminate.
  - apply ascii_compare_eq in Hxy as ->.
    destruct (Ascii.compare y z) eqn:Hyz; try discriminate; auto.
    intros H1 H2. eapply IH; eassumption.
  - intros _. destruct (Ascii.compare y z) eqn:Hyz; try discriminate.
    + apply ascii_compare_eq in Hyz as ->. rewrite Hxy. reflexivity.
    + rewrite (ascii_compare_lt_trans x y z Hxy Hyz). reflexivity.
Qed.

Lemma string_ltb_lt a b : String.ltb a b = true ↔ String.compare a b = Lt.
Proof. unfold String.ltb. destruct (String.compare a b); split; congruence. Qed.

Lemma string_leb_ltb a b : String.leb a b = negb (String.ltb b a).
Proof.
  unfold String.leb, String.ltb. rewrite (String.compare_antisym b a).
  destruct (String.compare a b); reflexivity.
Qed.

Lemma string_ltb_irrefl a : String.ltb a a = false.
Proof. unfold String.ltb. rewrite string_compare_refl. reflexivity. Qed.

Lemma string_leb_refl a : String.leb a a = true.
Proof. rewrite string_leb_ltb, string_ltb_irrefl. reflexivity. Qed.

Lemma string_ltb_trans a b c :
  String.ltb a b = true → String.ltb b c = true → String.ltb a c = true.
Proof. rewrite !string_ltb_lt. apply string_compare_lt_trans. Qed.

Lemma string_leb_cases a b : String.leb a b = true ↔ String.ltb a b = true ∨ a = b.
Proof.
  unfold String.leb, String.ltb. destruct (String.compare a b) eqn:H; split; try tauto.
  - intros _. right. apply String.compare_eq_iff. exact H.
  - intros [H'| ->]; [discriminate H'|]. rewrite string_compare_refl in H. discriminate H.
Qed.

Lemma string_ltb_leb_trans a b c :
  String.ltb a b = true → String.leb b c = true → String.ltb a c = true.
Proof.
  intros Hab Hbc. apply string_leb_cases in Hbc as [Hbc| ->]; [|exact Hab].
  eapply string_ltb_trans; eassumption.
Qed.

Lemma string_leb_trans a b c :
  String.leb a b = true → String.leb b c = true → String.leb a c = true.
Proof.
  intros Hab Hbc. apply string_leb_cases in Hab as [Hab| ->]; [|exact Hbc].
  apply string_leb_cases. left. eapply string_ltb_leb_trans; eassumption.
Qed.

(** ** Expired once, expired later *)

Lemma elapsed_mono now now' b :
  clock_le now now' → elapsed now b = true → elapsed now' b = true.
Proof.
  unfold elapsed. intros Hle H.
  apply orb_true_iff in H as [H|H].
  - apply andb_true_iff in H as [H Ht]. apply andb_true_iff in H as [Hs He].
    apply String.eqb_eq in Hs, He.
    destruct Hle as [Hlt|[Heq Hle]].
    + apply orb_true_iff. right. rewrite He. exact Hlt.
    + apply orb_true_iff. left. rewrite <- Heq, Hs, He, !String.eqb_refl. cbn.
      eapply string_ltb_leb_trans; eassumption.
  - apply orb_true_iff. right.
    destruct Hle as [Hlt|[Heq _]].
    + eapply string_ltb_trans; eassumption.
    + rewrite <- Heq. exact H.
Qed.

(** X15: the selection of the sweep is monotone in the clock: a stored
    booking that the sweep selects at one clock is selected at every clock
    that is not before it (a later date, or the same date and a later or equal
    time, as strings), as long as it is stored unchanged. *)
Theorem sweep_selection_is_monotone now now' w w' id b :
  clock_le now now' →
  (id, b) ∈ find_expired now (bookings w) →
  bookings w' !! id = Some b →
  (id, b) ∈ find_expired now' (bookings w').
Proof.
  intros Hle Hin Hb. apply elem_of_find_expired in Hin as [_ Hq].
  apply elem_of_find_expired. split; [exact Hb|].
  unfold expired_query in *. apply andb_true_iff in Hq as [Hs Hel].
  rewrite Hs. cbn. eapply elapsed_mono; eassumption.
Qed.

Lemma sweep_selection_is_monotone_witness :
  (1, with_status Approved booking_june10) ∈ find_expired noon_june12 (bookings two_ended).
Proof.
  apply (sweep_selection_is_monotone noon_june11 noon_june12 two_ended two_ended).
  - left. reflexivity.
  - apply list_elem_of_In. vm_compute. auto.
  - reflexivity.
Defined.

(** ** The listing routes *)

Lemma by_start_total : Total by_start.
Proof.
  intros v1 v2. unfold by_start, start_leb.
  set (a := startDate (v_booking v1)). set (b := startDate (v_booking v2)).
  destruct (String.ltb a b) eqn:Hab; [left; reflexivity|].
  destruct (String.ltb b a) eqn:Hba; [right; reflexivity|].
  assert (a = b) as Heq.
  { apply String.leb_antisym; rewrite string_leb_ltb; [rewrite Hba|rewrite Hab]; reflexivity. }
  rewrite Heq, String.eqb_refl. cbn.
  destruct (String.leb_total (startTime (v_booking v1)) (startTime (v_booking v2))); auto.
Qed.

Lemma by_start_trans : Transitive by_start.
Proof.
  intros v1 v2 v3. unfold by_start, start_leb.
  set (a := startDate (v_booking v1)). set (b := startDate (v_booking v2)).
  set (c := startDate (v_booking v3)).
  rewrite !orb_true_iff, !andb_true_iff, !String.eqb_eq.
  intros [H1|[-> H1]] [H2|[<- H2]].
  - left. eapply string_ltb_trans; eassumption.
  - left. exact H1.
  - left. exact H2.
  - right. split; [reflexivity|]. eapply string_leb_trans; eassumption.
Qed.

Lemma current_query_spec now b :
  current_query now b = true ↔
  status b = Approved ∧
  (String.ltb (currentDate now) (startDate b) = true ∨
   String.leb (currentDate now) (endDate b) = true).
Proof.
  unfold current_query.
  rewrite andb_true_iff, !orb_true_iff, !andb_true_iff, bool_decide_eq_true, !String.eqb_eq.
  split.
  - intros (Hs & [[((_ & He) & _)|H]|H]); split; auto.
    right. rewrite He. apply string_leb_refl.
  - intros (Hs & [H|H]); auto.
Qed.

(** X16: for an admin and without faults, [GET /current] answers 200 with the
    stored bookings that are approved and whose start date is after today or
    whose end date is not before today (as strings), each once, with its
    computer and the user found for its owner, sorted by start date and then
    start time.  The branch for single-day bookings adds nothing: a booking of
    today is listed whether or not its end time has passed. *)
Theorem getCurrentBookings_lists uid now w :
  admin_actor w uid →
  ∃ l, getCurrentBookings no_read_fault uid now w = mkListResponse 200 (BookingsWithUsers l) ∧
       StronglySorted by_start (map bu_view l) ∧
       NoDup (map (fun x => v_id (bu_view x)) l) ∧
       ∀ x, x ∈ l ↔
         ∃ id b, bookings w !! id = Some b ∧ status b = Approved ∧
           (String.ltb (currentDate now) (startDate b) = true ∨
            String.leb (currentDate now) (endDate b) = true) ∧
           x = mkBookingWithUser (mkBookingView id b (computers w !! computerId b))
                 (find_user w (userId b)).
Proof.
  intros (u & Hu & Hadm). unfold getCurrentBookings, find_user. cbn.
  rewrite Hu. cbn. rewrite Hadm. cbn.
  set (found := List.filter (fun d => current_query now (snd d)) (map_to_list (bookings w))).
  set (sorted := merge_sort by_start (map (populate w) found)).
  assert (Hperm : sorted ≡ₚ map (populate w) found) by apply merge_sort_Permutation.
  replace (existsb _ sorted) with false
    by (symmetry; clear; induction sorted; [reflexivity|assumption]).
  eexists. split; [reflexivity|]. split; [|split].
  - rewrite map_map. cbn. rewrite map_id.
    apply StronglySorted_merge_sort; [apply by_start_trans|apply by_start_total].
  - rewrite map_map. cbn.
    change (map (fun x => v_id x) sorted) with (v_id <$> sorted).
    rewrite Hperm. change (v_id <$> map (populate w) found) with (map v_id (map (populate w) found)).
    rewrite map_map. cbn.
    change (map (fun x => fst x) found) with (found.*1).
    apply NoDup_fst_filter, NoDup_fst_map_to_list.
  - intros x. rewrite list_elem_of_fmap. split.
    + intros (v & -> & Hv). rewrite Hperm in Hv.
      apply list_elem_of_fmap in Hv as ([id b] & -> & Hd).
      apply list_elem_of_In, List.filter_In in Hd as [Hd Hq]. cbn in Hq.
      apply list_elem_of_In, elem_of_map_to_list in Hd.
      apply current_query_spec in Hq as [Hs Hq]. exists id, b. auto.
    + intros (id & b & Hb & Hs & Hq & ->).
      exists (populate w (id, b)). split; [reflexivity|].
      rewrite Hperm. apply list_elem_of_fmap. exists (id, b). split; [reflexivity|].
      apply list_elem_of_In, List.filter_In. split.
      * apply list_elem_of_In, elem_of_map_to_list. exact Hb.
      * cbn. apply current_query_spec. auto.
Qed.

Lemma getCurrentBookings_lists_witness :
  ∃ l, getCurrentBookings no_read_fault "admin-uid" noon_june11 two_ended
       = mkListResponse 200 (BookingsWithUsers l) ∧
       map (fun x => v_id (bu_view x)) l = [2].
Proof.
  destruct (getCurrentBookings_lists "admin-uid" noon_june11 two_ended) as (l & Hl & _).
  - exists admin0. split; reflexivity.
  - exists l. split; [exact Hl|].
    assert (H : getCurrentBookings no_read_fault "admin-uid" noon_june11 two_ended
                = mkListResponse 200 (BookingsWithUsers
                    [with_user_info two_ended
                       (populate two_ended (2, with_status Approved booking_two_days))]))
      by (vm_compute; reflexivity).
    rewrite H in Hl. injection Hl as <-. reflexivity.
Defined.

Lemma newest_first_total createdAt : Total (newest_first createdAt).
Proof. intros v1 v2. unfold newest_first. lia. Qed.

Lemma newest_first_trans createdAt : Transitive (newest_first createdAt).
Proof. intros v1 v2 v3. unfold newest_first. lia. Qed.

Lemma not_admin_actor w uid : ¬ admin_actor w uid → not_admin (find_user w uid) = true.
Proof.
  intros Hna. unfold find_user.
  destruct (List.find _ (users w)) as [u|] eqn:Hu; [|reflexivity].
  cbn. destruct (is_admin u) eqn:Ha; [|reflexivity].
  exfalso. apply Hna. exists u. auto.
Qed.

(** X17: a user who is not an admin (or is not stored at all) gets 403 from
    [GET /current], but 200 from [GET /] with exactly the stored bookings
    whose [userId] is the caller's, each once, with its computer, newest
    first; no booking of another user is listed.  This holds whatever user
    lookups for other users would throw. *)
Theorem listings_for_other_users createdAt T uid now w :
  user_lookup_throws T uid = false → booking_query_throws T = false →
  ¬ admin_actor w uid →
  getCurrentBookings T uid now w = admin_access_required_list ∧
  ∃ l, getBookings createdAt T uid w = mkListResponse 200 (BookingViews l) ∧
       StronglySorted (newest_first createdAt) l ∧
       NoDup (map v_id l) ∧
       ∀ v, v ∈ l ↔
         ∃ id b, bookings w !! id = Some b ∧ userId b = uid ∧
                 v = mkBookingView id b (computers w !! computerId b).
Proof.
  intros HT HQ Hna. apply not_admin_actor in Hna.
  unfold getCurrentBookings, getBookings. rewrite HT, HQ, Hna. cbn.
  split; [reflexivity|].
  set (found := List.filter (fun d => String.eqb (userId (snd d)) uid)
                  (map_to_list (bookings w))).
  set (sorted := merge_sort (newest_first createdAt) (map (populate w) found)).
  assert (Hperm : sorted ≡ₚ map (populate w) found) by apply merge_sort_Permutation.
  eexists. split; [reflexivity|]. split; [|split].
  - apply StronglySorted_merge_sort; [apply newest_first_trans|apply newest_first_total].
  - change (map v_id sorted) with (v_id <$> sorted).
    rewrite Hperm. change (v_id <$> map (populate w) found) with (map v_id (map (populate w) found)).
    rewrite map_map. cbn.
    change (map (fun x => fst x) found) with (found.*1).
    apply NoDup_fst_filter, NoDup_fst_map_to_list.
  - intros v. fold sorted. rewrite Hperm. rewrite list_elem_of_fmap. split.
    + intros ([id b] & -> & Hd).
      apply list_elem_of_In, List.filter_In in Hd as [Hd Hq]. cbn in Hq.
      apply list_elem_of_In, elem_of_map_to_list in Hd.
      apply String.eqb_eq in Hq. exists id, b. auto.
    + intros (id & b & Hb & Hu & ->).
      exists (id, b). split; [reflexivity|].
      apply list_elem_of_In, List.filter_In. split.
      * apply list_elem_of_In, elem_of_map_to_list. exact Hb.
      * cbn. apply String.eqb_eq. exact Hu.
Qed.

Lemma listings_for_other_users_witness :
  getCurrentBookings no_read_fault "alice" noon_june11 two_ended = admin_access_required_list ∧
  ∃ l, getBookings created_in_order no_read_fault "alice" two_ended
       = mkListResponse 200 (BookingViews l) ∧ map v_id l = [2; 1].
Proof.
  destruct (listings_for_other_users created_in_order no_read_fault "alice" noon_june11
              two_ended eq_refl eq_refl) as (H403 & l & Hl & _).
  - intros (u & Hu & Ha). vm_compute in Hu. injection Hu as <-. discriminate.
  - split; [exact H403|]. exists l. split; [exact Hl|].
    assert (H : getBookings created_in_order no_read_fault "alice" two_ended
                = mkListResponse 200 (BookingViews
                    [populate two_ended (2, with_status Approved booking_two_days);
                     populate two_ended (1, with_status Approved booking_june10)]))
      by (vm_compute; reflexivity).
    rewrite H in Hl. injection Hl as <-. reflexivity.
Defined.

(** X18: for an admin and without faults, [GET /] answers 200 with every
    stored booking, each once, with its computer and the user found for its
    owner ([null] when no user has that [firebaseUid]), newest first. *)
Theorem getBookings_lists_all createdAt uid w :
  admin_actor w uid →
  ∃ l, getBookings createdAt no_read_fault uid w = mkListResponse 200 (BookingsWithUsers l) ∧
       StronglySorted (newest_first createdAt) (map bu_view l) ∧
       NoDup (map (fun x => v_id (bu_view x)) l) ∧
       ∀ x, x ∈ l ↔
         ∃ id b, bookings w !! id = Some b ∧
           x = mkBookingWithUser (mkBookingView id b (computers w !! computerId b))
                 (find_user w (userId b)).
Proof.
  intros (u & Hu & Hadm). unfold getBookings, find_user. cbn.
  rewrite Hu. cbn. rewrite Hadm. cbn.
  set (sorted := merge_sort (newest_first createdAt)
                   (map (populate w) (map_to_list (bookings w)))).
  assert (Hperm : sorted ≡ₚ map (populate w) (map_to_list (bookings w)))
    by apply merge_sort_Permutation.
  replace (existsb _ sorted) with false
    by (symmetry; clear; induction sorted; [reflexivity|assumption]).
  eexists. split; [reflexivity|]. split; [|split].
  - rewrite map_map. cbn. rewrite map_id.
    apply StronglySorted_merge_sort; [apply newest_first_trans|apply newest_first_total].
  - rewrite map_map. cbn.
    change (map (fun x => v_id x) sorted) with (v_id <$> sorted).
    rewrite Hperm.
    change (v_id <$> map (populate w) (map_to_list (bookings w)))
      with (map v_id (map (populate w) (map_to_list (bookings w)))).
    rewrite map_map. cbn. apply NoDup_fst_map_to_list.
  - intros x. rewrite list_elem_of_fmap. split.
    + intros (v & -> & Hv). rewrite Hperm in Hv.
      apply list_elem_of_fmap in Hv as ([id b] & -> & Hd).
      apply elem_of_map_to_list in Hd. exists id, b. auto.
    + intros (id & b & Hb & ->).
      exists (populate w (id, b)). split; [reflexivity|].
      rewrite Hperm. apply list_elem_of_fmap. exists (id, b). split; [reflexivity|].
      apply elem_of_map_to_list. exact Hb.
Qed.

Lemma getBookings_lists_all_witness :
  ∃ l, getBookings created_in_order no_read_fault "admin-uid" two_ended
       = mkListResponse 200 (BookingsWithUsers l) ∧
       map (fun x => bu_userInfo x) l = [Some alice; Some alice].
Proof.
  destruct (getBookings_lists_all created_in_order "admin-uid" two_ended) as (l & Hl & _).
  - exists admin0. split; reflexivity.
  - exists l. split; [exact Hl|].
    assert (H : getBookings created_in_order no_read_fault "admin-uid" two_ended
                = mkListResponse 200 (BookingsWithUsers
                    [with_user_info two_ended
                       (populate two_ended (2, with_status Approved booking_two_days));
                     with_user_info two_ended
                       (populate two_ended (1, with_status Approved booking_june10))]))
      by (vm_compute; reflexivity).
    rewrite H in Hl. injection Hl as <-. reflexivity.
Defined.

(** ** The sweep and the list of current bookings *)

(** X19: at one clock, every approved booking is selected by the sweep or
    listed by [GET /current]; none falls between the two queries.  It is in
    both exactly when it is a single-day booking of today whose end time has
    passed, or its end date has passed while its start date is still to
    come. *)
Theorem expired_or_current now b :
  status b = Approved →
  (expired_query now b = true ∨ current_query now b = true) ∧
  (expired_query now b = true ∧ current_query now b = true ↔
   (startDate b = currentDate now ∧ endDate b = currentDate now ∧
    String.ltb (endTime b) (currentTime now) = true) ∨
   (String.ltb (endDate b) (currentDate now) = true ∧
    String.ltb (currentDate now) (startDate b) = true)).
Proof.
  intros Hs. rewrite current_query_spec.
  unfold expired_query, elapsed.
  rewrite bool_decide_eq_true_2 by exact Hs. cbn.
  rewrite !orb_true_iff, !andb_true_iff, !String.eqb_eq.
  rewrite (string_leb_ltb (currentDate now) (endDate b)).
  destruct (String.ltb (endDate b) (currentDate now)) eqn:He; cbn; split.
  - left. right. reflexivity.
  - split.
    + intros [_ [_ [H|H]]]; [right; auto|discriminate].
    + intros [(_ & He' & _)|[_ H]].
      * rewrite He', string_ltb_irrefl in He. discriminate.
      * split; [right; reflexivity|]. split; [exact Hs|]. left. exact H.
  - right. split; [exact Hs|]. right. reflexivity.
  - split.
    + intros [[H|H] _]; [left; tauto|discriminate].
    + intros [H|[H _]]; [|discriminate].
      split; [left; tauto|]. split; [exact Hs|]. right. reflexivity.
Qed.

Lemma expired_or_current_witness :
  expired_query noon_june11 (with_status Approved booking_two_days) = false ∧
  current_query noon_june11 (with_status Approved booking_two_days) = true.
Proof.
  destruct (expired_or_current noon_june11 (with_status Approved booking_two_days) eq_refl)
    as [[H|H] _].
  - vm_compute in H. discriminate.
  - split; [reflexivity|exact H].
Defined.

(** ** Strings of the form and the order of time *)

Section FormatOrder.

Import DateFns.
Open Scope Z_scope.

Lemma digit_compare a b :
  0 <= a < 10 → 0 <= b < 10 → Ascii.compare (digit a) (digit b) = (a ?= b).
Proof.
  intros Ha Hb.
  assert (a = 0 ∨ a = 1 ∨ a = 2 ∨ a = 3 ∨ a = 4 ∨ a = 5 ∨ a = 6 ∨ a = 7 ∨ a = 8 ∨ a = 9)
    as Hca by lia.
  assert (b = 0 ∨ b = 1 ∨ b = 2 ∨ b = 3 ∨ b = 4 ∨ b = 5 ∨ b = 6 ∨ b = 7 ∨ b = 8 ∨ b = 9)
    as Hcb by lia.
  repeat destruct Hca as [->|Hca]; try subst a;
    repeat destruct Hcb as [->|Hcb]; try subst b; reflexivity.
Qed.

Lemma append_cons c s1 s2 : (String c s1 ++ s2)%string = String c (s1 ++ s2)%string.
Proof. reflexivity. Qed.

Lemma append_empty s : ("" ++ s)%string = s.
Proof. reflexivity. Qed.

Lemma append_empty_r s : (s ++ "")%string = s.
Proof. induction s as [|c s IH]; [reflexivity|]. rewrite append_cons, IH. reflexivity. Qed.

Lemma digit_mod n : digit n = digit (n mod 10).
Proof. unfold digit. rewrite Z.mod_mod by lia. reflexivity. Qed.

(** Two digits in front of two strings: the numbers decide, then the rest. *)
Lemma pad2_compare a b s s' :
  0 <= a < 100 → 0 <= b < 100 →
  String.compare (pad2 a ++ s) (pad2 b ++ s')
  = match a ?= b with Eq => String.compare s s' | c => c end.
Proof.
  intros Ha Hb. unfold pad2. rewrite !append_cons, !append_empty. cbn [String.compare].
  rewrite (digit_mod a), (digit_mod b).
  rewrite !digit_compare by (Z.to_euclidean_division_equations; lia).
  destruct (Z.compare_spec (a / 10) (b / 10)) as [H1|H1|H1].
  - destruct (Z.compare_spec (a mod 10) (b mod 10)) as [H2|H2|H2].
    + replace (a ?= b) with Eq; [reflexivity|].
      symmetry. apply Z.compare_eq_iff. Z.to_euclidean_division_equations. lia.
    + replace (a ?= b) with Lt; [reflexivity|].
      symmetry. apply Z.compare_lt_iff. Z.to_euclidean_division_equations. lia.
    + replace (a ?= b) with Gt; [reflexivity|].
      symmetry. apply Z.compare_gt_iff. Z.to_euclidean_division_equations. lia.
  - replace (a ?= b) with Lt; [reflexivity|].
    symmetry. apply Z.compare_lt_iff. Z.to_euclidean_division_equations. lia.
  - replace (a ?= b) with Gt; [reflexivity|].
    symmetry. apply Z.compare_gt_iff. Z.to_euclidean_division_equations. lia.
Qed.

Lemma getHours_range t : 0 <= getHours t < 24.
Proof.
  unfold getHours, ms_per_day, ms_per_hour. Z.to_euclidean_division_equations. lia.
Qed.

Lemma getMinutes_range t : 0 <= getMinutes t < 60.
Proof.
  unfold getMinutes, ms_per_hour, ms_per_minute. Z.to_euclidean_division_equations. lia.
Qed.

Lemma format_time_compare t1 t2 :
  String.compare (format_time t1) (format_time t2)
  = (ValidatorSpec.minute_of_day t1 ?= ValidatorSpec.minute_of_day t2).
Proof.
  rewrite <- !hours_minutes. unfold format_time.
  pose proof (getHours_range t1) as Rh1. pose proof (getHours_range t2) as Rh2.
  pose proof (getMinutes_range t1) as Rm1. pose proof (getMinutes_range t2) as Rm2.
  rewrite pad2_compare by lia.
  destruct (Z.compare_spec (getHours t1) (getHours t2)) as [H1|H1|H1].
  - rewrite !append_cons, !append_empty. cbn [String.compare]. rewrite ascii_compare_refl.
    rewrite <- (append_empty_r (pad2 (getMinutes t1))), <- (append_empty_r (pad2 (getMinutes t2))).
    rewrite pad2_compare by lia. cbn [String.compare].
    rewrite H1.
    destruct (Z.compare_spec (getMinutes t1) (getMinutes t2)) as [H2|H2|H2]; symmetry.
    + apply Z.compare_eq_iff. lia.
    + apply Z.compare_lt_iff. lia.
    + apply Z.compare_gt_iff. lia.
  - symmetry. apply Z.compare_lt_iff. lia.
  - symmetry. apply Z.compare_gt_iff. lia.
Qed.

End FormatOrder.
Section DateOrder.

Import DateFns.
Open Scope Z_scope.

Lemma civil_compare_lt_iff a b :
  civil_compare a b = Lt ↔
  let '(y1, m1, d1) := a in
  let '(y2, m2, d2) := b in
  y1 < y2 ∨ (y1 = y2 ∧ (m1 < m2 ∨ (m1 = m2 ∧ d1 < d2))).
Proof.
  destruct a as [[y1 m1] d1], b as [[y2 m2] d2]. cbn.
  destruct (Z.compare_spec y1 y2); [|split; [lia|reflexivity]|split; [discriminate|lia]].
  destruct (Z.compare_spec m1 m2); [|split; [lia|reflexivity]|split; [discriminate|lia]].
  rewrite Z.compare_lt_iff. lia.
Qed.

Lemma civil_compare_refl a : civil_compare a a = Eq.
Proof. destruct a as [[y m] d]. cbn. rewrite !Z.compare_refl. reflexivity. Qed.

Lemma civil_compare_antisym a b : civil_compare a b = CompOpp (civil_compare b a).
Proof.
  destruct a as [[y1 m1] d1], b as [[y2 m2] d2]. cbn.
  rewrite (Z.compare_antisym y2 y1), (Z.compare_antisym m2 m1), (Z.compare_antisym d2 d1).
  destruct (y2 ?= y1), (m2 ?= m1), (d2 ?= d1); reflexivity.
Qed.

(** The day of the era. *)
Lemma era_doe z : 0 <= z - z / 146097 * 146097 < 146097.
Proof. Z.to_euclidean_division_equations. lia. Qed.

Lemma era_mono z1 z2 : z1 <= z2 → z1 / 146097 <= z2 / 146097.
Proof. intros. Z.to_euclidean_division_equations. lia. Qed.

(** The year of the era. *)
Lemma yoe_range doe :
  0 <= doe < 146097 → 0 <= (doe - doe / 1460 + doe / 36524 - doe / 146096) / 365 <= 399.
Proof. intros. Z.to_euclidean_division_equations. lia. Qed.

Lemma yoe_mono a b :
  0 <= a <= b → b < 146097 →
  (a - a / 1460 + a / 36524 - a / 146096) / 365 <= (b - b / 1460 + b / 36524 - b / 146096) / 365.
Proof. intros. Z.to_euclidean_division_equations. lia. Qed.

(** The day of the year, counted from 1 March. *)
Lemma doy_range doe :
  0 <= doe < 146097 →
  let yoe := (doe - doe / 1460 + doe / 36524 - doe / 146096) / 365 in
  0 <= doe - (365 * yoe + yoe / 4 - yoe / 100) <= 365.
Proof.
  intros H yoe. subst yoe. pose proof (yoe_range doe H).
  split; Z.to_euclidean_division_equations; lia.
Qed.

(** The month, counted from March, and the day of the month. *)
Lemma mp_facts doy :
  0 <= doy <= 365 →
  let mp := (5 * doy + 2) / 153 in
  0 <= mp <= 11 ∧ 1 <= doy - (153 * mp + 2) / 5 + 1 <= 31 ∧ (10 <= mp ↔ 306 <= doy).
Proof.
  intros H mp. subst mp.
  assert (0 <= (5 * doy + 2) / 153 <= 11) by (Z.to_euclidean_division_equations; lia).
  split; [assumption|].
  split; [split; Z.to_euclidean_division_equations; lia|].
  split; intros; Z.to_euclidean_division_equations; lia.
Qed.

Lemma mp_mono a b :
  0 <= a < b → b <= 365 →
  let mpa := (5 * a + 2) / 153 in
  let mpb := (5 * b + 2) / 153 in
  mpa < mpb ∨ (mpa = mpb ∧ a - (153 * mpa + 2) / 5 + 1 < b - (153 * mpb + 2) / 5 + 1).
Proof.
  intros H H0 mpa mpb.
  assert ((5 * a + 2) / 153 <= (5 * b + 2) / 153) by (Z.to_euclidean_division_equations; lia).
  destruct (Z.eq_dec ((5 * a + 2) / 153) ((5 * b + 2) / 153)) as [E|E]; [right|left; lia].
  split; [assumption|]. subst mpa mpb. rewrite E. lia.
Qed.

(** A later day has a later civil date. *)
Lemma civil_of_days_lt n1 n2 :
  n1 < n2 → civil_compare (civil_of_days n1) (civil_of_days n2) = Lt.
Proof.
  intros H. apply civil_compare_lt_iff. unfold civil_of_days. cbv zeta.
  set (z1 := n1 + 719468). set (z2 := n2 + 719468).
  assert (Hz : z1 < z2) by (unfold z1, z2; lia). clearbody z1 z2. clear H n1 n2.
  pose proof (era_doe z1) as Hd1. pose proof (era_doe z2) as Hd2.
  pose proof (era_mono z1 z2 ltac:(lia)) as He.
  set (e1 := z1 / 146097) in *. set (e2 := z2 / 146097) in *.
  set (doe1 := z1 - e1 * 146097) in *. set (doe2 := z2 - e2 * 146097) in *.
  assert (Hdoe : e1 = e2 → doe1 < doe2) by (unfold doe1, doe2; lia).
  clearbody doe1 doe2. clearbody e1 e2. clear Hz z1 z2.
  pose proof (yoe_range doe1 Hd1) as Hy1. pose proof (yoe_range doe2 Hd2) as Hy2.
  pose proof (doy_range doe1 Hd1) as Hr1. pose proof (doy_range doe2 Hd2) as Hr2.
  assert (Hym : e1 = e2 →
    (doe1 - doe1 / 1460 + doe1 / 36524 - doe1 / 146096) / 365
    <= (doe2 - doe2 / 1460 + doe2 / 36524 - doe2 / 146096) / 365).
  { intros E. apply yoe_mono; lia. }
  cbv zeta in Hr1, Hr2.
  set (y1 := (doe1 - doe1 / 1460 + doe1 / 36524 - doe1 / 146096) / 365) in *.
  set (y2 := (doe2 - doe2 / 1460 + doe2 / 36524 - doe2 / 146096) / 365) in *.
  set (doy1 := doe1 - (365 * y1 + y1 / 4 - y1 / 100)) in *.
  set (doy2 := doe2 - (365 * y2 + y2 / 4 - y2 / 100)) in *.
  assert (Hdoy : e1 = e2 → y1 = y2 → doy1 < doy2).
  { intros E1 E2. unfold doy1, doy2. rewrite E2. specialize (Hdoe E1). lia. }
  clearbody doy1 doy2. clearbody y1 y2. clear Hdoe Hd1 Hd2 doe1 doe2.
  pose proof (mp_facts doy1 Hr1) as Hm1. pose proof (mp_facts doy2 Hr2) as Hm2.
  assert (Hmm : doy1 < doy2 →
    let mpa := (5 * doy1 + 2) / 153 in
    let mpb := (5 * doy2 + 2) / 153 in
    mpa < mpb ∨ (mpa = mpb ∧ doy1 - (153 * mpa + 2) / 5 + 1 < doy2 - (153 * mpb + 2) / 5 + 1)).
  { intros E. apply mp_mono; lia. }
  cbv zeta in Hm1, Hm2, Hmm.
  set (mp1 := (5 * doy1 + 2) / 153) in *. set (mp2 := (5 * doy2 + 2) / 153) in *.
  set (d1 := doy1 - (153 * mp1 + 2) / 5 + 1) in *.
  set (d2 := doy2 - (153 * mp2 + 2) / 5 + 1) in *.
  clearbody d1 d2. clearbody mp1 mp2.
  destruct (mp1 <? 10) eqn:B1; destruct (mp2 <? 10) eqn:B2;
    rewrite ?Z.ltb_lt, ?Z.ltb_ge in *;
    repeat match goal with |- context [if ?c then _ else _] => destruct c eqn:? end;
    rewrite ?Z.leb_le, ?Z.leb_gt in *; lia.
Qed.

Lemma civil_of_days_compare n1 n2 :
  civil_compare (civil_of_days n1) (civil_of_days n2) = (n1 ?= n2).
Proof.
  destruct (Z.compare_spec n1 n2) as [->|H|H].
  - apply civil_compare_refl.
  - apply civil_of_days_lt. exact H.
  - rewrite civil_compare_antisym, (civil_of_days_lt n2 n1 H). reflexivity.
Qed.

Lemma civil_of_days_month_day n :
  let '(y, m, d) := civil_of_days n in 1 <= m <= 12 ∧ 1 <= d <= 31.
Proof.
  unfold civil_of_days. cbv zeta.
  pose proof (era_doe (n + 719468)) as Hd.
  set (doe := n + 719468 - (n + 719468) / 146097 * 146097) in *. clearbody doe.
  pose proof (doy_range doe Hd) as Hr. cbv zeta in Hr.
  set (yoe := (doe - doe / 1460 + doe / 36524 - doe / 146096) / 365) in *. clearbody yoe.
  set (doy := doe - (365 * yoe + yoe / 4 - yoe / 100)) in *. clearbody doy.
  pose proof (mp_facts doy Hr) as Hm. cbv zeta in Hm.
  set (mp := (5 * doy + 2) / 153) in *. clearbody mp.
  destruct (mp <? 10) eqn:B; rewrite ?Z.ltb_lt, ?Z.ltb_ge in B; lia.
Qed.

(** From 1 January 0001 to 31 December 9999 the year has four digits. *)
Lemma civil_of_days_range n :
  four_digit_year n →
  let '(y, m, d) := civil_of_days n in
  1 <= y < 10000 ∧ 1 <= m <= 12 ∧ 1 <= d <= 31.
Proof.
  intros [Hlo Hhi].
  pose proof (civil_of_days_month_day n) as Hmd.
  pose proof (civil_of_days_compare n 2932897) as Hup.
  pose proof (civil_of_days_compare (-719162) n) as Hdown.
  replace (n ?= 2932897) with Lt in Hup by (symmetry; apply Z.compare_lt_iff; lia).
  change (civil_of_days 2932897) with (10000, 1, 1) in Hup.
  change (civil_of_days (-719162)) with (1, 1, 1) in Hdown.
  destruct (civil_of_days n) as [[y m] d].
  apply civil_compare_lt_iff in Hup.
  destruct (Z.compare_spec (-719162) n) as [E|E|E]; [| |lia].
  - unfold civil_compare in Hdown.
    destruct (Z.compare_spec 1 y); [|discriminate|discriminate]. lia.
  - apply civil_compare_lt_iff in Hdown. lia.
Qed.

Lemma pad2_mod a : pad2 a = pad2 (a mod 100).
Proof.
  unfold pad2. rewrite (digit_mod (a / 10)), (digit_mod a), (digit_mod (a mod 100 / 10)),
    (digit_mod (a mod 100)).
  f_equal; [f_equal|f_equal; f_equal]; Z.to_euclidean_division_equations; lia.
Qed.

(** Four digits in front of two strings: the numbers decide, then the rest. *)
Lemma pad4_compare a b s s' :
  0 <= a < 10000 → 0 <= b < 10000 →
  String.compare (pad4 a ++ s) (pad4 b ++ s')
  = match a ?= b with Eq => String.compare s s' | c => c end.
Proof.
  intros Ha Hb.
  assert (E : ∀ n u, (pad4 n ++ u)%string = (pad2 (n / 100) ++ pad2 (n mod 100) ++ u)%string).
  { intros n u. unfold pad4. rewrite (pad2_mod n). unfold pad2.
    rewrite !append_cons, !append_empty.
    replace (n / 100 / 10) with (n / 1000) by (Z.to_euclidean_division_equations; lia).
    reflexivity. }
  rewrite !E.
  rewrite pad2_compare by (Z.to_euclidean_division_equations; lia).
  rewrite pad2_compare by (Z.to_euclidean_division_equations; lia).
  destruct (Z.compare_spec (a / 100) (b / 100)) as [H1|H1|H1].
  - destruct (Z.compare_spec (a mod 100) (b mod 100)) as [H2|H2|H2].
    + replace (a ?= b) with Eq; [reflexivity|].
      symmetry. apply Z.compare_eq_iff. Z.to_euclidean_division_equations. lia.
    + replace (a ?= b) with Lt; [reflexivity|].
      symmetry. apply Z.compare_lt_iff. Z.to_euclidean_division_equations. lia.
    + replace (a ?= b) with Gt; [reflexivity|].
      symmetry. apply Z.compare_gt_iff. Z.to_euclidean_division_equations. lia.
  - replace (a ?= b) with Lt; [reflexivity|].
    symmetry. apply Z.compare_lt_iff. Z.to_euclidean_division_equations. lia.
  - replace (a ?= b) with Gt; [reflexivity|].
    symmetry. apply Z.compare_gt_iff. Z.to_euclidean_division_equations. lia.
Qed.

(** In these years the form and [toISOString] write the same date. *)
Lemma format_date_four_digits t :
  four_digit_year (t / ms_per_day) →
  format_date t
  = (let '(y, m, d) := civil_of_days (t / ms_per_day) in
     pad4 y ++ "-" ++ pad2 m ++ "-" ++ pad2 d)%string
  ∧ toISODate t = format_date t.
Proof.
  intros H. unfold format_date, toISODate.
  pose proof (civil_of_days_range _ H) as R.
  destruct (civil_of_days (t / ms_per_day)) as [[y m] d].
  destruct R as (Ry & _). unfold addLeadingZeros4.
  destruct (Z.ltb_spec 0 y) as [_|]; [|lia].
  destruct (Z.ltb_spec y 10000) as [_|]; [|lia].
  destruct (Z.leb_spec 0 y) as [_|]; [|lia].
  destruct (Z.leb_spec y 9999) as [_|]; [|lia].
  split; reflexivity.
Qed.

Example format_date_outside_four_digits :
  format_date (make_date 0 6 10 0 0) = "0001-06-10" ∧
  toISODate (make_date 0 6 10 0 0) = "0000-06-10" ∧
  format_date (make_date 12024 6 10 0 0) = "12024-06-10" ∧
  toISODate (make_date 12024 6 10 0 0) = "+012024-06-10".
Proof. repeat split; vm_compute; reflexivity. Qed.

(** The dates the form writes are in the order of their days. *)
Lemma format_date_compare t1 t2 :
  four_digit_year (t1 / ms_per_day) → four_digit_year (t2 / ms_per_day) →
  String.compare (format_date t1) (format_date t2) = (t1 / ms_per_day ?= t2 / ms_per_day).
Proof.
  intros H1 H2.
  rewrite (proj1 (format_date_four_digits t1 H1)), (proj1 (format_date_four_digits t2 H2)).
  pose proof (civil_of_days_range _ H1) as R1. pose proof (civil_of_days_range _ H2) as R2.
  rewrite <- civil_of_days_compare.
  destruct (civil_of_days (t1 / ms_per_day)) as [[y1 m1] d1].
  destruct (civil_of_days (t2 / ms_per_day)) as [[y2 m2] d2].
  rewrite pad4_compare by lia. unfold civil_compare.
  destruct (y1 ?= y2); [|reflexivity|reflexivity].
  rewrite !append_cons, !append_empty. cbn [String.compare]. rewrite ascii_compare_refl.
  rewrite pad2_compare by lia.
  destruct (m1 ?= m2); [|reflexivity|reflexivity].
  rewrite ?append_cons, ?append_empty. cbn [String.compare]. rewrite ascii_compare_refl.
  rewrite <- (append_empty_r (pad2 d1)), <- (append_empty_r (pad2 d2)).
  rewrite pad2_compare by lia. cbn [String.compare].
  destruct (d1 ?= d2); reflexivity.
Qed.

Lemma string_eqb_compare a b :
  String.eqb a b = match String.compare a b with Eq => true | _ => false end.
Proof.
  destruct (String.eqb_spec a b) as [->|Hne].
  - rewrite string_compare_refl. reflexivity.
  - destruct (String.compare a b) eqn:E; [|reflexivity|reflexivity].
    apply String.compare_eq_iff in E. contradiction.
Qed.

Lemma string_ltb_compare a b :
  String.ltb a b = match String.compare a b with Lt => true | _ => false end.
Proof. reflexivity. Qed.

(** X20: the sweep compares strings, the form writes them from dates.  Take
    a booking that carries the dates and the end time of [bookingData], and a
    clock that reads one instant as [checkExpiredBookings] does: the date in
    UTC, the time of day in the zone of the server (all dates in the years
    0001 to 9999).  The [$or] of the query holds exactly when the booking
    starts and ends on the UTC day of the instant and its end time, to the
    minute, is before the local time of the server, or when it ends on a day
    before that UTC day.  The dates of the booking are days of the zone of
    the form. *)
Theorem sweep_reads_form_dates b f cid sd ed st et now utc local :
  dates_of_form b f cid sd ed st et →
  clock_reads now utc local →
  four_digit_year (sd / ms_per_day) → four_digit_year (ed / ms_per_day) →
  four_digit_year (utc / ms_per_day) →
  elapsed now b
  = ((sd / ms_per_day =? utc / ms_per_day) && (ed / ms_per_day =? utc / ms_per_day)
     && (ValidatorSpec.minute_of_day et <? ValidatorSpec.minute_of_day local))
    || (ed / ms_per_day <? utc / ms_per_day).
Proof.
  intros (Hs & He & Ht) [Hcd Hct] Hsd Hed Hnow.
  unfold bookingData in Hs, He, Ht. cbn [cb_startDate cb_endDate cb_endTime] in Hs, He, Ht.
  injection Hs as Hs. injection He as He. injection Ht as Ht.
  rewrite (proj2 (format_date_four_digits utc Hnow)) in Hcd.
  unfold elapsed. rewrite Hcd, Hct, <- Hs, <- He, <- Ht.
  rewrite !string_eqb_compare, !string_ltb_compare.
  rewrite !format_date_compare by assumption. rewrite format_time_compare.
  rewrite !Z.eqb_compare, !Z.ltb_compare.
  destruct (sd / ms_per_day ?= utc / ms_per_day), (ed / ms_per_day ?= utc / ms_per_day),
    (ValidatorSpec.minute_of_day et ?= ValidatorSpec.minute_of_day local); reflexivity.
Qed.

Lemma sweep_reads_form_dates_witness :
  elapsed (mkClock "2024-06-10" "12:01") booking_june10 = true.
Proof.
  rewrite (sweep_reads_form_dates booking_june10 form_june10 1
             (make_date 2024 6 10 0 0) (make_date 2024 6 10 0 0)
             (make_date 2024 6 1 9 0) (make_date 2024 6 1 10 0)
             (mkClock "2024-06-10" "12:01")
             (make_date 2024 6 10 10 1) (make_date 2024 6 10 12 1)).
  - vm_compute. reflexivity.
  - vm_compute. repeat split.
  - vm_compute. split; reflexivity.
  - split; [apply Z.leb_le|apply Z.ltb_lt]; vm_compute; reflexivity.
  - split; [apply Z.leb_le|apply Z.ltb_lt]; vm_compute; reflexivity.
  - split; [apply Z.leb_le|apply Z.ltb_lt]; vm_compute; reflexivity.
Defined.

End DateOrder.
(** ** From the form to the store *)

Lemma createBooking_success_any F uid body w r :
  fst (createBooking F uid body w) = Ok r →
  (200 <=? code r)%Z && (code r <? 300)%Z = true →
  ∃ b, status b = Pending ∧ userId b = uid ∧
       bookings (snd (createBooking F uid body w))
       = <[fresh (dom (bookings w)) := b]> (bookings w).
Proof.
  unfold createBooking, Computer_findById, new_id, Booking_save, User_findAdmins,
    Notification_insertMany, Booking_populate.
  munfold. cbn.
  destruct (cb_computerId body) as [cid|]; cbn;
    [|intros [= <-]; discriminate].
  destruct (present (cb_startDate body)) as [sd|]; cbn; [|intros [= <-]; discriminate].
  destruct (present (cb_endDate body)) as [ed|]; cbn; [|intros [= <-]; discriminate].
  destruct (present (cb_startTime body)) as [st|]; cbn; [|intros [= <-]; discriminate].
  destruct (present (cb_endTime body)) as [et|]; cbn; [|intros [= <-]; discriminate].
  destruct (present (cb_reason body)) as [r'|]; cbn; [|intros [= <-]; discriminate].
  destruct (F (tick w) (OpComputerFindById cid)); cbn; [intros [= <-]; discriminate|].
  destruct (computers w !! cid) as [c|]; cbn; [|intros [= <-]; discriminate].
  repeat (match goal with
          | |- context [if F ?t ?op then _ else _] => destruct (F t op)
          | |- context [match length ?l with _ => _ end] => destruct (length l)
          end; cbn);
    intros [= <-] Hcode; try discriminate Hcode;
    (eexists; split; [|split; [|reflexivity]]; reflexivity).
Qed.

(** X21: whatever the faults, [handleSubmit] ends with a message and throws
    nothing, and it changes no computer.  When it shows the success message,
    a pending booking of the user is in the store under a new identifier.
    The converse fails: the creation route may store the booking and still
    answer 500. *)
Theorem handleSubmit_success_means_stored F uid f w :
  let res := handleSubmit F uid f w in
  (∃ a, fst res = Ok a) ∧
  computers (snd res) = computers w ∧
  (∀ m, fst res = Ok (SetSuccess m) →
     ∃ b, status b = Pending ∧ userId b = uid ∧
          bookings (snd res) = <[fresh (dom (bookings w)) := b]> (bookings w)).
Proof.
  cbn zeta. unfold handleSubmit.
  destruct (selectedComputer f) as [cid|];
    [|cbn; split; [eauto|split; [reflexivity|discriminate]]].
  destruct (f_startDate f) as [sd|];
    [|cbn; split; [eauto|split; [reflexivity|discriminate]]].
  destruct (f_endDate f) as [ed|];
    [|cbn; split; [eauto|split; [reflexivity|discriminate]]].
  destruct (f_startTime f) as [st|];
    [|cbn; split; [eauto|split; [reflexivity|discriminate]]].
  destruct (f_endTime f) as [et|];
    [|cbn; split; [eauto|split; [reflexivity|discriminate]]].
  destruct (form_text_missing f);
    [cbn; split; [eauto|split; [reflexivity|discriminate]]|].
  destruct (validate_interval sd ed st et);
    [cbn; split; [eauto|split; [reflexivity|discriminate]]|].
  generalize (bookingData f cid sd ed st et). intros data.
  rewrite submit_eq. cbn [fst snd].
  pose proof (createBooking_success_any F uid data w) as Hstored.
  destruct (createBooking_any F uid data w) as (Hcs & _).
  destruct (fst (createBooking F uid data w)) as [r|e].
  - destruct ((200 <=? code r)%Z && (code r <? 300)%Z) eqn:Hcode.
    + split; [eauto|]. split; [exact Hcs|]. intros _ _. apply (Hstored r eq_refl Hcode).
    + split; [eauto|]. split; [exact Hcs|]. discriminate.
  - split; [eauto|]. split; [exact Hcs|]. discriminate.
Qed.

Lemma handleSubmit_success_means_stored_witness :
  ∃ b, status b = Pending ∧ userId b = "alice" ∧
       bookings (snd (handleSubmit no_fault "alice" form_june10 two_pending))
       = <[fresh (dom (bookings two_pending)) := b]> (bookings two_pending).
Proof.
  destruct (handleSubmit_success_means_stored no_fault "alice" form_june10 two_pending)
    as (_ & _ & Hstored).
  apply (Hstored "Booking request submitted successfully!").
  vm_compute. reflexivity.
Defined.

(** ** The interval of the form *)

Section Interval.

Import DateFns.
Open Scope Z_scope.

Lemma getDateTime_bounds d t :
  startOfDay d <= getDateTime d t <= startOfDay d + ms_per_day - ms_per_minute.
Proof.
  unfold getDateTime, setHours.
  pose proof (getHours_range t). pose proof (getMinutes_range t).
  unfold ms_per_day, ms_per_hour, ms_per_minute. lia.
Qed.

Lemma startOfDay_step a b :
  a + ms_per_day <= b → startOfDay a + ms_per_day <= startOfDay b.
Proof.
  unfold startOfDay, ms_per_day. intros H. Z.to_euclidean_division_equations. lia.
Qed.

(** X22: the times of a booking of more than one day are not tested.  When
    neither date is a Sunday and the end date is one to six full days after
    the start date, [handleSubmit] accepts every pair of start and end time,
    also an end time before the start time, and whatever the days in
    between. *)
Theorem multi_day_times_unchecked sd ed st et :
  getDay sd ≠ 0 → getDay ed ≠ 0 →
  1 <= differenceInDays ed sd <= 6 →
  validate_interval sd ed st et = None.
Proof.
  intros Hs He Hd. unfold validate_interval.
  destruct (Z.eqb_spec (getDay sd) 0) as [|_]; [contradiction|].
  destruct (Z.eqb_spec (getDay ed) 0) as [|_]; [contradiction|].
  assert (Hstep : sd + ms_per_day <= ed).
  { unfold differenceInDays, ms_per_day in *. Z.to_euclidean_division_equations. lia. }
  unfold isBefore.
  destruct (Z.ltb_spec ed sd) as [Hlt|_]; [unfold ms_per_day in Hstep; lia|].
  cbv zeta.
  destruct (Z.ltb_spec 7 (differenceInDays ed sd + 1)) as [Hlt|_]; [lia|].
  pose proof (getDateTime_bounds sd st) as Bs.
  pose proof (getDateTime_bounds ed et) as Be.
  pose proof (startOfDay_step sd ed Hstep) as Hday.
  destruct (Z.ltb_spec (getDateTime ed et) (getDateTime sd st)) as [Hlt|_].
  { unfold ms_per_day, ms_per_minute in *. lia. }
  destruct (Z.eqb_spec (differenceInDays ed sd) 0) as [E|_]; [lia|].
  reflexivity.
Qed.

Lemma multi_day_times_unchecked_witness :
  getDay (make_date 2024 6 9 0 0) = 0 ∧
  validate_interval (make_date 2024 6 8 0 0) (make_date 2024 6 10 0 0)
    (make_date 2024 6 1 18 0) (make_date 2024 6 1 9 0) = None.
Proof.
  split; [reflexivity|].
  apply multi_day_times_unchecked.
  - vm_compute. discriminate.
  - vm_compute. discriminate.
  - split; apply Z.leb_le; vm_compute; reflexivity.
Defined.

(** X23: a form that [handleSubmit] accepts never shows "0 minutes": its
    duration is at least one minute, and at least sixty when the dates are
    less than a full day apart.  It does not show the warning of the seven
    days either. *)
Theorem accepted_interval_duration sd ed st et :
  validate_interval sd ed st et = None →
  1 <= totalMinutes sd ed st et ∧
  (differenceInDays ed sd = 0 → 60 <= totalMinutes sd ed st et) ∧
  shows_zero_minutes (totalMinutes sd ed st et) = false ∧
  warns_over_7_days sd ed = false.
Proof.
  unfold validate_interval, isBefore. cbv zeta. intros H.
  destruct (getDay sd =? 0); [discriminate|].
  destruct (getDay ed =? 0); [discriminate|].
  destruct (Z.ltb_spec ed sd) as [|Hle]; [discriminate|].
  destruct (Z.ltb_spec 7 (differenceInDays ed sd + 1)) as [|Hseven]; [discriminate|].
  destruct (Z.ltb_spec (getDateTime ed et) (getDateTime sd st)) as [|Horder]; [discriminate|].
  pose proof (getDateTime_bounds sd st) as Bs.
  pose proof (getDateTime_bounds ed et) as Be.
  assert (Hsame : differenceInDays ed sd = 0 →
                  ms_per_hour <= getDateTime ed et - getDateTime sd st).
  { intros E. rewrite E in H. cbn [Z.eqb andb] in H.
    destruct (Z.ltb_spec (differenceInHours (getDateTime ed et) (getDateTime sd st)) 1)
      as [|Hh]; [discriminate|].
    unfold differenceInHours, ms_per_hour in *. Z.to_euclidean_division_equations. lia. }
  assert (Hmulti : differenceInDays ed sd ≠ 0 →
                   ms_per_minute <= getDateTime ed et - getDateTime sd st).
  { intros Hne.
    assert (Hstep : sd + ms_per_day <= ed).
    { unfold differenceInDays, ms_per_day in *. Z.to_euclidean_division_equations. lia. }
    pose proof (startOfDay_step sd ed Hstep).
    unfold ms_per_day, ms_per_minute in *. lia. }
  assert (Hone : 1 <= totalMinutes sd ed st et).
  { unfold totalMinutes.
    destruct (Z.eq_dec (differenceInDays ed sd) 0) as [E|E];
      [specialize (Hsame E)|specialize (Hmulti E)];
      unfold ms_per_hour, ms_per_minute in *; Z.to_euclidean_division_equations; lia. }
  split; [exact Hone|]. split.
  - intros E. specialize (Hsame E). unfold totalMinutes.
    unfold ms_per_hour, ms_per_minute in *. Z.to_euclidean_division_equations. lia.
  - split.
    + unfold shows_zero_minutes, duration_parts.
      set (total := totalMinutes sd ed st et) in *. clearbody total.
      destruct (Z.ltb_spec 0 (total / (60 * 24))) as [|Hd]; [reflexivity|].
      destruct (Z.ltb_spec 0 (total mod (60 * 24) / 60)) as [|Hh]; [reflexivity|].
      destruct (Z.ltb_spec 0 (total mod 60)) as [|Hm]; [reflexivity|].
      exfalso. Z.to_euclidean_division_equations. lia.
    + unfold warns_over_7_days. apply Z.ltb_ge. exact Hseven.
Qed.

Lemma accepted_interval_duration_witness :
  1 <= totalMinutes (make_date 2024 6 10 0 0) (make_date 2024 6 11 0 0)
         (make_date 2024 6 1 23 59) (make_date 2024 6 1 0 0) ∧
  totalMinutes (make_date 2024 6 10 0 0) (make_date 2024 6 11 0 0)
    (make_date 2024 6 1 23 59) (make_date 2024 6 1 0 0) = 1.
Proof.
  split; [|reflexivity].
  apply (accepted_interval_duration (make_date 2024 6 10 0 0) (make_date 2024 6 11 0 0)
           (make_date 2024 6 1 23 59) (make_date 2024 6 1 0 0)).
  vm_compute. reflexivity.
Defined.

Lemma getDateTime_whole_minute d t :
  t mod ms_per_minute = 0 → getDateTime d t = startOfDay d + t mod ms_per_day.
Proof.
  intros Hm. unfold getDateTime, setHours, getHours, getMinutes.
  assert (E1 : t mod ms_per_hour = (t mod ms_per_day) mod ms_per_hour).
  { unfold ms_per_day, ms_per_hour. Z.to_euclidean_division_equations. lia. }
  assert (E2 : (t mod ms_per_hour) mod ms_per_minute = 0).
  { unfold ms_per_hour, ms_per_minute in *. Z.to_euclidean_division_equations. lia. }
  rewrite E1 in *. set (x := t mod ms_per_day) in *. clearbody x.
  unfold ms_per_hour, ms_per_minute in *. Z.to_euclidean_division_equations. lia.
Qed.

(** X24: the warning "Duration is less than 1 hour" compares the two picked
    times as they are, [handleSubmit] combines them with the dates.  The two
    agree when the dates are of one day and the times are picked on one day
    at whole minutes. *)
Theorem short_warning_agrees sd ed st et :
  startOfDay sd = startOfDay ed →
  startOfDay st = startOfDay et →
  st mod ms_per_minute = 0 → et mod ms_per_minute = 0 →
  warns_under_1_hour sd ed st et
  = (differenceInDays ed sd =? 0)
    && (differenceInHours (getDateTime ed et) (getDateTime sd st) <? 1).
Proof.
  intros Hd Ht Hs He. unfold warns_under_1_hour. f_equal.
  rewrite (getDateTime_whole_minute ed et He), (getDateTime_whole_minute sd st Hs), Hd.
  unfold differenceInHours.
  replace (startOfDay ed + et mod ms_per_day - (startOfDay ed + st mod ms_per_day))
    with (et - st); [reflexivity|].
  unfold startOfDay in Ht. lia.
Qed.

Lemma short_warning_agrees_witness :
  warns_under_1_hour (make_date 2024 6 10 0 0) (make_date 2024 6 10 0 0)
    (make_date 2024 6 1 9 0) (make_date 2024 6 1 9 30)
  = (differenceInDays (make_date 2024 6 10 0 0) (make_date 2024 6 10 0 0) =? 0)
    && (differenceInHours
          (getDateTime (make_date 2024 6 10 0 0) (make_date 2024 6 1 9 30))
          (getDateTime (make_date 2024 6 10 0 0) (make_date 2024 6 1 9 0)) <? 1).
Proof.
  apply short_warning_agrees; vm_compute; reflexivity.
Defined.

End Interval.
